(** * BhoolamMind: record store, delete protection, memory retrieval and
      context prompt, embedded from the Python sources

    - [PyTime]   : the readings of [datetime.now()] and the two text formats
                   the sources print them in;
    - [Store]    : [modules/database.py] (table [interactions]) and
                   [modules/ai_delete_protection.py] (table
                   [deleted_interactions]);
    - [Injector] : [modules/memory_injector.py];
    - [Semantic] : the vector branch of [find_similar_memories] in double
                   precision;
    - [Rag]      : [modules/rag_engine.py], [generate_context_prompt];
    - [Checked]  : the calls of [database.py] and [memory_injector.py]
                   together with the range checks of [sqlite3] and
                   [datetime].

    Conventions.  Python [str] is modelled by [string] (one character per
    code point, so the development speaks about ASCII text), Python [int] by
    [Z], a value that may be [None] by [option].  An [except Exception]
    clause is modelled by the branch that returns what the clause returns.

    Scores.  [Injector] and [RagRetrieval] carry the scores as exact
    rationals [Q]: that is enough for what is proved there about selection,
    order and duplicates.  What is proved about the values of the
    similarity itself is proved in [Semantic], where the arithmetic is that
    of IEEE 754 binary64, the Python [float].

    Ranges.  [Store], [Catalog] and [Injector] describe the calls whose
    integer arguments SQLite and [datetime] accept; [Checked] adds what the
    same calls do with the others. *)

From Stdlib Require Import ZArith List String Ascii Bool Lia.
From Stdlib Require Import DecimalString QArith Lqa Permutation Sorted.
From Stdlib Require Import SpecFloat.
Import ListNotations.

Local Open Scope string_scope.
Local Open Scope list_scope.
Local Open Scope Z_scope.

(** An f-string: the concatenation of its pieces. *)
Definition fstr (pieces : list string) : string := String.concat "" pieces.

(** ** Python values shared by the modules *)

(** [str(n)] / [f"{n}"] for an [int]. *)
Definition str_of_int (n : Z) : string := NilZero.string_of_int (Z.to_int n).

(** [s[:n]] for [0 <= n]. *)
Definition py_prefix (n : nat) (s : string) : string := substring 0 n s.

(** Truthiness of an optional [str]: [None] and the empty string are false. *)
Definition truthy (o : option string) : bool :=
  match o with
  | None => false
  | Some s => negb (String.eqb s "")
  end.

(** [o or d] for an optional [str]. *)
Definition py_or (o : option string) (d : string) : string :=
  match o with
  | Some s => if String.eqb s "" then d else s
  | None => d
  end.

Definition opt_eqb (a b : option string) : bool :=
  match a, b with
  | Some x, Some y => String.eqb x y
  | None, None => true
  | _, _ => false
  end.

(** Exceptions that reach a caller, by class name.  [NotFoundError] and
    [ValidationError] are the classes the specification names. *)
Inductive exn : Set :=
| IntegrityError
| TypeError
| OverflowError
| NotFoundError
| ValidationError.

Inductive outcome (A : Type) : Type :=
| Returns (a : A)
| Raises (e : exn).
Arguments Returns {A} a.
Arguments Raises {A} e.

(** ** Clock readings and their formats *)
Module PyTime.

(** A naive [datetime]: microseconds since 1970-01-01T00:00:00. *)
Definition datetime := Z.

Definition us_per_second : Z := 1000000.
Definition us_per_day : Z := 86400 * us_per_second.

(** [t - timedelta(days=d)] *)
Definition minus_days (t : datetime) (d : Z) : datetime := t - d * us_per_day.

(** Year, month and day of a day number counted from 1970-01-01
    (proleptic Gregorian calendar, as [datetime] uses). *)
Definition civil_from_days (z0 : Z) : Z * Z * Z :=
  let z := z0 + 719468 in
  let era := z / 146097 in
  let doe := z - era * 146097 in
  let yoe := (doe - doe / 1460 + doe / 36524 - doe / 146096) / 365 in
  let doy := doe - (365 * yoe + yoe / 4 - yoe / 100) in
  let mp := (5 * doy + 2) / 153 in
  let d := doy - (153 * mp + 2) / 5 + 1 in
  let m := if mp <? 10 then mp + 3 else mp - 9 in
  let y := yoe + era * 400 + (if m <=? 2 then 1 else 0) in
  (y, m, d).

Fixpoint zeros (n : nat) : string :=
  match n with
  | O => ""
  | S k => String "0" (zeros k)
  end.

(** ["%0wd"] *)
Definition pad (w : nat) (n : Z) : string :=
  let s := str_of_int n in
  fstr [zeros (w - String.length s); s].

Definition date_part (t : datetime) : Z * Z * Z := civil_from_days (t / us_per_day).
Definition second_of_day (t : datetime) : Z := (t mod us_per_day) / us_per_second.
Definition hour (t : datetime) : Z := second_of_day t / 3600.
Definition minute (t : datetime) : Z := (second_of_day t mod 3600) / 60.
Definition second (t : datetime) : Z := second_of_day t mod 60.
Definition microsecond (t : datetime) : Z := t mod us_per_second.

(** [t.isoformat()]: the fraction is printed only when it is not zero. *)
Definition isoformat (t : datetime) : string :=
  let '(y, m, d) := date_part t in
  fstr [pad 4 y; "-"; pad 2 m; "-"; pad 2 d; "T";
        pad 2 (hour t); ":"; pad 2 (minute t); ":"; pad 2 (second t);
        if microsecond t =? 0 then "" else fstr ["."; pad 6 (microsecond t)]].

(** [t.strftime('%Y%m%d_%H%M%S')] *)
Definition strftime_compact (t : datetime) : string :=
  let '(y, m, d) := date_part t in
  fstr [pad 4 y; pad 2 m; pad 2 d; "_";
        pad 2 (hour t); pad 2 (minute t); pad 2 (second t)].

End PyTime.

(** ** The ranges of the integers the calls take *)
Module Limits.
Import PyTime.

(** An [int] bound to a [?] of a statement must fit SQLite's INTEGER, a
    signed 64-bit number: otherwise [cursor.execute] raises [OverflowError]
    before the statement runs. *)
Definition fits_int64 (n : Z) : bool := (- 2 ^ 63 <=? n) && (n <? 2 ^ 63).

(** [timedelta(days=d)] raises [OverflowError] beyond 999999999 days. *)
Definition timedelta_ok (d : Z) : bool := (-999999999 <=? d) && (d <=? 999999999).

(** [datetime.min], 0001-01-01T00:00:00, and [datetime.max],
    9999-12-31T23:59:59.999999. *)
Definition datetime_min : datetime := -62135596800 * us_per_second.
Definition datetime_max : datetime := 253402300800 * us_per_second - 1.

Definition datetime_ok (t : datetime) : bool :=
  (datetime_min <=? t) && (t <=? datetime_max).

(** [datetime.now() - timedelta(days=days_back)] does not raise. *)
Definition cutoff_ok (now : datetime) (days_back : Z) : bool :=
  timedelta_ok days_back && datetime_ok (minus_days now days_back).

End Limits.

(** ** The record store: [database.py] and [ai_delete_protection.py] *)
Module Store.
Import PyTime.

(** A row of table [interactions], columns in the order of the
    [CREATE TABLE] statement (that is the order in which [SELECT *] returns
    them: index 0 is [id], index 1 is [text], ..., index 8 is [timestamp]). *)
Record interaction : Type := mk_interaction {
  id : Z;                    (* INTEGER PRIMARY KEY AUTOINCREMENT *)
  text : string;             (* TEXT NOT NULL *)
  source : option string;    (* TEXT DEFAULT 'manual' *)
  tags : option string;
  emotion : option string;
  mood : option string;
  intensity : Z;             (* INTEGER DEFAULT 1 *)
  bit_worthy : bool;         (* BOOLEAN DEFAULT 0 *)
  timestamp : string;
  created_at : string        (* TEXT DEFAULT CURRENT_TIMESTAMP *)
}.

(** What one call reads from its environment: the clock of
    [datetime.now()], SQLite's [CURRENT_TIMESTAMP], and whether
    [shutil.copy2] of the database file succeeds. *)
Record env : Type := mk_env {
  now : datetime;
  current_timestamp : string;
  copy_ok : bool
}.

Section Serialized.

(** [str(interaction_data)] writes a fetched row as text and [eval] reads
    such a text back; [D] is the type of those texts. *)
Context {D : Type}.
Variable py_str : interaction -> D.
Variable py_eval : D -> option interaction.

(** A row of table [deleted_interactions]. *)
Record deleted_interaction : Type := mk_deleted {
  del_id : Z;
  original_text : string;
  deletion_reason : string;
  deletion_timestamp : string;
  original_data : D;
  backup_location : string
}.

(** The database file: both tables in rowid order, and the counter that
    SQLite keeps in [sqlite_sequence] for the AUTOINCREMENT key. *)
Record db : Type := mk_db {
  interactions : list interaction;
  seq : Z;
  deleted_interactions : list deleted_interaction
}.

Definition empty_db : db := mk_db [] 0 [].

Definition max_rowid (rows : list interaction) : Z :=
  fold_right (fun r m => Z.max (id r) m) 0 rows.

(** The key AUTOINCREMENT gives the next row: one more than the largest key
    the table has ever held. *)
Definition next_rowid (s : db) : Z :=
  Z.max (seq s) (max_rowid (interactions s)) + 1.

(** [INSERT INTO interactions (...) VALUES (...)]: returns [lastrowid]. *)
Definition insert_interaction (e : env) (s : db)
    (t : string) (src tg em md : option string) (inten : Z) (bw : bool)
    (ts : string) : Z * db :=
  let i := next_rowid s in
  (i, mk_db (interactions s ++
               [mk_interaction i t src tg em md inten bw ts (current_timestamp e)])
            i
            (deleted_interactions s)).

(** [BhoolamindDB.add_interaction], for an [intensity] that fits SQLite's
    INTEGER ([Checked.add_interaction] has the other case).  [text] is any
    Python value the caller passes for a string: [None] violates
    [NOT NULL], anything else is inserted as it is. *)
Definition add_interaction (e : env) (s : db) (t : option string)
    (src tg em md : option string) (inten : Z) (bw : bool) : outcome Z * db :=
  match t with
  | None => (Raises IntegrityError, s)
  | Some t' =>
      let '(i, s') :=
        insert_interaction e s t' src tg em md inten bw (isoformat (now e)) in
      (Returns i, s')
  end.

(** [SELECT * FROM interactions WHERE id = ?] then [fetchone()]. *)
Definition fetch_interaction (s : db) (i : Z) : option interaction :=
  find (fun r => id r =? i) (interactions s).

(** [SELECT * FROM deleted_interactions WHERE id = ?] then [fetchone()]. *)
Definition fetch_deleted (s : db) (i : Z) : option deleted_interaction :=
  find (fun d => del_id d =? i) (deleted_interactions s).

Definition deletion_log_text (i : Z) (reason original : string) : string :=
  fstr ["DELETION LOG: Deleted interaction "; str_of_int i; ". Reason: "; reason;
        ". Original: "; py_prefix 100 original; "..."].

Definition restoration_log_text (i : Z) (reason : string) : string :=
  fstr ["RESTORATION LOG: Restored interaction "; str_of_int i;
        ". Originally deleted: "; reason].

Definition backup_path (e : env) : string :=
  fstr ["backups/pre_delete/pre_delete_"; strftime_compact (now e); ".db"].

(** [AIDeleteProtection.safe_delete_interaction].  The body is one
    [try] whose [except Exception] returns [False], so the call always
    returns; nothing is committed on the two [False] paths. *)
Definition safe_delete_interaction (e : env) (s : db) (interaction_id : Z)
    (reason : string) : outcome bool * db :=
  if negb (copy_ok e) then (Returns false, s)           (* STEP 1 raised *)
  else
    match fetch_interaction s interaction_id with
    | None => (Returns false, s)                        (* STEP 2: not found *)
    | Some interaction_data =>
        (* STEP 3: the deletion log entry, mood NULL, bit_worthy 0 *)
        let '(_, s1) :=
          insert_interaction e s
            (deletion_log_text interaction_id reason (text interaction_data))
            (Some "ai_delete_protection") (Some "deletion_log,ai_safety,backup")
            (Some "protective") None 8 false (isoformat (now e)) in
        (* STEP 4: the row of deleted_interactions *)
        let tomb :=
          mk_deleted interaction_id (text interaction_data) reason
                     (isoformat (now e)) (py_str interaction_data)
                     (backup_path e) in
        (* STEP 5: DELETE FROM interactions WHERE id = ? *)
        (Returns true,
         mk_db (filter (fun r => negb (id r =? interaction_id)) (interactions s1))
               (seq s1)
               (deleted_interactions s1 ++ [tomb]))
    end.

(** [AIDeleteProtection.restore_deleted_interaction].  [original_data[1:9]]
    are the columns [text] to [timestamp] of the evaluated row, in the order
    of the INSERT's column list; [id] and [created_at] are not restored. *)
Definition restore_deleted_interaction (e : env) (s : db) (interaction_id : Z)
    : outcome bool * db :=
  match fetch_deleted s interaction_id with
  | None => (Returns false, s)
  | Some deleted_data =>
      match py_eval (original_data deleted_data) with
      | None => (Returns false, s)                      (* eval raised *)
      | Some o =>
          let '(_, s1) :=
            insert_interaction e s (text o) (source o) (tags o) (emotion o)
                               (mood o) (intensity o) (bit_worthy o) (timestamp o) in
          let '(_, s2) :=
            insert_interaction e s1
              (restoration_log_text interaction_id (deletion_reason deleted_data))
              (Some "ai_delete_protection")
              (Some "restoration_log,ai_safety,recovery")
              (Some "recovered") None 7 false (isoformat (now e)) in
          (Returns true,
           mk_db (interactions s2) (seq s2)
                 (filter (fun d => negb (del_id d =? interaction_id))
                         (deleted_interactions s2)))
      end
  end.

(** The row [safe_delete_interaction] writes into [interactions]. *)
Definition deletion_log_row (e : env) (s : db) (i : Z) (reason : string)
    (r : interaction) : interaction :=
  mk_interaction (next_rowid s) (deletion_log_text i reason (text r))
                 (Some "ai_delete_protection") (Some "deletion_log,ai_safety,backup")
                 (Some "protective") None 8 false (isoformat (now e))
                 (current_timestamp e).

(** The row it writes into [deleted_interactions]. *)
Definition tombstone (e : env) (i : Z) (reason : string) (r : interaction)
  : deleted_interaction :=
  mk_deleted i (text r) reason (isoformat (now e)) (py_str r) (backup_path e).

(** What the reachable databases satisfy: every key, live or deleted, has
    been handed out by the counter, and no key is both live and deleted. *)
Definition db_inv (s : db) : Prop :=
  (forall r, In r (interactions s) -> id r <= seq s) /\
  (forall d, In d (deleted_interactions s) -> del_id d <= seq s) /\
  (forall r d, In r (interactions s) -> In d (deleted_interactions s) ->
               id r <> del_id d).

End Serialized.

Arguments db D : clear implicits.
Arguments deleted_interaction D : clear implicits.
Arguments empty_db {D}.

End Store.

(** ** Built-ins of Python and SQLite that the retrieval code calls *)
Module Builtins.

Definition nl : string := String (ascii_of_nat 10) "".

(** [str.isspace] on ASCII. *)
Definition is_space (c : ascii) : bool :=
  let n := nat_of_ascii c in
  ((9 <=? n) && (n <=? 13) || (28 <=? n) && (n <=? 32))%nat.

Definition lower_ascii (c : ascii) : ascii :=
  let n := nat_of_ascii c in
  if ((65 <=? n) && (n <=? 90))%nat then ascii_of_nat (n + 32) else c.

(** [s.lower()], and SQLite's [LOWER(s)], on ASCII. *)
Fixpoint py_lower (s : string) : string :=
  match s with
  | EmptyString => EmptyString
  | String c s' => String (lower_ascii c) (py_lower s')
  end.

(** [s.split()]: the maximal runs of non-blank characters.  [cur] is the
    run being read, in reverse. *)
Fixpoint split_from (cur : list ascii) (s : string) : list string :=
  let flush := match cur with
               | [] => []
               | _ => [string_of_list_ascii (rev cur)]
               end in
  match s with
  | EmptyString => flush
  | String c s' =>
      if is_space c then flush ++ split_from [] s'
      else split_from (c :: cur) s'
  end.

Definition py_split (s : string) : list string := split_from [] s.

(** [w in s] for two strings. *)
Fixpoint contains (w s : string) : bool :=
  String.prefix w s ||
  match s with
  | EmptyString => false
  | String _ s' => contains w s'
  end.

(** SQLite's [t LIKE p]: [%] matches any run, [_] any one character, any
    other character itself without regard to ASCII case. *)
Fixpoint like_chars (p t : list ascii) : bool :=
  match p with
  | [] => match t with [] => true | _ => false end
  | c :: p' =>
      if Ascii.eqb c "%" then
        (fix any (u : list ascii) : bool :=
           like_chars p' u ||
           match u with
           | [] => false
           | _ :: u' => any u'
           end) t
      else
        match t with
        | [] => false
        | d :: t' =>
            (Ascii.eqb c "_" || Ascii.eqb (lower_ascii c) (lower_ascii d))
            && like_chars p' t'
        end
  end.

Definition sql_like (p t : string) : bool :=
  like_chars (list_ascii_of_string p) (list_ascii_of_string t).

(** [l[:n]]: for a negative [n] the last [-n] items are dropped. *)
Definition py_slice_to {A : Type} (n : Z) (l : list A) : list A :=
  if 0 <=? n then firstn (Z.to_nat n) l
  else firstn (List.length l - Z.to_nat (- n)) l.

(** The same on a string. *)
Definition py_str_slice_to (n : Z) (s : string) : string :=
  if 0 <=? n then py_prefix (Z.to_nat n) s
  else py_prefix (String.length s - Z.to_nat (- n)) s.

(** SQLite's [LIMIT n]: a negative [n] is no limit. *)
Definition sql_limit {A : Type} (n : Z) (l : list A) : list A :=
  if n <? 0 then l else firstn (Z.to_nat n) l.

(** Floor division [n // 2]. *)
Definition floordiv2 (n : Z) : Z := n / 2.

(** A stable sort into descending order, as [list.sort(key=..., reverse=True)]
    is: [gt y x] tells that [y] ranks strictly before [x]; items that rank
    equal keep the order they had. *)
Fixpoint insert_desc {A : Type} (gt : A -> A -> bool) (x : A) (l : list A)
  : list A :=
  match l with
  | [] => [x]
  | y :: l' => if gt y x then y :: insert_desc gt x l' else x :: l
  end.

Definition sort_desc {A : Type} (gt : A -> A -> bool) (l : list A) : list A :=
  fold_right (insert_desc gt) [] l.

(** [sep.join(parts)] *)
Definition join (sep : string) (parts : list string) : string :=
  String.concat sep parts.

End Builtins.

(** ** Retrieval and ingestion: [memory_injector.py] *)
Module Injector.
Import PyTime Builtins.

Inductive relevance : Set := semantic | emotional | keyword.

Definition relevance_eqb (a b : relevance) : bool :=
  match a, b with
  | semantic, semantic | emotional, emotional | keyword, keyword => true
  | _, _ => false
  end.

(** The dictionary the three search paths build for one memory.  A key a
    path does not set is [None] here; [bit_worthy] is read with
    [m.get("bit_worthy")] only, so an absent key is [false]. *)
Record memory : Type := mk_memory {
  m_text : string;
  m_emotion : option string;
  m_mood : option string;
  m_tags : option string;
  m_timestamp : option string;
  m_intensity : option Z;
  m_bit_worthy : bool;
  similarity : option Q;
  m_interaction_id : option Z;
  relevance_type : relevance
}.

(** One neighbour as [memory_collection.query] returns it: the document,
    the metadata fields the code reads, and the raw distance.
    [h_timestamp] is what [datetime.fromisoformat(metadata['timestamp'])]
    yields. *)
Record hit : Type := mk_hit {
  h_doc : string;
  h_timestamp : datetime;
  h_emotion : option string;
  h_tags : option string;
  h_interaction_id : option Z;
  h_distance : Q
}.

(** The vector side as retrieval sees it.  [Unavailable]: the embedding
    model or the collection is [None].  Otherwise the answer of
    [memory_collection.query] to a query text and [n_results]; [None] when
    the call raises. *)
Inductive vector_index : Type :=
| Unavailable
| Available (query : string -> Z -> option (list hit)).

(** The table [interactions] as retrieval sees it; [None] when the
    database file does not exist. *)
Definition table := option (list Store.interaction).

Definition topical_threshold : Q := (7 # 10)%Q.
Definition emotion_penalty : Q := (7 # 10)%Q.

(** [x.get('similarity', 0)] *)
Definition sim_key (m : memory) : Q :=
  match similarity m with
  | Some q => q
  | None => 0%Q
  end.

Definition sim_gt (y x : memory) : bool := negb (Qle_bool (sim_key y) (sim_key x)).

(** [ORDER BY timestamp DESC] on the TEXT column.  SQLite leaves the order
    of rows with equal timestamps open; here they keep the table order. *)
Definition ts_gt (y x : Store.interaction) : bool :=
  String.ltb (Store.timestamp x) (Store.timestamp y).

(** [emotion = ? OR mood = ?]; a NULL column equals nothing. *)
Definition emotion_or_mood (e : string) (r : Store.interaction) : bool :=
  opt_eqb (Store.emotion r) (Some e) || opt_eqb (Store.mood r) (Some e).

(** The similarity of one neighbour (source lines 142 to 146), in exact
    arithmetic; [Semantic.hit_similarity] is the same in doubles. *)
Definition hit_similarity (emotion : option string) (h : hit) : Q :=
  let similarity := (1 - h_distance h)%Q in
  if truthy emotion && negb (opt_eqb (h_emotion h) emotion)
  then (similarity * emotion_penalty)%Q
  else similarity.

Definition semantic_memory (emotion : option string) (h : hit) : memory :=
  mk_memory (h_doc h) (h_emotion h) None (h_tags h)
            (Some (isoformat (h_timestamp h))) None false
            (Some (hit_similarity emotion h)) (h_interaction_id h) semantic.

Definition row_memory (sim : option Q) (rt : relevance) (r : Store.interaction)
  : memory :=
  mk_memory (Store.text r) (Store.emotion r) (Store.mood r) (Store.tags r)
            (Some (Store.timestamp r)) (Some (Store.intensity r))
            (Store.bit_worthy r) sim None rt.

(** [matches / len(query_words) if query_words else 0] *)
Definition keyword_relevance (query_words : list string) (t : string) : Q :=
  let text_lower := py_lower t in
  let matches := List.length (filter (fun w => contains w text_lower) query_words) in
  match query_words with
  | [] => 0%Q
  | _ => (Z.of_nat matches # Pos.of_nat (List.length query_words))%Q
  end.

(** [MemoryInjector._fallback_memory_search].  With no query word the WHERE
    clause is ["()"], [execute] raises and the [except] returns [[]]. *)
Definition _fallback_memory_search (now : datetime) (db : table)
    (query_text : string) (emotion : option string) (limit days_back : Z)
  : list memory :=
  match db with
  | None => []
  | Some rows =>
      let query_words := py_split (py_lower query_text) in
      let cutoff_date := isoformat (minus_days now days_back) in
      match query_words with
      | [] => []
      | _ =>
          let selected (r : Store.interaction) : bool :=
            existsb (fun word => sql_like (fstr ["%"; word; "%"])
                                          (py_lower (Store.text r))) query_words
            && String.leb cutoff_date (Store.timestamp r)
            && match emotion with
               | Some e => if truthy emotion then emotion_or_mood e r else true
               | None => true
               end in
          let results := sql_limit limit (sort_desc ts_gt (filter selected rows)) in
          map (fun row => row_memory (Some (keyword_relevance query_words (Store.text row)))
                                     keyword row) results
      end
  end.

(** [MemoryInjector.find_similar_memories] *)
Definition find_similar_memories (now : datetime) (db : table)
    (vec : vector_index) (query_text : string) (emotion : option string)
    (limit days_back : Z) : list memory :=
  match vec with
  | Unavailable => _fallback_memory_search now db query_text emotion limit days_back
  | Available query =>
      match query query_text (limit * 2) with
      | None => _fallback_memory_search now db query_text emotion limit days_back
      | Some results =>
          let cutoff_date := minus_days now days_back in
          let similar_memories :=
            flat_map (fun h =>
                        if h_timestamp h <? cutoff_date then []
                        else if Qle_bool topical_threshold (hit_similarity emotion h)
                             then [semantic_memory emotion h]
                             else []) results in
          py_slice_to limit (sort_desc sim_gt similar_memories)
      end
  end.

(** [MemoryInjector.find_emotional_memories], for a limit and a cutoff in
    range ([Checked.find_emotional_memories] has the other case). *)
Definition find_emotional_memories (now : datetime) (db : table)
    (emotion : string) (limit days_back : Z) : list memory :=
  match db with
  | None => []
  | Some rows =>
      let cutoff_date := isoformat (minus_days now days_back) in
      let selected (r : Store.interaction) : bool :=
        emotion_or_mood emotion r && String.leb cutoff_date (Store.timestamp r) in
      map (row_memory None emotional)
          (sql_limit limit (sort_desc ts_gt (filter selected rows)))
  end.

(** The loop over [all_memories] with the set [seen_texts]. *)
Fixpoint unique_by_text (seen_texts : list string) (all_memories : list memory)
  : list memory :=
  match all_memories with
  | [] => []
  | m :: rest =>
      if existsb (String.eqb (m_text m)) seen_texts
      then unique_by_text seen_texts rest
      else m :: unique_by_text (m_text m :: seen_texts) rest
  end.

(** Source lines 304 to 317: merge, remove duplicates, rank, cut. *)
Definition merge_memories (topical_memories emotional_memories : list memory)
    (max_memories : Z) : list memory :=
  let all_memories := topical_memories ++ emotional_memories in
  let unique_memories := unique_by_text [] all_memories in
  py_slice_to max_memories (sort_desc sim_gt unique_memories).

Definition topical_of (now : datetime) (db : table) (vec : vector_index)
    (current_text : string) (max_memories : Z) : list memory :=
  find_similar_memories now db vec current_text None max_memories 30.

Definition emotional_of (now : datetime) (db : table)
    (current_emotion : option string) (max_memories : Z) : list memory :=
  match current_emotion with
  | Some e =>
      if truthy current_emotion
      then find_emotional_memories now db e (floordiv2 max_memories) 14
      else []
  | None => []
  end.

(** [context["relevant_memories"]] of [inject_context_memories]
    (source lines 292 to 317). *)
Definition relevant_memories (now : datetime) (db : table) (vec : vector_index)
    (current_text : string) (current_emotion : option string)
    (max_memories : Z) : list memory :=
  merge_memories (topical_of now db vec current_text max_memories)
                 (emotional_of now db current_emotion max_memories)
                 max_memories.

(** The distinct items of a list, first occurrences first: one of the
    orders in which Python may iterate over [set(emotions)]. *)
Fixpoint distinct (l : list string) : list string :=
  match l with
  | [] => []
  | x :: l' => x :: filter (fun y => negb (String.eqb x y)) (distinct l')
  end.

(** [", ".join(set(emotions))] where an emotion may be [None]: [join]
    raises [TypeError] on an item that is not a string. *)
Fixpoint all_strings (l : list (option string)) : option (list string) :=
  match l with
  | [] => Some []
  | None :: _ => None
  | Some s :: l' => option_map (cons s) (all_strings l')
  end.

(** [MemoryInjector._generate_memory_summary] *)
Definition _generate_memory_summary (memories : list memory) : outcome string :=
  match memories with
  | [] => Returns "No relevant memories found."
  | _ =>
      let emotional_memories :=
        filter (fun m => relevance_eqb (relevance_type m) emotional) memories in
      let semantic_memories :=
        filter (fun m => relevance_eqb (relevance_type m) semantic) memories in
      let bit_worthy_count := List.length (filter m_bit_worthy memories) in
      let rest :=
        (match semantic_memories with
         | [] => []
         | _ => [fstr ["Found "; str_of_int (Z.of_nat (List.length semantic_memories));
                       " topically related memories"]]
         end) ++
        (if (0 <? bit_worthy_count)%nat
         then [fstr [str_of_int (Z.of_nat bit_worthy_count); " comedy-worthy moments"]]
         else []) in
      match emotional_memories with
      | [] => Returns (join " | " rest)
      | _ =>
          match all_strings (map m_emotion emotional_memories) with
          | None => Raises TypeError
          | Some emotions =>
              Returns (join " | "
                         (fstr ["Similar emotional states: ";
                                join ", " (distinct emotions)] :: rest))
          end
      end
  end.

(** The dictionary [inject_context_memories] returns. *)
Record context : Type := mk_context {
  current_input : string;
  ctx_emotion : option string;
  ctx_memories : list memory;
  memory_summary : string;
  injection_timestamp : string
}.

(** [MemoryInjector.inject_context_memories] *)
Definition inject_context_memories (now : datetime) (db : table)
    (vec : vector_index) (current_text : string)
    (current_emotion : option string) (max_memories : Z) : outcome context :=
  let rel := relevant_memories now db vec current_text current_emotion max_memories in
  let ctx := mk_context current_text current_emotion rel "" (isoformat now) in
  match rel with
  | [] => Returns ctx
  | _ =>
      match _generate_memory_summary rel with
      | Raises e => Raises e
      | Returns s =>
          Returns (mk_context current_text current_emotion rel s (isoformat now))
      end
  end.

(** The record carries the text [t]. *)
Definition has_text (t : string) (m : memory) : bool := String.eqb (m_text m) t.

(** The record shows the text of a row of the table. *)
Definition from_table (db : table) (m : memory) : Prop :=
  exists rows r, db = Some rows /\ In r rows /\ m_text m = Store.text r.

(** *** The vector collection as ingestion sees it *)

(** The metadata dictionary [add_memory] stores with a document. *)
Record metadata : Type := mk_metadata {
  md_timestamp : string;
  md_emotion : string;
  md_tags : string;
  md_interaction_id : Z;
  md_text_length : Z
}.

Record entry : Type := mk_entry {
  doc_id : string;
  document : string;
  entry_metadata : metadata
}.

(** The collection: its entries in insertion order, and what
    [collection.add] does with an id it already holds.  Releases of the
    vector store differ there (some raise, some ignore the new item); none
    replaces the stored entry. *)
Record collection : Type := mk_collection {
  entries : list entry;
  add_raises_on_duplicate : bool
}.

(** [collection.get(ids=[i])['ids']] is not empty. *)
Definition collection_has (c : collection) (i : string) : bool :=
  existsb (fun e => String.eqb (doc_id e) i) (entries c).

(** [collection.add(...)] of one item; [None] when it raises. *)
Definition collection_add (c : collection) (e : entry) : option collection :=
  if collection_has c (doc_id e)
  then if add_raises_on_duplicate c then None else Some c
  else Some (mk_collection (entries c ++ [e]) (add_raises_on_duplicate c)).

(** [f"{interaction_id}"] where the id may be [None]. *)
Definition str_of_id (i : option Z) : string :=
  match i with
  | Some n => str_of_int n
  | None => "None"
  end.

(** [interaction_id or 0] *)
Definition id_or_0 (i : option Z) : Z :=
  match i with
  | Some n => n
  | None => 0
  end.

(** The document id [add_memory] builds. *)
Definition add_memory_doc_id (now : datetime) (interaction_id : option Z) : string :=
  fstr ["memory_"; strftime_compact now; "_"; str_of_id interaction_id].

(** [MemoryInjector.add_memory]; the collection is [None] when the
    embedding model or the collection is not loaded. *)
Definition add_memory (now : datetime) (coll : option collection)
    (t : string) (emotion tags : option string) (interaction_id : option Z)
  : bool * option collection :=
  match coll with
  | None => (false, None)
  | Some c =>
      let md := mk_metadata (isoformat now) (py_or emotion "neutral")
                            (py_or tags "") (id_or_0 interaction_id)
                            (Z.of_nat (String.length t)) in
      let doc := add_memory_doc_id now interaction_id in
      match collection_add c (mk_entry doc t md) with
      | None => (false, coll)
      | Some c' => (true, Some c')
      end
  end.

(** The document id [sync_sql_to_vector_db] looks for: the row's
    [timestamp] column as stored. *)
Definition sync_doc_id (r : Store.interaction) : string :=
  fstr ["memory_"; Store.timestamp r; "_"; str_of_int (Store.id r)].

(** One turn of the loop of [sync_sql_to_vector_db]. *)
Definition sync_row (now : datetime) (acc : Z * option collection)
    (row : Store.interaction) : Z * option collection :=
  let '(synced_count, coll) := acc in
  let already := match coll with
                 | Some c => collection_has c (sync_doc_id row)
                 | None => false
                 end in
  if already then acc
  else
    let '(ok, coll') := add_memory now coll (Store.text row) (Store.emotion row)
                                   (Store.tags row) (Some (Store.id row)) in
    if ok then (synced_count + 1, coll') else (synced_count, coll').

(** [MemoryInjector.sync_sql_to_vector_db] *)
Definition sync_sql_to_vector_db (now : datetime) (db : table)
    (coll : option collection) (days_back : Z) : Z * option collection :=
  match coll with
  | None => (0, None)
  | Some _ =>
      match db with
      | None => (0, coll)
      | Some rows =>
          let cutoff_date := isoformat (minus_days now days_back) in
          let results :=
            sort_desc ts_gt
              (filter (fun r => String.leb cutoff_date (Store.timestamp r)) rows) in
          fold_left (sync_row now) results (0, coll)
      end
  end.

End Injector.

(** ** Python floats *)
Module Double.

(** A Python [float] is an IEEE 754 binary64 number: 53 bits of precision,
    exponents up to 1024, every operation rounded to nearest, ties to
    even. *)
Definition float : Set := spec_float.

Definition prec : Z := 53.
Definition emax : Z := 1024.

Definition sub (x y : float) : float := SFsub prec emax x y.
Definition mul (x y : float) : float := SFmul prec emax x y.

(** [x <= y] and [x < y]; both are false when an operand is a NaN. *)
Definition leb (x y : float) : bool := SFleb x y.
Definition ltb (x y : float) : bool := SFltb x y.

(** The literals [0.0], [1.0] and [0.7]: the last one is the double next to
    7/10, 6305039478318694 / 2^53, a little below it. *)
Definition zero : float := S754_zero false.
Definition one : float := S754_finite false 4503599627370496 (-52).
Definition seven_tenths : float := S754_finite false 6305039478318694 (-53).

End Double.

(** ** The vector branch of [find_similar_memories], in doubles *)
Module Semantic.
Import PyTime Builtins Double.

(** One neighbour as [memory_collection.query] returns it; [n_distance] is
    the raw distance, a [float]. *)
Record neighbour : Type := mk_neighbour {
  n_doc : string;
  n_timestamp : datetime;
  n_emotion : option string;
  n_tags : option string;
  n_interaction_id : option Z;
  n_distance : float
}.

(** The dictionary the branch builds ([relevance_type] is ["semantic"]). *)
Record scored : Type := mk_scored {
  s_text : string;
  s_emotion : option string;
  s_tags : option string;
  s_timestamp : string;
  s_similarity : float;
  s_interaction_id : option Z
}.

(** [self.similarity_thresholds['topical']] *)
Definition topical_threshold : float := seven_tenths.

(** Source lines 142 to 146:
    [similarity = 1.0 - distance] and, [if emotion and
    metadata.get('emotion') != emotion], [similarity *= 0.7]. *)
Definition hit_similarity (emotion : option string) (n : neighbour) : float :=
  let similarity := sub one (n_distance n) in
  if truthy emotion && negb (opt_eqb (n_emotion n) emotion)
  then mul similarity seven_tenths
  else similarity.

Definition semantic_memory (emotion : option string) (n : neighbour) : scored :=
  mk_scored (n_doc n) (n_emotion n) (n_tags n) (isoformat (n_timestamp n))
            (hit_similarity emotion n) (n_interaction_id n).

(** The key order of [sort(key=lambda x: x['similarity'], reverse=True)]. *)
Definition sim_gt (y x : scored) : bool := ltb (s_similarity x) (s_similarity y).

(** The [try] body of [find_similar_memories] from the answer [results] of
    the collection on (source lines 127 to 162): the loop, the sort and the
    cut.  [None] when the cutoff date cannot be computed: the exception
    sends the call to the keyword search. *)
Definition find_similar_memories (now : datetime) (results : list neighbour)
    (emotion : option string) (limit days_back : Z) : option (list scored) :=
  if Limits.cutoff_ok now days_back then
    let cutoff_date := minus_days now days_back in
    let similar_memories :=
      flat_map (fun n =>
                  if n_timestamp n <? cutoff_date then []
                  else if leb topical_threshold (hit_similarity emotion n)
                       then [semantic_memory emotion n]
                       else []) results in
    Some (py_slice_to limit (sort_desc sim_gt similar_memories))
  else None.

End Semantic.

(** ** The context prompt: [rag_engine.py] *)
Module Rag.
Import Builtins.

(** What [generate_context_prompt] reads of a dictionary returned by
    [retrieve_relevant_memories]: the keys [content] and [timestamp] (the
    latter always set, possibly to [None]). *)
Record rag_memory : Type := mk_rag_memory {
  content : string;
  rm_timestamp : option string
}.

(** What the two calls on the memory injector return: the [pattern] of
    each humor pattern, and the [emotion] and [intensity] of each recent
    emotion. *)
Record patterns : Type := mk_patterns {
  humor_patterns : list string;
  recent_emotions : list (string * Z)
}.

Definition str_of_opt (o : option string) : string :=
  match o with
  | Some s => s
  | None => "None"
  end.

(** [content[:200] + "..." if len(content) > 200 else content] *)
Definition preview (c : string) : string :=
  if (200 <? String.length c)%nat then fstr [py_prefix 200 c; "..."] else c.

Definition memory_line (m : rag_memory) : string :=
  fstr ["["; str_of_opt (rm_timestamp m); "] "; preview (content m)].

(** The list [context_sections] (source lines 266 to 292). *)
Definition context_sections (user_preferences : list (string * string))
    (p : patterns) (memories : list rag_memory) : list string :=
  (match user_preferences with
   | [] => []
   | _ => [fstr ["USER PREFERENCES:"; nl;
                 join nl (map (fun kv => fstr ["- "; fst kv; ": "; snd kv])
                              user_preferences)]]
   end) ++
  (match recent_emotions p with
   | [] => []
   | _ => [fstr ["RECENT EMOTIONAL CONTEXT: ";
                 join ", " (map (fun e => fstr [fst e; " ("; str_of_int (snd e); ")"])
                                (firstn 3 (recent_emotions p)))]]
   end) ++
  (match humor_patterns p with
   | [] => []
   | _ => [fstr ["HUMOR STYLE PATTERNS:"; nl;
                 join nl (map (fun h => fstr ["- "; h]) (humor_patterns p))]]
   end) ++
  (match memories with
   | [] => []
   | _ => [fstr ["RELEVANT PAST MEMORIES:"; nl;
                 join nl (map memory_line (firstn 3 memories))]]
   end).

(** [enhanced_prompt] before the length check (source lines 294 to 304). *)
Definition enhanced_prompt (query : string)
    (user_preferences : list (string * string)) (p : patterns)
    (memories : list rag_memory) : string :=
  match context_sections user_preferences p memories with
  | [] => query
  | sections =>
      fstr ["CONTEXT FOR RESPONSE:"; nl; join (fstr [nl; nl]) sections; nl; nl;
            "CURRENT REQUEST: "; query; nl; nl;
            "Please respond considering the above context, maintaining consistency with past interactions and emotional patterns."]
  end.

(** The length check (source lines 306 to 308). *)
Definition fit (max_context_length : Z) (prompt : string) : string :=
  if max_context_length <? Z.of_nat (String.length prompt)
  then fstr [py_str_slice_to max_context_length prompt; "..."]
  else prompt.

(** [BhoolaRAGEngine.generate_context_prompt].  [memories] is what
    [retrieve_relevant_memories] returned.  [helpers] is what
    [memory_injector.get_humor_patterns] and [get_recent_emotions] returned,
    [None] when such a call raises (the class [MemoryInjector] of
    [memory_injector.py] defines neither method): then the [except] clause
    returns the query. *)
Definition generate_context_prompt (max_context_length : Z)
    (memories : list rag_memory) (helpers : option patterns)
    (query : string) (user_preferences : list (string * string)) : string :=
  match helpers with
  | None => query
  | Some p => fit max_context_length (enhanced_prompt query user_preferences p memories)
  end.

End Rag.

(** ** Sample data *)
Module Samples.
Import PyTime Store.

(** 2025-07-19T10:00:00 *)
Definition t0 : datetime := (20288 * 86400 + 36000) * us_per_second.

Definition e0 : env := mk_env t0 "2025-07-19 04:30:00" true.
Definition e1 : env := mk_env (t0 + us_per_second) "2025-07-19 04:30:01" true.

(** A serializer that keeps the row as it is. *)
Definition keep (r : interaction) : interaction := r.
Definition read_back (r : interaction) : option interaction := Some r.

Definition fresh : db interaction := empty_db.

(** The store after one note has been logged. *)
Definition db1 : db interaction :=
  snd (add_interaction e0 fresh (Some "I love debugging at night")
                       (Some "manual") (Some "night,code") (Some "calm") None 5 false).

(** *** Retrieval *)

(** Five seconds after [t0]. *)
Definition t5 : datetime := t0 + 5 * us_per_second.

Definition table1 : Injector.table := Some (interactions db1).

(** The index returns the note of [db1] at distance 0.1. *)
Definition near_hit : Injector.hit :=
  Injector.mk_hit "I love debugging at night" t0 (Some "calm")
                  (Some "night,code") (Some 1) (1 # 10)%Q.

Definition index1 : Injector.vector_index :=
  Injector.Available (fun _ _ => Some [near_hit]).

(** The row of [db1], and the two records retrieval builds for it. *)
Definition note1 : interaction :=
  mk_interaction 1 "I love debugging at night" (Some "manual")
                 (Some "night,code") (Some "calm") None 5 false
                 "2025-07-19T10:00:00" "2025-07-19 04:30:00".

Definition near_memory : Injector.memory := Injector.semantic_memory None near_hit.

Definition calm_memory : Injector.memory :=
  Injector.row_memory None Injector.emotional note1.

(** Three notes: two share words with the query ["alpha beta gamma"], the
    third only shares the emotion. *)
Definition row_full : interaction :=
  mk_interaction 1 "alpha beta gamma" (Some "manual") None (Some "happy") None
                 3 false "2025-07-19T09:00:00" "2025-07-19 03:30:00".

Definition row_part : interaction :=
  mk_interaction 2 "only alpha here" (Some "manual") None (Some "happy") None
                 3 false "2025-07-19T08:00:00" "2025-07-19 02:30:00".

Definition row_calm : interaction :=
  mk_interaction 3 "quiet evening" (Some "manual") None (Some "calm") None
                 2 false "2025-07-19T07:00:00" "2025-07-19 01:30:00".

Definition table3 : Injector.table := Some [row_full; row_part; row_calm].

(** A note whose [emotion] is NULL and whose [mood] is set. *)
Definition row_mood_only : interaction :=
  mk_interaction 1 "long walk" (Some "manual") None None (Some "calm")
                 2 false "2025-07-19T07:00:00" "2025-07-19 01:30:00".

(** *** Ingestion *)

Definition empty_collection : option Injector.collection :=
  Some (Injector.mk_collection [] true).

Definition entries_of (c : option Injector.collection) : list Injector.entry :=
  match c with
  | Some c' => Injector.entries c'
  | None => []
  end.

(** The collection after [db1] was synchronised at 10:00:07, and after it
    was synchronised again one second later. *)
Definition synced_once : option Injector.collection :=
  snd (Injector.sync_sql_to_vector_db (t0 + 7 * us_per_second) table1
                                      empty_collection 7).

Definition synced_twice : option Injector.collection :=
  snd (Injector.sync_sql_to_vector_db (t0 + 8 * us_per_second) table1
                                      synced_once 7).

(** *** Context prompt *)

Definition one_memory : list Rag.rag_memory :=
  [Rag.mk_rag_memory "I love debugging at night" (Some "2025-07-19T10:00:00")].

Definition no_patterns : Rag.patterns := Rag.mk_patterns [] [].

End Samples.

(** ** The other tables and queries of [database.py] *)
Module Catalog.
Import PyTime Builtins.

(** A row of table [memory_patterns]. *)
Record memory_pattern : Type := mk_memory_pattern {
  pattern_id : Z;                   (* INTEGER PRIMARY KEY AUTOINCREMENT *)
  pattern_type : string;            (* TEXT NOT NULL *)
  pattern_text : string;            (* TEXT NOT NULL *)
  frequency : Z;                    (* INTEGER DEFAULT 1 *)
  first_seen : string;
  last_seen : string;
  evolution_notes : option string;
  humor_category : option string
}.

Record pattern_table : Type := mk_pattern_table {
  patterns : list memory_pattern;
  pattern_seq : Z
}.

Definition empty_patterns : pattern_table := mk_pattern_table [] 0.

Definition max_pattern_id (rows : list memory_pattern) : Z :=
  fold_right (fun r m => Z.max (pattern_id r) m) 0 rows.

Definition next_pattern_id (t : pattern_table) : Z :=
  Z.max (pattern_seq t) (max_pattern_id (patterns t)) + 1.

(** [WHERE pattern_text = ? AND pattern_type = ?] *)
Definition has_key (ptext ptype : string) (r : memory_pattern) : bool :=
  String.eqb (pattern_text r) ptext && String.eqb (pattern_type r) ptype.

(** [UPDATE memory_patterns SET frequency = ?, last_seen = ? WHERE id = ?] *)
Definition set_frequency (i freq : Z) (seen : string) (r : memory_pattern)
  : memory_pattern :=
  if pattern_id r =? i
  then mk_memory_pattern (pattern_id r) (pattern_type r) (pattern_text r) freq
                         (first_seen r) seen (evolution_notes r) (humor_category r)
  else r.

(** [BhoolamindDB.update_pattern_frequency] *)
Definition update_pattern_frequency (now : datetime) (t : pattern_table)
    (ptext ptype : string) : pattern_table :=
  match find (has_key ptext ptype) (patterns t) with
  | Some result =>
      mk_pattern_table
        (map (set_frequency (pattern_id result) (frequency result + 1) (isoformat now))
             (patterns t))
        (pattern_seq t)
  | None =>
      let i := next_pattern_id t in
      mk_pattern_table
        (patterns t ++
           [mk_memory_pattern i ptype ptext 1 (isoformat now) (isoformat now)
                              None None])
        i
  end.

(** The frequency recorded for a key: that of the first row that carries
    it, 0 when there is none. *)
Definition frequency_of (t : pattern_table) (ptext ptype : string) : Z :=
  match find (has_key ptext ptype) (patterns t) with
  | Some r => frequency r
  | None => 0
  end.

(** The keys of a table, row by row. *)
Definition pattern_keys (t : pattern_table) : list (string * string) :=
  map (fun r => (pattern_text r, pattern_type r)) (patterns t).

(** What every pattern table built by [update_pattern_frequency] satisfies:
    the row ids come from the counter and are distinct, and so are the
    keys. *)
Definition patterns_inv (t : pattern_table) : Prop :=
  (forall r, In r (patterns t) -> pattern_id r <= pattern_seq t)
  /\ NoDup (map pattern_id (patterns t))
  /\ NoDup (pattern_keys t).

(** [n] calls in a row for the same key. *)
Fixpoint update_many (now : datetime) (n : nat) (t : pattern_table)
    (ptext ptype : string) : pattern_table :=
  match n with
  | O => t
  | S k => update_pattern_frequency now (update_many now k t ptext ptype) ptext ptype
  end.

(** A row of table [voice_metadata]. *)
Record voice_row : Type := mk_voice_row {
  voice_id : Z;                       (* INTEGER PRIMARY KEY AUTOINCREMENT *)
  file_path : string;                 (* TEXT UNIQUE NOT NULL *)
  transcription : option string;
  tone : option string;
  detected_emotion : option string;
  language : option string;           (* TEXT DEFAULT 'hinglish' *)
  duration_seconds : option Q;
  quality_score : option Q;
  voice_timestamp : string;
  processed : bool                    (* BOOLEAN DEFAULT 0 *)
}.

Record voice_table : Type := mk_voice_table {
  voice_rows : list voice_row;
  voice_seq : Z
}.

Definition empty_voice : voice_table := mk_voice_table [] 0.

Definition max_voice_id (rows : list voice_row) : Z :=
  fold_right (fun r m => Z.max (voice_id r) m) 0 rows.

Definition next_voice_id (t : voice_table) : Z :=
  Z.max (voice_seq t) (max_voice_id (voice_rows t)) + 1.

Definition has_path (p : string) (r : voice_row) : bool := String.eqb (file_path r) p.

(** [BhoolamindDB.add_voice_log].  The INSERT raises [IntegrityError] when
    the path is [None] (NOT NULL) or already in the table (UNIQUE); the
    function does not catch it. *)
Definition add_voice_log (now : datetime) (t : voice_table)
    (path transcr tn emo lang : option string) : outcome Z * voice_table :=
  match path with
  | None => (Raises IntegrityError, t)
  | Some p =>
      if existsb (has_path p) (voice_rows t) then (Raises IntegrityError, t)
      else
        let i := next_voice_id t in
        (Returns i,
         mk_voice_table
           (voice_rows t ++
              [mk_voice_row i p transcr tn emo lang None None (isoformat now) false])
           i)
  end.

(** [BhoolamindDB.search_by_emotion], for a limit that fits SQLite's
    INTEGER ([Checked.search_by_emotion] has the other case). *)
Definition search_by_emotion (rows : list Store.interaction) (emotion : string)
    (limit : Z) : list Store.interaction :=
  sql_limit limit (sort_desc Injector.ts_gt (filter (Injector.emotion_or_mood emotion) rows)).


End Catalog.

(** ** The calls with their range checks *)
Module Checked.
Import PyTime Builtins Limits.

(** [BhoolamindDB.add_interaction]: the parameters are bound before the
    INSERT runs, so an [intensity] outside SQLite's INTEGER raises
    [OverflowError] and the table is left as it was. *)
Definition add_interaction {D : Type} (e : Store.env) (s : Store.db D)
    (t : option string) (src tg em md : option string) (inten : Z) (bw : bool)
  : outcome Z * Store.db D :=
  if fits_int64 inten then Store.add_interaction e s t src tg em md inten bw
  else (Raises OverflowError, s).

(** [BhoolamindDB.search_by_emotion]: no [try] around the query. *)
Definition search_by_emotion (rows : list Store.interaction) (emotion : string)
    (limit : Z) : outcome (list Store.interaction) :=
  if fits_int64 limit then Returns (Catalog.search_by_emotion rows emotion limit)
  else Raises OverflowError.

(** [MemoryInjector.find_emotional_memories]: the cutoff date and the query
    are inside the [try], whose [except] returns [[]]. *)
Definition find_emotional_memories (now : datetime) (db : Injector.table)
    (emotion : string) (limit days_back : Z) : list Injector.memory :=
  if cutoff_ok now days_back && fits_int64 limit
  then Injector.find_emotional_memories now db emotion limit days_back
  else [].

(** [MemoryInjector._fallback_memory_search]: likewise. *)
Definition _fallback_memory_search (now : datetime) (db : Injector.table)
    (query_text : string) (emotion : option string) (limit days_back : Z)
  : list Injector.memory :=
  if cutoff_ok now days_back && fits_int64 limit
  then Injector._fallback_memory_search now db query_text emotion limit days_back
  else [].

End Checked.

(** ** The other methods of [ai_delete_protection.py] *)
Module Protection.
Import PyTime Builtins Store.

(** The flag [self.protection_enabled].  [safe_delete_interaction] reads it
    only to log a warning. *)
Record guard : Type := mk_guard {
  protection_enabled : bool
}.

(** An item of [get_deletion_history]. *)
Record history_item : Type := mk_history_item {
  hist_id : Z;
  text_preview : string;
  hist_reason : string;
  hist_when : string;
  hist_backup_location : string
}.

(** [row[1][:100] + "..." if len(row[1]) > 100 else row[1]] *)
Definition preview_100 (t : string) : string :=
  if (100 <? String.length t)%nat then fstr [py_prefix 100 t; "..."] else t.

Section Serialized.

Context {D : Type}.

(** [ORDER BY deletion_timestamp DESC] *)
Definition deleted_later (y x : deleted_interaction D) : bool :=
  String.ltb (deletion_timestamp x) (deletion_timestamp y).

(** [AIDeleteProtection.get_deletion_history] *)
Definition get_deletion_history (s : db D) : list history_item :=
  map (fun row => mk_history_item (del_id row) (preview_100 (original_text row))
                                  (deletion_reason row) (deletion_timestamp row)
                                  (backup_location row))
      (sort_desc deleted_later (deleted_interactions s)).

Definition lockdown_text : string :=
  "EMERGENCY LOCKDOWN ACTIVATED: All deletion operations disabled. Full backup created.".

(** [AIDeleteProtection.emergency_lockdown].  The backup copy is made
    outside any [try]: when it raises, so does the call ([None]). *)
Definition emergency_lockdown (e : env) (g : guard) (s : db D)
  : option (bool * guard * db D) :=
  if negb (copy_ok e) then None
  else
    let '(_, s') :=
      insert_interaction e s lockdown_text (Some "ai_safety_lockdown")
                         (Some "emergency,lockdown,ai_safety,protection")
                         (Some "protective") None 10 false (isoformat (now e)) in
    Some (true, mk_guard false, s').

(** [AIDeleteProtection.prevent_bulk_delete]: the backup copy, then
    [True], whatever [max_deletions] is; [None] when the copy raises. *)
Definition prevent_bulk_delete (e : env) (max_deletions : Z) : option bool :=
  if negb (copy_ok e) then None else Some true.

End Serialized.

End Protection.

(** ** Retrieval in [rag_engine.py] *)
Module RagRetrieval.
Import PyTime Builtins.

(** A LangChain document: its text and the metadata keys the code reads.
    [doc_timestamp] is what [datetime.fromisoformat] makes of the stored
    text, [None] when the key is absent. *)
Record document : Type := mk_document {
  page_content : string;
  doc_timestamp : option datetime;
  doc_interaction_id : option Z
}.

(** What the retriever hands back: pairs of document and score from
    [similarity_search_with_score], bare documents from the compression
    retriever, or an exception. *)
Inductive retrieved : Type :=
| Scored (docs : list (document * Q))
| Unscored (docs : list document)
| Failed.

(** A dictionary of the list [retrieve_relevant_memories] returns. *)
Record relevant_memory : Type := mk_relevant_memory {
  rel_content : string;
  similarity_score : Q;
  rel_interaction_id : option Z;
  rel_timestamp : option string
}.

(** [time_range_days and 'timestamp' in doc.metadata] and then
    [(datetime.now() - doc_time).days > time_range_days]. *)
Definition too_old (now : datetime) (time_range_days : option Z) (d : document)
  : bool :=
  match time_range_days, doc_timestamp d with
  | Some days, Some doc_time =>
      negb (days =? 0) && (days <? (now - doc_time) / us_per_day)
  | _, _ => false
  end.

Definition score_lt (y x : relevant_memory) : bool :=
  negb (Qle_bool (similarity_score x) (similarity_score y)).

(** The loop over the pairs and the ascending sort. *)
Definition keep_relevant (now : datetime) (similarity_threshold : Q)
    (time_range_days : option Z) (pairs : list (document * Q))
  : list relevant_memory :=
  sort_desc score_lt
    (flat_map (fun ds =>
                 let '(doc, score) := ds in
                 if negb (Qle_bool score similarity_threshold) then []
                 else if too_old now time_range_days doc then []
                 else [mk_relevant_memory (page_content doc) score
                                          (doc_interaction_id doc)
                                          (option_map isoformat (doc_timestamp doc))])
              pairs).

(** [BhoolaRAGEngine.retrieve_relevant_memories].  On an empty answer
    [docs[0]] raises [IndexError]; the [except] clause returns [[]]. *)
Definition retrieve_relevant_memories (now : datetime) (similarity_threshold : Q)
    (docs : retrieved) (time_range_days : option Z) : list relevant_memory :=
  match docs with
  | Failed => []
  | Scored [] => []
  | Unscored [] => []
  | Scored pairs => keep_relevant now similarity_threshold time_range_days pairs
  | Unscored ds =>
      keep_relevant now similarity_threshold time_range_days
                    (map (fun d => (d, 0%Q)) ds)
  end.

(** What [generate_context_prompt] reads of such a dictionary. *)
Definition as_rag_memory (m : relevant_memory) : Rag.rag_memory :=
  Rag.mk_rag_memory (rel_content m) (rel_timestamp m).

(** [generate_context_prompt] together with its call of
    [retrieve_relevant_memories(query, emotion_context, time_range_days=30)]. *)
Definition context_prompt_for (now : datetime) (similarity_threshold : Q)
    (max_context_length : Z) (docs : retrieved) (helpers : option Rag.patterns)
    (query : string) (user_preferences : list (string * string)) : string :=
  Rag.generate_context_prompt max_context_length
    (map as_rag_memory
         (retrieve_relevant_memories now similarity_threshold docs (Some 30)))
    helpers query user_preferences.

End RagRetrieval.

(** ** The pipeline of [run_bhoolamind.py] *)
Module Runner.
Import PyTime Builtins Store.

(** What [process_text_input] reads of the dictionary of
    [EmotionTagger.detect_emotions]. *)
Record emotion_analysis : Type := mk_emotion_analysis {
  bhoola_mood : option string;
  ea_intensity : Z
}.

(** What it reads of the dictionary of [BitTracker.analyze_text]. *)
Record bit_analysis : Type := mk_bit_analysis {
  ba_tags : string;
  ba_bit_worthy : bool
}.

(** What it reports: the id under [final_analysis] when the text was
    stored, the memory context when one was built, and whether the [except]
    clause was taken. *)
Record report : Type := mk_report {
  interaction_id : option Z;
  memory_context : option Injector.context;
  processing_complete : bool
}.

Section Serialized.

Context {D : Type}.

(** [BhoolamMind.process_text_input], the analyses of the two taggers
    given.  [emotion_detection] and [memory_injection] are the entries of
    [self.capabilities]; [vec] and [coll] are the vector index as retrieval
    and as ingestion see it. *)
Definition process_text_input (e : env) (emotion_detection memory_injection : bool)
    (ea : emotion_analysis) (ba : bit_analysis) (vec : Injector.vector_index)
    (s : db D) (coll : option Injector.collection) (t src : string)
  : report * db D * option Injector.collection :=
  let emotion := if emotion_detection then bhoola_mood ea else None in
  let inten := if emotion_detection then ea_intensity ea else 1 in
  let injected :=
    if memory_injection
    then match Injector.inject_context_memories (now e) (Some (interactions s)) vec
                                                t emotion 3 with
         | Returns ctx => Returns (Some ctx)
         | Raises x => Raises x
         end
    else Returns None in
  match injected with
  | Raises _ => (mk_report None None false, s, coll)
  | Returns ctx =>
      match add_interaction e s (Some t) (Some src) (Some (ba_tags ba)) emotion None
                            inten (ba_bit_worthy ba) with
      | (Raises _, s') => (mk_report None ctx false, s', coll)
      | (Returns i, s') =>
          let coll' :=
            if memory_injection
            then snd (Injector.add_memory (now e) coll t emotion (Some (ba_tags ba))
                                          (Some i))
            else coll in
          (mk_report (Some i) ctx true, s', coll')
      end
  end.

End Serialized.

End Runner.

(** ** Predicates used to state the properties *)
Module Predicates.

(** The string holds nothing but blanks. *)
Definition blank (s : string) : bool :=
  forallb Builtins.is_space (list_ascii_of_string s).

(** [a] may stand before [b] in a list ranked by descending score. *)
Definition ranked_before (a b : Injector.memory) : Prop :=
  (Injector.sim_key b <= Injector.sim_key a)%Q.

(** An emotion record whose [emotion] is NULL. *)
Definition null_emotion_record (m : Injector.memory) : Prop :=
  Injector.relevance_type m = Injector.emotional /\ Injector.m_emotion m = None.

(** The document is one of those the retriever handed back. *)
Definition doc_in (docs : RagRetrieval.retrieved) (d : RagRetrieval.document) : Prop :=
  match docs with
  | RagRetrieval.Scored pairs => In d (map fst pairs)
  | RagRetrieval.Unscored ds => In d ds
  | RagRetrieval.Failed => False
  end.

(** [a] may stand before [b] in a list ordered by ascending score. *)
Definition score_le (a b : RagRetrieval.relevant_memory) : Prop :=
  (RagRetrieval.similarity_score a <= RagRetrieval.similarity_score b)%Q.



(** [ORDER BY timestamp DESC LIMIT limit] keeps the row [r] of the rows
    [matching] a WHERE clause: there is no limit, or no more rows than the
    limit, or the limit is at least 1 and every other row is older than
    [r]. *)
Definition within_limit (limit : Z) (r : Store.interaction)
    (matching : list Store.interaction) : Prop :=
  limit < 0
  \/ Z.of_nat (List.length matching) <= limit
  \/ (1 <= limit
      /\ forall x, In x matching ->
                   x = r \/ String.ltb (Store.timestamp x) (Store.timestamp r) = true).

End Predicates.

(** ** More sample data *)
Module MoreSamples.
Import PyTime Store.

(** [db1] after its note was soft-deleted. *)
Definition db1_deleted : db interaction :=
  snd (safe_delete_interaction Samples.keep Samples.e0 Samples.db1 1 "AI request").

(** An environment in which the backup copy fails. *)
Definition e_nocopy : env := mk_env Samples.t0 "2025-07-19 04:30:00" false.

Definition guard_on : Protection.guard := Protection.mk_guard true.

(** Two notes, both soft-deleted, then the first one restored. *)
Definition db2 : db interaction :=
  snd (add_interaction Samples.e1 Samples.db1 (Some "Stressful deadline today")
                       (Some "manual") None (Some "anxious") None 4 false).

Definition db2_deleted : db interaction :=
  snd (safe_delete_interaction Samples.keep Samples.e1
         (snd (safe_delete_interaction Samples.keep Samples.e0 db2 1 "AI request"))
         2 "cleanup").

(** The store after a first anxious note was logged at 10:00:00. *)
Definition db_anxious : db interaction :=
  snd (add_interaction Samples.e0 Samples.fresh (Some "Cannot sleep")
                       (Some "manual") None (Some "anxious") None 3 false).



(** *** Retrieval *)

(** A neighbour at raw distance 0 whose stored emotion is ["tired"]. *)
Definition exact_hit : Injector.hit :=
  Injector.mk_hit "Debugging marathon, so tired" Samples.t0 (Some "tired") None
                  (Some 3) 0%Q.

Definition exact_query (_ : string) (_ : Z) : option (list Injector.hit) :=
  Some [exact_hit].

(** A note logged with a mood and no emotion, after a note that shares a
    word with the query ["alpha"]. *)
Definition row_walk : interaction :=
  mk_interaction 2 "long walk" (Some "manual") None None (Some "calm")
                 2 false "2025-07-19T07:00:00" "2025-07-19 01:30:00".

Definition table_walk : Injector.table := Some [Samples.row_full; row_walk].

(** *** Neighbours with [float] distances *)

(** The doubles 0.1, -0.5, 1.5, 0.30000000000000004 (the double above 0.3
    that [0.1 + 0.2] gives) and 2^-60. *)
Definition tenth : Double.float := S754_finite false 7205759403792794 (-56).
Definition minus_half : Double.float := S754_finite true 4503599627370496 (-53).
Definition three_halves : Double.float := S754_finite false 6755399441055744 (-52).
Definition above_three_tenths : Double.float :=
  S754_finite false 5404319552844596 (-54).
Definition two_pow_minus_60 : Double.float :=
  S754_finite false 4503599627370496 (-112).

(** The note of [db1] as a neighbour at distance [d]. *)
Definition neighbour_at (d : Double.float) : Semantic.neighbour :=
  Semantic.mk_neighbour "I love debugging at night" Samples.t0 (Some "calm")
                        (Some "night,code") (Some 1) d.

(** *** Documents of the RAG engine *)

Definition doc_near : RagRetrieval.document :=
  RagRetrieval.mk_document "I love debugging at night" (Some Samples.t0) (Some 1).

Definition scored_docs : RagRetrieval.retrieved :=
  RagRetrieval.Scored [(doc_near, (3 # 10)%Q)].

(** *** Patterns and voice logs *)

Definition patterns1 : Catalog.pattern_table :=
  Catalog.update_pattern_frequency Samples.t0 Catalog.empty_patterns
                                   "sleep tight" "humor".

Definition voice1 : Catalog.voice_table :=
  snd (Catalog.add_voice_log Samples.t0 Catalog.empty_voice (Some "audio/note1.wav")
                             (Some "hello") None None (Some "hinglish")).

End MoreSamples.

(** * Properties of the record store *)
Module StoreFacts.
Import PyTime Store.

Lemma find_none_intro {A : Type} (f : A -> bool) (l : list A) :
  (forall x, In x l -> f x = false) -> find f l = None.
Proof.
  induction l as [|a l IH]; intros H; simpl; [reflexivity|].
  rewrite (H a (or_introl eq_refl)). apply IH. intros x Hx. apply H. now right.
Qed.

Lemma find_app_skip {A : Type} (f : A -> bool) (l l' : list A) :
  (forall x, In x l -> f x = false) -> find f (l ++ l') = find f l'.
Proof.
  induction l as [|a l IH]; intros H; simpl; [reflexivity|].
  rewrite (H a (or_introl eq_refl)). apply IH. intros x Hx. apply H. now right.
Qed.

Lemma max_rowid_ge (rows : list interaction) (r : interaction) :
  In r rows -> id r <= max_rowid rows.
Proof.
  induction rows as [|a rows IH]; simpl; [tauto|].
  intros [->|H]; [lia|]. specialize (IH H). lia.
Qed.

Section WithSerializer.

Context {D : Type}.
Variable py_str : interaction -> D.
Variable py_eval : D -> option interaction.

Lemma next_rowid_fresh (s : db D) (r : interaction) :
  In r (interactions s) -> id r < next_rowid s.
Proof.
  intros H. apply max_rowid_ge in H. unfold next_rowid. lia.
Qed.

Lemma next_rowid_above_seq (s : db D) : seq s < next_rowid s.
Proof. unfold next_rowid. lia. Qed.

Lemma fetch_interaction_some (s : db D) (i : Z) (r : interaction) :
  fetch_interaction s i = Some r -> In r (interactions s) /\ id r = i.
Proof.
  unfold fetch_interaction. intros H. apply find_some in H.
  destruct H as [Hin Heq]. split; [exact Hin|]. now apply Z.eqb_eq.
Qed.

Lemma safe_delete_found (e : env) (s : db D) (i : Z) (reason : string)
    (r : interaction) :
  copy_ok e = true ->
  fetch_interaction s i = Some r ->
  safe_delete_interaction py_str e s i reason =
  (Returns true,
   mk_db (filter (fun x => negb (id x =? i)) (interactions s)
            ++ [deletion_log_row e s i reason r])
         (next_rowid s)
         (deleted_interactions s ++ [tombstone py_str e i reason r])).
Proof.
  intros Hc Hf. unfold safe_delete_interaction. rewrite Hc, Hf. simpl.
  rewrite filter_app. simpl.
  apply fetch_interaction_some in Hf. destruct Hf as [Hin Hid].
  apply next_rowid_fresh in Hin.
  replace (next_rowid s =? i) with false by (symmetry; apply Z.eqb_neq; lia).
  reflexivity.
Qed.

Lemma safe_delete_true_inv (e : env) (s : db D) (i : Z) (reason : string) :
  fst (safe_delete_interaction py_str e s i reason) = Returns true ->
  copy_ok e = true /\ exists r, fetch_interaction s i = Some r.
Proof.
  unfold safe_delete_interaction.
  destruct (copy_ok e); simpl; [|discriminate].
  destruct (fetch_interaction s i) as [r|]; simpl; [|discriminate].
  intros _. split; [reflexivity|]. now exists r.
Qed.

Lemma fetch_after_delete (e : env) (s : db D) (i : Z) (reason : string)
    (r : interaction) :
  copy_ok e = true ->
  fetch_interaction s i = Some r ->
  fetch_interaction (snd (safe_delete_interaction py_str e s i reason)) i = None.
Proof.
  intros Hc Hf. rewrite (safe_delete_found e s i reason r Hc Hf). simpl.
  unfold fetch_interaction. simpl. apply find_none_intro.
  intros x Hx. apply in_app_or in Hx. destruct Hx as [Hx|[<-|[]]].
  - apply filter_In in Hx. destruct Hx as [_ Hx].
    now apply negb_true_iff in Hx.
  - simpl. apply fetch_interaction_some in Hf. destruct Hf as [Hin Hid].
    apply next_rowid_fresh in Hin. apply Z.eqb_neq. lia.
Qed.

(** ** The invariant of the reachable databases *)

Lemma empty_db_inv : db_inv (@empty_db D).
Proof. repeat split; simpl; intros; contradiction. Qed.

Lemma insert_interaction_inv (e : env) (s : db D) t src tg em md inten bw ts :
  db_inv s ->
  db_inv (snd (insert_interaction e s t src tg em md inten bw ts)).
Proof.
  intros (Hl & Hd & Hx). unfold insert_interaction. simpl.
  pose proof (next_rowid_above_seq s) as Hseq.
  repeat split; simpl.
  - intros r Hr. apply in_app_or in Hr. destruct Hr as [Hr|[<-|[]]]; simpl.
    + specialize (Hl r Hr). lia.
    + lia.
  - intros d Hin. specialize (Hd d Hin). lia.
  - intros r d Hr Hin. apply in_app_or in Hr. destruct Hr as [Hr|[<-|[]]]; simpl.
    + now apply Hx.
    + specialize (Hd d Hin). lia.
Qed.

Lemma add_interaction_inv (e : env) (s : db D) t src tg em md inten bw :
  db_inv s ->
  db_inv (snd (add_interaction e s t src tg em md inten bw)).
Proof.
  intros H. unfold add_interaction. destruct t as [t|]; simpl; [|exact H].
  exact (insert_interaction_inv e s t src tg em md inten bw _ H).
Qed.

Lemma safe_delete_inv (e : env) (s : db D) (i : Z) (reason : string) :
  db_inv s ->
  db_inv (snd (safe_delete_interaction py_str e s i reason)).
Proof.
  intros H.
  destruct (copy_ok e) eqn:Hc.
  2:{ unfold safe_delete_interaction. rewrite Hc. exact H. }
  destruct (fetch_interaction s i) as [r|] eqn:Hf.
  2:{ unfold safe_delete_interaction. rewrite Hc, Hf. exact H. }
  rewrite (safe_delete_found e s i reason r Hc Hf). simpl.
  destruct H as (Hl & Hd & Hx).
  pose proof (next_rowid_above_seq s) as Hseq.
  pose proof (fetch_interaction_some s i r Hf) as [Hin Hid].
  repeat split; simpl.
  - intros x Hin'. apply in_app_or in Hin'. destruct Hin' as [Hin'|[<-|[]]]; simpl.
    + apply filter_In in Hin'. destruct Hin' as [Hin' _].
      specialize (Hl x Hin'). lia.
    + lia.
  - intros d Hin'. apply in_app_or in Hin'. destruct Hin' as [Hin'|[<-|[]]]; simpl.
    + specialize (Hd d Hin'). lia.
    + specialize (Hl r Hin). lia.
  - intros x d Hx' Hd'.
    apply in_app_or in Hx'. apply in_app_or in Hd'.
    destruct Hx' as [Hx'|[<-|[]]]; destruct Hd' as [Hd'|[<-|[]]]; simpl.
    + apply filter_In in Hx'. destruct Hx' as [Hx' _]. now apply Hx.
    + apply filter_In in Hx'. destruct Hx' as [_ Hx'].
      apply negb_true_iff, Z.eqb_neq in Hx'. exact Hx'.
    + specialize (Hd d Hd'). lia.
    + specialize (Hl r Hin). lia.
Qed.

Lemma restore_inv (e : env) (s : db D) (i : Z) :
  db_inv s ->
  db_inv (snd (restore_deleted_interaction py_eval e s i)).
Proof.
  intros H. unfold restore_deleted_interaction.
  destruct (fetch_deleted s i) as [d|]; [|exact H].
  destruct (py_eval (original_data d)) as [o|]; [|exact H].
  pose proof (insert_interaction_inv e s (text o) (source o) (tags o) (emotion o)
                (mood o) (intensity o) (bit_worthy o) (timestamp o) H) as H1.
  destruct (insert_interaction e s (text o) (source o) (tags o) (emotion o)
              (mood o) (intensity o) (bit_worthy o) (timestamp o)) as [i1 s1].
  simpl in H1.
  pose proof (insert_interaction_inv e s1
                (restoration_log_text i (deletion_reason d))
                (Some "ai_delete_protection")
                (Some "restoration_log,ai_safety,recovery")
                (Some "recovered") None 7 false (isoformat (now e)) H1) as H2.
  destruct (insert_interaction e s1 _ _ _ _ _ _ _ _) as [i2 s2].
  simpl in H2. simpl. destruct H2 as (Hl & Hd & Hx).
  repeat split; simpl.
  - exact Hl.
  - intros x Hin. apply filter_In in Hin. now apply Hd.
  - intros x y Hin Hy. apply filter_In in Hy. now apply Hx.
Qed.

End WithSerializer.

(** ** Inserting *)

(** C9, as the code behaves: [add_interaction] validates nothing.  For
    every store and every text, empty or not, a call whose intensity fits
    SQLite's INTEGER returns the key that AUTOINCREMENT assigns, which is
    larger than every key of the table, and the table gains exactly the new
    row; a call whose intensity does not fit raises [OverflowError] and
    leaves the store as it was.  No text makes the call raise,
    [ValidationError] is never raised, and no key is handed out twice. *)
Theorem add_interaction_validates_nothing :
  forall (D : Type) (e : env) (s : db D) (t : string)
         (src tg em md : option string) (inten : Z) (bw : bool),
    Checked.add_interaction e s (Some t) src tg em md inten bw =
      (if Limits.fits_int64 inten
       then (Returns (next_rowid s),
             mk_db (interactions s ++
                      [mk_interaction (next_rowid s) t src tg em md inten bw
                                      (isoformat (now e)) (current_timestamp e)])
                   (next_rowid s) (deleted_interactions s))
       else (Raises OverflowError, s))
    /\ (forall r, In r (interactions s) -> id r < next_rowid s)
    /\ fst (Checked.add_interaction e s (Some t) src tg em md inten bw)
       <> Raises ValidationError.
Proof.
  intros D e s t src tg em md inten bw. unfold Checked.add_interaction.
  split; [|split].
  - destruct (Limits.fits_int64 inten); reflexivity.
  - intros r Hr. now apply next_rowid_fresh.
  - destruct (Limits.fits_int64 inten); discriminate.
Qed.

(** The two cases on the new store: intensity 5 is stored under key 1,
    intensity 2^63 raises and stores nothing. *)
Example add_interaction_intensity_out_of_range :
  fst (Checked.add_interaction Samples.e0 Samples.fresh (Some "note") None None None
                               None 5 false) = Returns 1
  /\ Checked.add_interaction Samples.e0 Samples.fresh (Some "note") None None None
                             None (2 ^ 63) false
     = (Raises OverflowError, Samples.fresh).
Proof. split; reflexivity. Qed.

(** C9 as stated fails: the empty text is inserted under key 1 of a new
    store, and no [ValidationError] is raised. *)
Lemma add_interaction_empty_text_is_stored :
  fst (add_interaction Samples.e0 Samples.fresh (Some "") None None None None 1 false)
    = Returns 1
  /\ fst (add_interaction Samples.e0 Samples.fresh (Some "") None None None None 1 false)
    <> Raises ValidationError.
Proof. split; [reflexivity | discriminate]. Qed.

(** ** Soft delete *)

(** C7, as the code behaves: on a key that is not in the table
    [safe_delete_interaction] returns [False] and leaves the store as it
    was; on a key that is in the table (the backup copy succeeding) it
    returns [True], and a second call on the same key returns [False]. *)
Theorem safe_delete_unknown_and_twice :
  forall (D : Type) (py_str : interaction -> D) (e1 e2 : env) (s : db D)
         (known unknown : Z) (reason1 reason2 : string) (r : interaction),
    copy_ok e1 = true ->
    fetch_interaction s known = Some r ->
    fetch_interaction s unknown = None ->
    safe_delete_interaction py_str e1 s unknown reason1 = (Returns false, s)
    /\ fst (safe_delete_interaction py_str e1 s known reason1) = Returns true
    /\ fst (safe_delete_interaction py_str e2
              (snd (safe_delete_interaction py_str e1 s known reason1))
              known reason2) = Returns false.
Proof.
  intros D py_str e1 e2 s known unknown reason1 reason2 r Hc Hk Hu.
  split; [|split].
  - unfold safe_delete_interaction. rewrite Hc, Hu. reflexivity.
  - rewrite (safe_delete_found py_str e1 s known reason1 r Hc Hk). reflexivity.
  - pose proof (fetch_after_delete py_str e1 s known reason1 r Hc Hk) as Hn.
    unfold safe_delete_interaction at 1. rewrite Hn.
    destruct (copy_ok e2); reflexivity.
Qed.

Lemma safe_delete_unknown_and_twice_witness :
  safe_delete_interaction Samples.keep Samples.e0 Samples.db1 9999 "AI request"
    = (Returns false, Samples.db1)
  /\ fst (safe_delete_interaction Samples.keep Samples.e0 Samples.db1 1 "AI request")
    = Returns true
  /\ fst (safe_delete_interaction Samples.keep Samples.e1
            (snd (safe_delete_interaction Samples.keep Samples.e0 Samples.db1 1
                                          "AI request"))
            1 "once more") = Returns false.
Proof.
  apply (safe_delete_unknown_and_twice _ Samples.keep Samples.e0 Samples.e1
           Samples.db1 1 9999 "AI request" "once more"
           (mk_interaction 1 "I love debugging at night" (Some "manual")
                           (Some "night,code") (Some "calm") None 5 false
                           "2025-07-19T10:00:00" "2025-07-19 04:30:00"));
    reflexivity.
Defined.

(** C7 as stated fails: on a new store the call with key 9999 returns
    [False]; it does not raise [NotFoundError]. *)
Lemma safe_delete_unknown_id_returns_false :
  fst (safe_delete_interaction Samples.keep Samples.e0 Samples.fresh 9999 "AI request")
    = Returns false
  /\ fst (safe_delete_interaction Samples.keep Samples.e0 Samples.fresh 9999 "AI request")
    <> Raises NotFoundError.
Proof. split; [reflexivity | discriminate]. Qed.

(** ** Soft delete, then restore *)

(** C6: when [eval] reads back what [str] wrote, deleting a stored row and
    restoring its key returns [True] and leaves in [interactions] a row with
    the text, emotion and tags of the original (and its source, mood,
    intensity, flag and timestamp), under a key that is not the old one. *)
Theorem soft_delete_restore_round_trip :
  forall (D : Type) (py_str : interaction -> D)
         (py_eval : D -> option interaction) (e1 e2 : env) (s : db D)
         (i : Z) (reason : string) (r : interaction),
    (forall x, py_eval (py_str x) = Some x) ->
    db_inv s ->
    copy_ok e1 = true ->
    fetch_interaction s i = Some r ->
    let s1 := snd (safe_delete_interaction py_str e1 s i reason) in
    fst (restore_deleted_interaction py_eval e2 s1 i) = Returns true
    /\ exists r',
         In r' (interactions (snd (restore_deleted_interaction py_eval e2 s1 i)))
         /\ text r' = text r /\ emotion r' = emotion r /\ tags r' = tags r
         /\ source r' = source r /\ mood r' = mood r
         /\ intensity r' = intensity r /\ bit_worthy r' = bit_worthy r
         /\ timestamp r' = timestamp r
         /\ id r' <> i.
Proof.
  intros D py_str py_eval e1 e2 s i reason r Hrt Hinv Hc Hf s1. subst s1.
  rewrite (safe_delete_found py_str e1 s i reason r Hc Hf).
  destruct Hinv as (Hl & Hd & Hx).
  pose proof (fetch_interaction_some s i r Hf) as [Hin Hid].
  assert (Hfd : fetch_deleted
                  (mk_db (filter (fun x => negb (id x =? i)) (interactions s)
                            ++ [deletion_log_row e1 s i reason r])
                         (next_rowid s)
                         (deleted_interactions s ++ [tombstone py_str e1 i reason r])) i
                = Some (tombstone py_str e1 i reason r)).
  { unfold fetch_deleted. simpl. rewrite find_app_skip.
    - simpl. rewrite Z.eqb_refl. reflexivity.
    - intros d Hin'. apply Z.eqb_neq. intros Heq.
      apply (Hx r d Hin Hin'). congruence. }
  unfold restore_deleted_interaction. simpl snd. rewrite Hfd. simpl original_data.
  rewrite Hrt. simpl. split; [reflexivity|].
  eexists. split.
  - apply in_or_app. left. apply in_or_app. right. left. reflexivity.
  - simpl. repeat split; try reflexivity.
    pose proof (next_rowid_fresh s r Hin) as Hlt.
    unfold next_rowid at 1. simpl. lia.
Qed.

Lemma soft_delete_restore_round_trip_witness :
  fst (restore_deleted_interaction Samples.read_back Samples.e1
         (snd (safe_delete_interaction Samples.keep Samples.e0 Samples.db1 1
                                       "AI request")) 1) = Returns true
  /\ exists r',
       In r' (interactions
                (snd (restore_deleted_interaction Samples.read_back Samples.e1
                        (snd (safe_delete_interaction Samples.keep Samples.e0
                                Samples.db1 1 "AI request")) 1)))
       /\ text r' = "I love debugging at night"
       /\ emotion r' = Some "calm" /\ tags r' = Some "night,code"
       /\ source r' = Some "manual" /\ mood r' = None
       /\ intensity r' = 5 /\ bit_worthy r' = false
       /\ timestamp r' = "2025-07-19T10:00:00"
       /\ id r' <> 1.
Proof.
  apply (soft_delete_restore_round_trip _ Samples.keep Samples.read_back
           Samples.e0 Samples.e1 Samples.db1 1 "AI request"
           (mk_interaction 1 "I love debugging at night" (Some "manual")
                           (Some "night,code") (Some "calm") None 5 false
                           "2025-07-19T10:00:00" "2025-07-19 04:30:00")).
  - intros x. reflexivity.
  - apply (add_interaction_inv Samples.e0 Samples.fresh). apply empty_db_inv.
  - reflexivity.
  - reflexivity.
Defined.

End StoreFacts.

(** * Properties of retrieval *)
Module InjectorFacts.
Import PyTime Builtins Injector.

(** ** The sort and the cuts *)

Section Sorting.

Context {A : Type}.
Variable gt : A -> A -> bool.

Lemma insert_desc_perm (x : A) (l : list A) :
  Permutation (insert_desc gt x l) (x :: l).
Proof.
  induction l as [|y l IH]; simpl; [reflexivity|].
  destruct (gt y x); [|reflexivity].
  rewrite IH. apply perm_swap.
Qed.

Lemma sort_desc_perm (l : list A) : Permutation (sort_desc gt l) l.
Proof.
  induction l as [|x l IH]; simpl; [reflexivity|].
  rewrite insert_desc_perm. now constructor.
Qed.

Lemma sort_desc_in (l : list A) (x : A) : In x (sort_desc gt l) <-> In x l.
Proof.
  split; apply Permutation_in; [|symmetry]; apply sort_desc_perm.
Qed.

Lemma sort_desc_length (l : list A) : List.length (sort_desc gt l) = List.length l.
Proof. apply Permutation_length, sort_desc_perm. Qed.

End Sorting.

Lemma filter_perm {A : Type} (f : A -> bool) (l l' : list A) :
  Permutation l l' -> Permutation (filter f l) (filter f l').
Proof.
  induction 1 as [|x l l' _ IH|x y l|l l' l'' _ IH1 _ IH2]; simpl.
  - reflexivity.
  - destruct (f x); [now constructor|exact IH].
  - destruct (f x), (f y); try reflexivity. apply perm_swap.
  - now transitivity (filter f l').
Qed.

Lemma firstn_incl {A : Type} (n : nat) (l : list A) (x : A) :
  In x (firstn n l) -> In x l.
Proof.
  revert l. induction n as [|n IH]; intros [|a l]; simpl; try tauto.
  intros [H|H]; [now left|right; now apply IH].
Qed.

Lemma py_slice_to_in {A : Type} (n : Z) (l : list A) (x : A) :
  In x (py_slice_to n l) -> In x l.
Proof.
  unfold py_slice_to. destruct (0 <=? n); apply firstn_incl.
Qed.

Lemma py_slice_to_length {A : Type} (n : Z) (l : list A) :
  0 <= n -> (List.length (py_slice_to n l) <= Z.to_nat n)%nat.
Proof.
  intros H. unfold py_slice_to.
  replace (0 <=? n) with true by (symmetry; now apply Z.leb_le).
  apply firstn_le_length.
Qed.

Lemma sql_limit_in {A : Type} (n : Z) (l : list A) (x : A) :
  In x (sql_limit n l) -> In x l.
Proof.
  unfold sql_limit. destruct (n <? 0); [tauto|]. apply firstn_incl.
Qed.

Lemma sql_limit_length {A : Type} (n : Z) (l : list A) :
  0 <= n -> (List.length (sql_limit n l) <= Z.to_nat n)%nat.
Proof.
  intros H. unfold sql_limit.
  replace (n <? 0) with false by (symmetry; apply Z.ltb_ge; lia).
  apply firstn_le_length.
Qed.

Lemma sql_limit_all {A : Type} (n : Z) (l : list A) :
  Z.of_nat (List.length l) <= n -> sql_limit n l = l.
Proof.
  intros H. unfold sql_limit.
  replace (n <? 0) with false by (symmetry; apply Z.ltb_ge; lia).
  apply firstn_all2. lia.
Qed.

(** ** The newest row comes first *)

Lemma string_ltb_irrefl (a : string) : String.ltb a a = false.
Proof.
  unfold String.ltb. pose proof (String.compare_antisym a a) as H.
  destruct (String.compare a a); simpl in H; try discriminate; reflexivity.
Qed.

Lemma string_ltb_asym (a b : string) :
  String.ltb a b = true -> String.ltb b a = false.
Proof.
  unfold String.ltb. rewrite (String.compare_antisym a b).
  destruct (String.compare b a); simpl; try discriminate; reflexivity.
Qed.

Lemma insert_desc_keeps_newest (r a : Store.interaction) (tl : list Store.interaction) :
  a = r \/ String.ltb (Store.timestamp a) (Store.timestamp r) = true ->
  exists tl', insert_desc ts_gt a (r :: tl) = r :: tl'.
Proof.
  intros [->|H]; simpl; unfold ts_gt at 1.
  - rewrite string_ltb_irrefl. now exists (r :: tl).
  - rewrite H. now eexists.
Qed.

Lemma insert_desc_newest (r : Store.interaction) (l : list Store.interaction) :
  (forall x, In x l ->
             x = r \/ String.ltb (Store.timestamp x) (Store.timestamp r) = true) ->
  insert_desc ts_gt r l = r :: l.
Proof.
  intros H. destruct l as [|y l]; simpl; [reflexivity|].
  unfold ts_gt. destruct (H y (or_introl eq_refl)) as [->|Hy].
  - now rewrite string_ltb_irrefl.
  - now rewrite (string_ltb_asym _ _ Hy).
Qed.

(** A row that is newer than every other row of the list heads the list
    sorted by descending timestamp. *)
Lemma sort_desc_newest_first (r : Store.interaction) (l : list Store.interaction) :
  In r l ->
  (forall x, In x l ->
             x = r \/ String.ltb (Store.timestamp x) (Store.timestamp r) = true) ->
  exists tl, sort_desc ts_gt l = r :: tl.
Proof.
  induction l as [|a l IH]; intros Hin Hall; [contradiction|].
  simpl. fold (sort_desc ts_gt l).
  destruct Hin as [->|Hl].
  - exists (sort_desc ts_gt l). apply insert_desc_newest.
    intros x Hx. apply Hall. right. now apply sort_desc_in in Hx.
  - destruct (IH Hl (fun x Hx => Hall x (or_intror Hx))) as [tl Htl].
    rewrite Htl. apply insert_desc_keeps_newest. apply Hall. now left.
Qed.

Lemma within_limit_in (limit : Z) (r : Store.interaction)
    (matching : list Store.interaction) :
  In r matching ->
  Predicates.within_limit limit r matching ->
  In r (sql_limit limit (sort_desc ts_gt matching)).
Proof.
  intros Hin [Hneg|[Hlen|[Hone Hnew]]].
  - unfold sql_limit. replace (limit <? 0) with true by (symmetry; now apply Z.ltb_lt).
    now apply sort_desc_in.
  - rewrite sql_limit_all; [now apply sort_desc_in|]. now rewrite sort_desc_length.
  - destruct (sort_desc_newest_first r matching Hin Hnew) as [tl ->].
    unfold sql_limit. replace (limit <? 0) with false by (symmetry; apply Z.ltb_ge; lia).
    destruct (Z.to_nat limit) as [|k] eqn:E; [lia|]. now left.
Qed.

(** ** Ranking keys *)

Lemma sim_gt_false (y x : memory) :
  (sim_key y <= sim_key x)%Q -> sim_gt y x = false.
Proof.
  intros H. unfold sim_gt. apply negb_false_iff. now apply Qle_bool_iff.
Qed.

(** Records that all rank lowest stay where they are. *)
Lemma sort_unscored (l : list memory) :
  (forall m, In m l -> similarity m = None) -> sort_desc sim_gt l = l.
Proof.
  induction l as [|x l IH]; intros H; simpl; [reflexivity|].
  rewrite IH by (intros m Hm; apply H; now right).
  destruct l as [|y l]; simpl; [reflexivity|].
  rewrite sim_gt_false; [reflexivity|].
  unfold sim_key. rewrite (H x), (H y) by (simpl; auto). apply Qle_refl.
Qed.

Lemma insert_before_unscored (x : memory) (l1 l2 : list memory) :
  (0 <= sim_key x)%Q ->
  (forall m, In m l2 -> similarity m = None) ->
  insert_desc sim_gt x (l1 ++ l2) = insert_desc sim_gt x l1 ++ l2.
Proof.
  intros Hx H2. induction l1 as [|y l1 IH]; simpl.
  - destruct l2 as [|y l2]; simpl; [reflexivity|].
    rewrite sim_gt_false; [reflexivity|].
    unfold sim_key at 1. rewrite (H2 y) by (simpl; auto). exact Hx.
  - destruct (sim_gt y x); [|reflexivity]. simpl. now rewrite IH.
Qed.

(** Scored records with a score of at least 0, followed by unscored ones:
    the sort orders the first part and leaves the second behind it. *)
Lemma sort_scored_then_unscored (l1 l2 : list memory) :
  (forall m, In m l1 -> (0 <= sim_key m)%Q) ->
  (forall m, In m l2 -> similarity m = None) ->
  sort_desc sim_gt (l1 ++ l2) = sort_desc sim_gt l1 ++ l2.
Proof.
  intros H1 H2. induction l1 as [|x l1 IH]; simpl.
  - now apply sort_unscored.
  - fold (sort_desc sim_gt (l1 ++ l2)). fold (sort_desc sim_gt l1).
    rewrite IH by (intros m Hm; apply H1; now right).
    apply insert_before_unscored; [|exact H2]. apply H1. now left.
Qed.

(** ** Removing duplicates *)

Lemma unique_by_text_app (seen : list string) (l1 l2 : list memory) :
  unique_by_text seen (l1 ++ l2) =
  unique_by_text seen l1 ++
  unique_by_text (rev (map m_text (unique_by_text seen l1)) ++ seen) l2.
Proof.
  revert seen. induction l1 as [|m l1 IH]; intros seen; simpl; [reflexivity|].
  destruct (existsb (String.eqb (m_text m)) seen).
  - apply IH.
  - simpl. rewrite IH. rewrite <- app_assoc. reflexivity.
Qed.

Lemma unique_by_text_in (seen : list string) (l : list memory) (m : memory) :
  In m (unique_by_text seen l) -> In m l.
Proof.
  revert seen. induction l as [|a l IH]; intros seen; simpl; [tauto|].
  destruct (existsb (String.eqb (m_text a)) seen).
  - intros H. right. eapply IH, H.
  - intros [H|H]; [now left|]. right. eapply IH, H.
Qed.

Lemma unique_by_text_length (seen : list string) (l : list memory) :
  (List.length (unique_by_text seen l) <= List.length l)%nat.
Proof.
  revert seen. induction l as [|a l IH]; intros seen; simpl; [lia|].
  destruct (existsb (String.eqb (m_text a)) seen); simpl.
  - specialize (IH seen). lia.
  - specialize (IH (m_text a :: seen)). lia.
Qed.

(** What is left of one text: nothing when the text was seen before, and
    otherwise the first record that carries it. *)
Lemma unique_by_text_filter (t : string) (seen : list string) (l : list memory) :
  filter (has_text t) (unique_by_text seen l) =
  if existsb (String.eqb t) seen then []
  else match find (has_text t) l with
       | Some m => [m]
       | None => []
       end.
Proof.
  revert seen. induction l as [|a l IH]; intros seen; simpl.
  - now destruct (existsb (String.eqb t) seen).
  - unfold has_text at 2.
    destruct (String.eqb_spec (m_text a) t) as [Heq|Hne].
    + subst t. destruct (existsb (String.eqb (m_text a)) seen) eqn:Hs.
      * rewrite IH, Hs. reflexivity.
      * simpl. unfold has_text at 1. rewrite String.eqb_refl.
        rewrite IH. simpl. rewrite String.eqb_refl. reflexivity.
    + destruct (existsb (String.eqb (m_text a)) seen) eqn:Hs.
      * apply IH.
      * simpl. unfold has_text at 1.
        replace (String.eqb (m_text a) t) with false
          by (symmetry; now apply String.eqb_neq).
        rewrite IH. simpl.
        replace (String.eqb t (m_text a)) with false
          by (symmetry; apply String.eqb_neq; congruence).
        reflexivity.
Qed.

Lemma filter_nil_in {A : Type} (f : A -> bool) (l : list A) (x : A) :
  filter f l = [] -> In x l -> f x = false.
Proof.
  intros Hf Hx. destruct (f x) eqn:E; [|reflexivity].
  assert (In x (filter f l)) as H by (apply filter_In; auto).
  rewrite Hf in H. contradiction.
Qed.

Lemma filter_none {A : Type} (f : A -> bool) (l : list A) :
  (forall x, In x l -> f x = false) -> filter f l = [].
Proof.
  induction l as [|a l IH]; intros H; simpl; [reflexivity|].
  rewrite (H a (or_introl eq_refl)). apply IH. intros x Hx. apply H. now right.
Qed.

(** ** What each search path returns *)

Lemma keyword_relevance_nonneg (ws : list string) (t : string) :
  (0 <= keyword_relevance ws t)%Q.
Proof.
  unfold keyword_relevance. destruct ws as [|w ws]; [apply Qle_refl|].
  unfold Qle. simpl. lia.
Qed.

Lemma semantic_in now db query text emotion limit days hits m :
  query text (limit * 2) = Some hits ->
  In m (find_similar_memories now db (Available query) text emotion limit days) ->
  exists h, In h hits /\ m = semantic_memory emotion h
            /\ (topical_threshold <= hit_similarity emotion h)%Q.
Proof.
  intros Hq Hm. unfold find_similar_memories in Hm. rewrite Hq in Hm.
  apply py_slice_to_in, sort_desc_in, in_flat_map in Hm.
  destruct Hm as (h & Hh & Hm). exists h. split; [exact Hh|].
  destruct (h_timestamp h <? minus_days now days); [contradiction|].
  destruct (Qle_bool topical_threshold (hit_similarity emotion h)) eqn:E;
    [|contradiction].
  destruct Hm as [<-|[]]. split; [reflexivity|]. now apply Qle_bool_iff.
Qed.

Lemma fallback_in now db text emotion limit days m :
  In m (_fallback_memory_search now db text emotion limit days) ->
  exists rows r q, db = Some rows /\ In r rows
                   /\ m = row_memory (Some q) keyword r /\ (0 <= q)%Q.
Proof.
  unfold _fallback_memory_search. destruct db as [rows|]; [|contradiction].
  destruct (py_split (py_lower text)) as [|w ws] eqn:Ew; [contradiction|].
  intros Hm. apply in_map_iff in Hm. destruct Hm as (r & <- & Hr).
  apply sql_limit_in, sort_desc_in, filter_In in Hr. destruct Hr as [Hr _].
  exists rows, r, (keyword_relevance (w :: ws) (Store.text r)).
  repeat split; [exact Hr|]. apply keyword_relevance_nonneg.
Qed.

Lemma fallback_length now db text emotion limit days :
  0 <= limit ->
  (List.length (_fallback_memory_search now db text emotion limit days)
   <= Z.to_nat limit)%nat.
Proof.
  intros H. unfold _fallback_memory_search.
  destruct db as [rows|]; simpl; [|lia].
  destruct (py_split (py_lower text)) as [|w ws]; simpl; [lia|].
  rewrite length_map. now apply sql_limit_length.
Qed.

Lemma find_similar_in now db vec text emotion limit days m :
  In m (find_similar_memories now db vec text emotion limit days) ->
  exists q, similarity m = Some q /\ (0 <= q)%Q /\ relevance_type m <> emotional.
Proof.
  intros Hm.
  assert (Hfb : In m (_fallback_memory_search now db text emotion limit days) ->
                exists q, similarity m = Some q /\ (0 <= q)%Q
                          /\ relevance_type m <> emotional).
  { intros H. apply fallback_in in H.
    destruct H as (rows & r & q & _ & _ & -> & Hq).
    exists q. repeat split; [exact Hq|discriminate]. }
  destruct vec as [|query]; [exact (Hfb Hm)|].
  destruct (query text (limit * 2)) as [hits|] eqn:Hq.
  - destruct (semantic_in _ _ _ _ _ _ _ _ _ Hq Hm) as (h & _ & -> & Hth).
    exists (hit_similarity emotion h). repeat split; [|discriminate].
    unfold topical_threshold in Hth. lra.
  - unfold find_similar_memories in Hm. rewrite Hq in Hm. exact (Hfb Hm).
Qed.

Lemma find_similar_length now db vec text emotion limit days :
  0 <= limit ->
  (List.length (find_similar_memories now db vec text emotion limit days)
   <= Z.to_nat limit)%nat.
Proof.
  intros H. unfold find_similar_memories.
  destruct vec as [|query]; [now apply fallback_length|].
  destruct (query text (limit * 2)); [|now apply fallback_length].
  now apply py_slice_to_length.
Qed.

Lemma find_emotional_in now db emotion limit days m :
  In m (find_emotional_memories now db emotion limit days) ->
  exists rows r, db = Some rows /\ In r rows /\ m = row_memory None emotional r.
Proof.
  unfold find_emotional_memories. destruct db as [rows|]; [|contradiction].
  intros Hm. apply in_map_iff in Hm. destruct Hm as (r & <- & Hr).
  apply sql_limit_in, sort_desc_in, filter_In in Hr. destruct Hr as [Hr _].
  now exists rows, r.
Qed.

Lemma emotional_of_in now db emo max m :
  In m (emotional_of now db emo max) ->
  exists rows r, db = Some rows /\ In r rows /\ m = row_memory None emotional r.
Proof.
  unfold emotional_of. destruct emo as [e|]; [|contradiction].
  destruct (truthy (Some e)); [|contradiction]. apply find_emotional_in.
Qed.

Lemma emotional_of_unscored now db emo max m :
  In m (emotional_of now db emo max) ->
  similarity m = None /\ relevance_type m = emotional.
Proof.
  intros H. apply emotional_of_in in H. destruct H as (rows & r & _ & _ & ->).
  split; reflexivity.
Qed.

(** ** The searches over the table find what matches *)




(** ** The merge *)

Lemma merge_memories_split (T E : list memory) (max_memories : Z) :
  (forall m, In m T -> (0 <= sim_key m)%Q) ->
  (forall m, In m E -> similarity m = None) ->
  merge_memories T E max_memories =
  py_slice_to max_memories
    (sort_desc sim_gt (unique_by_text [] T) ++
     unique_by_text (rev (map m_text (unique_by_text [] T))) E).
Proof.
  intros HT HE. unfold merge_memories. rewrite unique_by_text_app, app_nil_r.
  rewrite sort_scored_then_unscored; [reflexivity| |].
  - intros m Hm. apply HT. eapply unique_by_text_in, Hm.
  - intros m Hm. apply HE. eapply unique_by_text_in, Hm.
Qed.

Lemma topical_keys now db vec text max m :
  In m (topical_of now db vec text max) -> (0 <= sim_key m)%Q.
Proof.
  intros H. apply find_similar_in in H. destruct H as (q & Hq & Hle & _).
  unfold sim_key. now rewrite Hq.
Qed.

Lemma relevant_memories_split now db vec text emo max :
  relevant_memories now db vec text emo max =
  py_slice_to max
    (sort_desc sim_gt (unique_by_text [] (topical_of now db vec text max)) ++
     unique_by_text
       (rev (map m_text (unique_by_text [] (topical_of now db vec text max))))
       (emotional_of now db emo max)).
Proof.
  unfold relevant_memories. apply merge_memories_split.
  - intros m. apply topical_keys.
  - intros m Hm. now apply emotional_of_unscored in Hm.
Qed.

(** ** Merge, duplicates, ranking *)

(** C1: when the topical search and the emotion search both return a
    record with the same text (the number of memories asked for not being
    negative), the list of relevant memories holds exactly one record with
    that text: the first one of the topical list.  It is not the emotion
    record, and it is a semantic record when the vector query answered. *)
Theorem duplicate_text_kept_once :
  forall (now : datetime) (db : table) (vec : vector_index) (text : string)
         (emo : option string) (max_memories : Z) (mt me : memory),
    0 <= max_memories ->
    In mt (topical_of now db vec text max_memories) ->
    In me (emotional_of now db emo max_memories) ->
    m_text mt = m_text me ->
    exists m0,
      find (has_text (m_text mt)) (topical_of now db vec text max_memories) = Some m0
      /\ filter (has_text (m_text mt))
                (relevant_memories now db vec text emo max_memories) = [m0]
      /\ relevance_type m0 <> emotional
      /\ ~ In me (relevant_memories now db vec text emo max_memories)
      /\ (forall query hits,
             vec = Available query -> query text (max_memories * 2) = Some hits ->
             relevance_type m0 = semantic).
Proof.
  intros now db vec text emo mx mt me Hmx Hmt Hme Htxt.
  set (T := topical_of now db vec text mx) in *.
  set (E := emotional_of now db emo mx) in *.
  set (t := m_text mt) in *.
  destruct (find (has_text t) T) as [m0|] eqn:Hfind.
  2:{ exfalso. pose proof (find_none _ _ Hfind mt Hmt) as Hn.
      unfold has_text in Hn. subst t. rewrite String.eqb_refl in Hn. discriminate. }
  exists m0.
  assert (Hm0 : In m0 T /\ has_text t m0 = true) by (now apply find_some in Hfind).
  assert (HT' : filter (has_text t) (unique_by_text [] T) = [m0]).
  { rewrite unique_by_text_filter. simpl. now rewrite Hfind. }
  assert (Hin0 : In m0 (unique_by_text [] T)).
  { assert (In m0 (filter (has_text t) (unique_by_text [] T))) as H
      by (rewrite HT'; now left).
    now apply filter_In in H. }
  assert (Hres : filter (has_text t) (relevant_memories now db vec text emo mx) = [m0]).
  { rewrite relevant_memories_split. fold T. fold E.
    unfold py_slice_to. replace (0 <=? mx) with true by (symmetry; now apply Z.leb_le).
    rewrite firstn_app, filter_app.
    rewrite firstn_all2.
    2:{ rewrite sort_desc_length.
        pose proof (unique_by_text_length [] T).
        pose proof (find_similar_length now db vec text None mx 30 Hmx) as HL.
        fold (topical_of now db vec text mx) in HL. fold T in HL. lia. }
    assert (Hs : filter (has_text t) (sort_desc sim_gt (unique_by_text [] T)) = [m0]).
    { apply Permutation_length_1_inv. rewrite <- HT'.
      apply filter_perm. symmetry. apply sort_desc_perm. }
    rewrite Hs.
    rewrite filter_none; [reflexivity|].
    intros x Hx. apply firstn_incl in Hx.
    eapply filter_nil_in; [|exact Hx].
    rewrite unique_by_text_filter.
    replace (existsb (String.eqb t)
               (rev (map m_text (unique_by_text [] T)))) with true; [reflexivity|].
    symmetry. apply existsb_exists. exists (m_text m0). split.
    - apply -> in_rev. now apply in_map.
    - destruct Hm0 as [_ Hm0]. unfold has_text in Hm0.
      apply String.eqb_eq in Hm0. rewrite Hm0. apply String.eqb_refl. }
  destruct Hm0 as [Hm0T Hm0t].
  assert (Hne : relevance_type m0 <> emotional).
  { apply find_similar_in in Hm0T. now destruct Hm0T as (_ & _ & _ & H). }
  repeat split; [exact Hres|exact Hne| |].
  - intros Hin.
    assert (In me (filter (has_text t) (relevant_memories now db vec text emo mx))) as H.
    { apply filter_In. split; [exact Hin|]. unfold has_text. subst t.
      rewrite <- Htxt. apply String.eqb_refl. }
    rewrite Hres in H. destruct H as [<-|[]].
    apply emotional_of_unscored in Hme. now destruct Hme.
  - intros query hits -> Hq. unfold T, topical_of in Hm0T.
    destruct (semantic_in _ _ _ _ _ _ _ _ _ Hq Hm0T) as (h & _ & -> & _).
    reflexivity.
Qed.

Lemma duplicate_text_kept_once_witness :
  exists m0,
    find (has_text (m_text Samples.near_memory))
         (topical_of Samples.t5 Samples.table1 Samples.index1 "debugging" 3) = Some m0
    /\ filter (has_text (m_text Samples.near_memory))
              (relevant_memories Samples.t5 Samples.table1 Samples.index1
                                 "debugging" (Some "calm") 3) = [m0]
    /\ relevance_type m0 <> emotional
    /\ ~ In Samples.calm_memory
            (relevant_memories Samples.t5 Samples.table1 Samples.index1
                               "debugging" (Some "calm") 3)
    /\ (forall query hits,
           Samples.index1 = Available query -> query "debugging" (3 * 2) = Some hits ->
           relevance_type m0 = semantic).
Proof.
  apply (duplicate_text_kept_once Samples.t5 Samples.table1 Samples.index1
           "debugging" (Some "calm") 3 Samples.near_memory Samples.calm_memory).
  - lia.
  - vm_compute. left. reflexivity.
  - vm_compute. left. reflexivity.
  - reflexivity.
Defined.

(** C3, as the code behaves: a record without a similarity is ranked with
    the default score 0, not 0.5.  The relevant memories are therefore the
    topical records (each scored, with a score of at least 0) without
    duplicates in descending order, followed by the emotion records whose
    text was not seen, unscored and in the order the emotion search gave
    them, the whole cut to [max_memories]: an unscored record never comes
    before a scored one. *)
Theorem unscored_memories_rank_last :
  forall (now : datetime) (db : table) (vec : vector_index) (text : string)
         (emo : option string) (max_memories : Z),
    relevant_memories now db vec text emo max_memories =
      py_slice_to max_memories
        (sort_desc sim_gt (unique_by_text [] (topical_of now db vec text max_memories))
         ++ unique_by_text
              (rev (map m_text
                        (unique_by_text [] (topical_of now db vec text max_memories))))
              (emotional_of now db emo max_memories))
    /\ (forall m, In m (topical_of now db vec text max_memories) ->
                  exists q, similarity m = Some q /\ (0 <= q)%Q)
    /\ (forall m, In m (emotional_of now db emo max_memories) ->
                  similarity m = None /\ (sim_key m == 0)%Q
                  /\ relevance_type m = emotional).
Proof.
  intros now db vec text emo mx.
  split; [apply relevant_memories_split|]. split.
  - intros m Hm. apply find_similar_in in Hm.
    destruct Hm as (q & Hq & Hle & _). now exists q.
  - intros m Hm.
    pose proof (emotional_of_unscored _ _ _ _ _ Hm) as [Hs Hr].
    repeat split; [exact Hs| |exact Hr].
    unfold sim_key. rewrite Hs. reflexivity.
Qed.

(** C3 as stated fails: with the index unavailable, the query
    ["alpha beta gamma"] and the emotion ["calm"], the emotion record
    ["quiet evening"] is ranked with 0, not 0.5, and comes last, behind a
    keyword record whose score 1/3 is below 0.5. *)
Lemma unscored_memory_is_ranked_with_zero :
  relevant_memories Samples.t5 Samples.table3 Unavailable "alpha beta gamma"
                    (Some "calm") 3
    = [row_memory (Some (3 # 3)%Q) keyword Samples.row_full;
       row_memory (Some (1 # 3)%Q) keyword Samples.row_part;
       row_memory None emotional Samples.row_calm]
  /\ (sim_key (row_memory (Some (1 # 3)%Q) keyword Samples.row_part) < 1 # 2)%Q
  /\ (sim_key (row_memory None emotional Samples.row_calm) == 0)%Q
  /\ ~ (sim_key (row_memory None emotional Samples.row_calm) == 1 # 2)%Q.
Proof.
  split; [reflexivity|]. split; [reflexivity|]. split; [reflexivity|].
  intros H. vm_compute in H. discriminate H.
Qed.

(** ** The index is unavailable *)

(** When the embedding model or the collection is not loaded,
    [find_similar_memories] returns what the keyword search over the table
    returns: a list (empty when the database file is missing or the query
    has no word, where the source catches the exception), every record of
    which is a keyword record showing the text of a row of the table.  The
    relevant memories merged from it and from the emotion search are keyword
    or emotion records of rows of the table, never semantic ones. *)
Lemma unavailable_index_falls_back :
  forall (now : datetime) (db : table) (text : string)
         (emotion current_emotion : option string) (limit days max_memories : Z),
    find_similar_memories now db Unavailable text emotion limit days
      = _fallback_memory_search now db text emotion limit days
    /\ (forall m,
           In m (find_similar_memories now db Unavailable text emotion limit days) ->
           relevance_type m = keyword /\ from_table db m)
    /\ (forall m,
           In m (relevant_memories now db Unavailable text current_emotion max_memories) ->
           (relevance_type m = keyword \/ relevance_type m = emotional)
           /\ from_table db m).
Proof.
  intros now db text emotion cur limit days mx.
  split; [reflexivity|]. split.
  - intros m Hm. simpl in Hm. apply fallback_in in Hm.
    destruct Hm as (rows & r & q & Hdb & Hr & -> & _).
    split; [reflexivity|]. now exists rows, r.
  - intros m Hm. unfold relevant_memories, merge_memories in Hm.
    apply py_slice_to_in, sort_desc_in, unique_by_text_in, in_app_or in Hm.
    destruct Hm as [Hm|Hm].
    + unfold topical_of in Hm. simpl in Hm. apply fallback_in in Hm.
      destruct Hm as (rows & r & q & Hdb & Hr & -> & _).
      split; [now left|]. now exists rows, r.
    + apply emotional_of_in in Hm. destruct Hm as (rows & r & Hdb & Hr & ->).
      split; [now right|]. now exists rows, r.
Qed.

(** The same holds when the collection is loaded and the query raises. *)
Lemma failing_query_falls_back :
  forall (now : datetime) (db : table) (query : string -> Z -> option (list hit))
         (text : string) (emotion : option string) (limit days : Z),
    query text (limit * 2) = None ->
    find_similar_memories now db (Available query) text emotion limit days
      = _fallback_memory_search now db text emotion limit days.
Proof.
  intros now db query text emotion limit days H.
  unfold find_similar_memories. now rewrite H.
Qed.

(** C4 fails on the code: the retrieval falls back to the keyword search,
    but the call that asked for it raises all the same.  The table holds
    the notes ["alpha beta gamma"] and ["long walk"], the second one logged
    with a mood and no emotion; the index is unavailable.  For the text
    ["alpha"] the keyword search returns the first note, the emotion search
    for ["calm"] returns the second, and [inject_context_memories] raises
    [TypeError]: [", ".join] in [_generate_memory_summary] meets the [None]
    that the second record has for its emotion. *)
Theorem unavailable_index_injection_raises :
  find_similar_memories Samples.t5 MoreSamples.table_walk Unavailable "alpha" None 3 30
    = [row_memory (Some (1 # 1)%Q) keyword Samples.row_full]
  /\ relevant_memories Samples.t5 MoreSamples.table_walk Unavailable "alpha"
                       (Some "calm") 3
     = [row_memory (Some (1 # 1)%Q) keyword Samples.row_full;
        row_memory None emotional MoreSamples.row_walk]
  /\ inject_context_memories Samples.t5 MoreSamples.table_walk Unavailable "alpha"
                             (Some "calm") 3 = Raises TypeError.
Proof. split; [reflexivity|]. split; reflexivity. Qed.

(** The same with the emotion record alone. *)
Example summary_of_mood_only_row_raises :
  relevant_memories Samples.t5 (Some [Samples.row_mood_only]) Unavailable "zzz"
                    (Some "calm") 3
    = [row_memory None emotional Samples.row_mood_only]
  /\ inject_context_memories Samples.t5 (Some [Samples.row_mood_only]) Unavailable
                             "zzz" (Some "calm") 3 = Raises TypeError.
Proof. split; reflexivity. Qed.

(** ** Ingestion into the vector collection *)

(** C8 fails on the code: the id [add_memory] builds comes from the clock
    of the call, and the id [sync_sql_to_vector_db] looks for is built from
    the row's stored timestamp in another format, so it is never found.
    Synchronising the one row of the sample store twice, one second apart,
    adds it both times: the collection ends with two entries for
    interaction 1. *)
Lemma sync_twice_stores_two_entries :
  fst (sync_sql_to_vector_db (Samples.t0 + 7 * us_per_second) Samples.table1
                             Samples.empty_collection 7) = 1
  /\ fst (sync_sql_to_vector_db (Samples.t0 + 8 * us_per_second) Samples.table1
                                Samples.synced_once 7) = 1
  /\ sync_doc_id Samples.note1 = "memory_2025-07-19T10:00:00_1"
  /\ map doc_id
         (filter (fun e => md_interaction_id (entry_metadata e) =? 1)
                 (Samples.entries_of Samples.synced_twice))
     = ["memory_20250719_100007_1"; "memory_20250719_100008_1"].
Proof. repeat split; reflexivity. Qed.

End InjectorFacts.

(** * The similarity of the semantic path, in doubles *)
Module SemanticFacts.
Import PyTime Builtins Double Semantic.

(** A double that compares at least 0.7 is above 0 (and is not a NaN). *)
Lemma above_threshold_is_positive (x : float) :
  leb seven_tenths x = true -> ltb zero x = true.
Proof.
  unfold leb, ltb, SFleb, SFltb, seven_tenths, zero.
  destruct x as [s|[]| |[] m e]; simpl; try discriminate; reflexivity.
Qed.

Lemma semantic_in64 now results emotion limit days l m :
  find_similar_memories now results emotion limit days = Some l ->
  In m l ->
  exists n, In n results /\ m = semantic_memory emotion n
            /\ minus_days now days <= n_timestamp n
            /\ leb topical_threshold (hit_similarity emotion n) = true.
Proof.
  unfold find_similar_memories. destruct (Limits.cutoff_ok now days); [|discriminate].
  intros [= <-] Hm.
  apply InjectorFacts.py_slice_to_in, InjectorFacts.sort_desc_in, in_flat_map in Hm.
  destruct Hm as (n & Hn & Hm). exists n. split; [exact Hn|].
  destruct (n_timestamp n <? minus_days now days) eqn:Et; [contradiction|].
  destruct (leb topical_threshold (hit_similarity emotion n)) eqn:E; [|contradiction].
  destruct Hm as [<-|[]]. split; [reflexivity|].
  split; [now apply Z.ltb_ge in Et|reflexivity].
Qed.

(** C2, as the code behaves: the semantic path computes [1.0 - distance]
    in double precision, times 0.7 when an emotion is given and differs
    from the stored one, and does not clamp the result.  The value is
    compared with the threshold as it was computed, and every record the
    path returns carries that very value, which compares at least 0.7 and
    so is above 0.  Nothing bounds it from above. *)
Theorem returned_similarity_is_not_clamped :
  forall (now : datetime) (results : list neighbour) (emotion : option string)
         (limit days : Z) (l : list scored) (m : scored),
    find_similar_memories now results emotion limit days = Some l ->
    In m l ->
    exists n,
      In n results
      /\ m = semantic_memory emotion n
      /\ s_similarity m
         = (if truthy emotion && negb (opt_eqb (n_emotion n) emotion)
            then mul (sub one (n_distance n)) seven_tenths
            else sub one (n_distance n))
      /\ leb seven_tenths (s_similarity m) = true
      /\ ltb zero (s_similarity m) = true.
Proof.
  intros now results emotion limit days l m Hl Hm.
  destruct (semantic_in64 _ _ _ _ _ _ _ Hl Hm) as (n & Hn & -> & _ & Hth).
  exists n. split; [exact Hn|]. split; [reflexivity|]. split; [reflexivity|].
  split; [exact Hth|]. now apply above_threshold_is_positive.
Qed.

Lemma returned_similarity_is_not_clamped_witness :
  exists n,
    In n [MoreSamples.neighbour_at MoreSamples.tenth]
    /\ semantic_memory None (MoreSamples.neighbour_at MoreSamples.tenth)
       = semantic_memory None n
    /\ s_similarity (semantic_memory None (MoreSamples.neighbour_at MoreSamples.tenth))
       = (if truthy None && negb (opt_eqb (n_emotion n) None)
          then mul (sub one (n_distance n)) seven_tenths
          else sub one (n_distance n))
    /\ leb seven_tenths
           (s_similarity (semantic_memory None (MoreSamples.neighbour_at MoreSamples.tenth)))
       = true
    /\ ltb zero
           (s_similarity (semantic_memory None (MoreSamples.neighbour_at MoreSamples.tenth)))
       = true.
Proof.
  apply (returned_similarity_is_not_clamped Samples.t5
           [MoreSamples.neighbour_at MoreSamples.tenth] None 3 30
           [semantic_memory None (MoreSamples.neighbour_at MoreSamples.tenth)]
           (semantic_memory None (MoreSamples.neighbour_at MoreSamples.tenth))).
  - vm_compute. reflexivity.
  - left. reflexivity.
Defined.

(** C2 as stated fails: a neighbour at raw distance -0.5 is returned with
    similarity 1.5, which is not at most 1; and a neighbour at raw distance
    1.5 is compared with the threshold at similarity -0.5, which is not at
    least 0. *)
Lemma negative_distance_is_returned_above_one :
  find_similar_memories Samples.t5 [MoreSamples.neighbour_at MoreSamples.minus_half]
                        None 3 30
    = Some [semantic_memory None (MoreSamples.neighbour_at MoreSamples.minus_half)]
  /\ s_similarity (semantic_memory None (MoreSamples.neighbour_at MoreSamples.minus_half))
     = MoreSamples.three_halves
  /\ leb MoreSamples.three_halves one = false
  /\ hit_similarity None (MoreSamples.neighbour_at MoreSamples.three_halves)
     = MoreSamples.minus_half
  /\ leb zero MoreSamples.minus_half = false.
Proof. repeat split; vm_compute; reflexivity. Qed.

(** The comparison is the one of doubles.  At distance 0.30000000000000004
    the difference rounds to the double 0.7 itself and the neighbour is
    returned, although the exact difference is below 7/10.  At distance
    2^-60 the difference rounds to 1.0, so a neighbour whose emotion differs
    from the one asked for is returned with similarity 0.7. *)
Example threshold_is_compared_in_doubles :
  find_similar_memories Samples.t5
                        [MoreSamples.neighbour_at MoreSamples.above_three_tenths]
                        None 3 30
    = Some [semantic_memory None
              (MoreSamples.neighbour_at MoreSamples.above_three_tenths)]
  /\ hit_similarity None (MoreSamples.neighbour_at MoreSamples.above_three_tenths)
     = seven_tenths
  /\ find_similar_memories Samples.t5
                           [MoreSamples.neighbour_at MoreSamples.two_pow_minus_60]
                           (Some "tired") 3 30
     = Some [semantic_memory (Some "tired")
               (MoreSamples.neighbour_at MoreSamples.two_pow_minus_60)]
  /\ hit_similarity (Some "tired")
                    (MoreSamples.neighbour_at MoreSamples.two_pow_minus_60)
     = seven_tenths.
Proof. repeat split; vm_compute; reflexivity. Qed.

End SemanticFacts.

(** * Properties of the context prompt *)
Module RagFacts.
Import Builtins Rag.

Lemma prefix_of_prefix_app (n : nat) (s rest : string) :
  (n <= String.length s)%nat ->
  py_prefix n (py_prefix n s ++ rest) = py_prefix n s.
Proof.
  unfold py_prefix. revert s. induction n as [|n IH]; intros s H.
  - destruct s; destruct rest; reflexivity.
  - destruct s as [|c s]; simpl in *; [lia|].
    f_equal. apply IH. lia.
Qed.

(** Where the two helper calls return, the budget is applied to the whole
    prompt by character position, not entry by entry: for a budget [N] that
    is not negative, the prompt returned agrees with the assembled prompt on
    the first [N] characters, wherever that cut falls, and is the assembled
    prompt itself when that has at most [N] characters. *)
Lemma prompt_is_cut_by_position :
  forall (N : Z) (memories : list rag_memory) (p : patterns) (query : string)
         (user_preferences : list (string * string)),
    0 <= N ->
    py_str_slice_to N (generate_context_prompt N memories (Some p) query user_preferences)
      = py_str_slice_to N (enhanced_prompt query user_preferences p memories)
    /\ (Z.of_nat (String.length (enhanced_prompt query user_preferences p memories)) <= N ->
        generate_context_prompt N memories (Some p) query user_preferences
          = enhanced_prompt query user_preferences p memories).
Proof.
  intros N memories p query prefs HN. unfold generate_context_prompt, fit.
  set (full := enhanced_prompt query prefs p memories).
  destruct (N <? Z.of_nat (String.length full)) eqn:E.
  - apply Z.ltb_lt in E. split; [|lia].
    unfold py_str_slice_to. replace (0 <=? N) with true by (symmetry; now apply Z.leb_le).
    unfold fstr. simpl String.concat.
    apply prefix_of_prefix_app. lia.
  - split; reflexivity.
Qed.

(** C5 fails on the code: the prompt returned is longer than the budget.
    The class [MemoryInjector] has neither [get_humor_patterns] nor
    [get_recent_emotions], so the [except] clause returns the query whole:
    with a budget of 20 characters the 25 characters of the query come
    back.  And where the helper calls do return, the cut appends ["..."] to
    the first [N] characters: with a budget of 60 and one memory the prompt
    has 63 characters and ends inside the memory's entry, after
    ["[2025-07-19T10"]. *)
Theorem prompt_exceeds_budget :
  generate_context_prompt 20 Samples.one_memory None "help me write better code" []
    = "help me write better code"
  /\ String.length
       (generate_context_prompt 20 Samples.one_memory None
                                "help me write better code" []) = 25%nat
  /\ generate_context_prompt 60 Samples.one_memory (Some Samples.no_patterns) "help" []
     = fstr ["CONTEXT FOR RESPONSE:"; nl; "RELEVANT PAST MEMORIES:"; nl;
             "[2025-07-19T10"; "..."]
  /\ String.length (generate_context_prompt 60 Samples.one_memory
                       (Some Samples.no_patterns) "help" []) = 63%nat.
Proof. split; [reflexivity|]. split; [reflexivity|]. split; reflexivity. Qed.

End RagFacts.

(** * The deletion log and retrieval *)
Module DeletionLogFacts.
Import PyTime Builtins Store Injector StoreFacts InjectorFacts.




(** Outside the ranges the emotion search returns nothing: a limit of 2^63
    makes [execute] raise, and the [except] clause returns [[]]. *)
Example emotion_search_with_a_limit_out_of_range :
  Checked.find_emotional_memories Samples.t5
    (Some (interactions MoreSamples.db1_deleted)) "protective" (2 ^ 63) 14 = []
  /\ Checked.find_emotional_memories Samples.t5
       (Some (interactions MoreSamples.db1_deleted)) "protective" 1 14
     = [row_memory None emotional
          (deletion_log_row Samples.e0 Samples.db1 1 "AI request" Samples.note1)].
Proof. split; reflexivity. Qed.

End DeletionLogFacts.

(** * More on the record store and the delete protection *)
Module ProtectionFacts.
Import PyTime Builtins Store Protection StoreFacts.

Lemma find_app_found {A : Type} (f : A -> bool) (l l' : list A) (r : A) :
  find f l = Some r -> find f (l ++ l') = Some r.
Proof.
  induction l as [|a l IH]; simpl; [discriminate|].
  destruct (f a); [tauto|exact IH].
Qed.

Lemma string_length_append (a b : string) :
  String.length (a ++ b) = (String.length a + String.length b)%nat.
Proof. induction a as [|c a IH]; simpl; [reflexivity|]. now rewrite IH. Qed.

Lemma py_prefix_length (n : nat) (t : string) :
  String.length (py_prefix n t) = Nat.min n (String.length t).
Proof.
  unfold py_prefix. revert t. induction n as [|n IH]; intros [|c t]; simpl;
    try reflexivity.
  now rewrite IH.
Qed.

Lemma fstr_pair (a b : string) : fstr [a; b] = (a ++ b)%string.
Proof. reflexivity. Qed.

Lemma preview_100_length (t : string) :
  (String.length (preview_100 t) <= 103)%nat.
Proof.
  unfold preview_100. destruct (100 <? String.length t)%nat eqn:E.
  - rewrite fstr_pair, string_length_append, py_prefix_length.
    change (String.length "...") with 3%nat.
    pose proof (Nat.le_min_l 100 (String.length t)). lia.
  - apply Nat.ltb_ge in E. lia.
Qed.

Section WithSerializer.

Context {D : Type}.
Variable py_str : interaction -> D.
Variable py_eval : D -> option interaction.

Lemma fetch_after_insert (e : env) (s : db D) t src tg em md inten bw ts
    (i : Z) (r : interaction) :
  fetch_interaction s i = Some r ->
  fetch_interaction (snd (insert_interaction e s t src tg em md inten bw ts)) i
    = Some r.
Proof. unfold fetch_interaction. simpl. apply find_app_found. Qed.

Lemma lockdown_shape (e : env) (g : guard) (s : db D) b g' s' :
  emergency_lockdown e g s = Some (b, g', s') ->
  copy_ok e = true /\ b = true /\ g' = mk_guard false
  /\ s' = snd (insert_interaction e s lockdown_text (Some "ai_safety_lockdown")
                 (Some "emergency,lockdown,ai_safety,protection")
                 (Some "protective") None 10 false (isoformat (now e))).
Proof.
  unfold emergency_lockdown. destruct (copy_ok e); simpl; [|discriminate].
  intros H. injection H as <- <- <-. repeat split.
Qed.

Lemma restore_true_shape (e : env) (s : db D) (i : Z) :
  fst (restore_deleted_interaction py_eval e s i) = Returns true ->
  exists rows sq,
    snd (restore_deleted_interaction py_eval e s i)
    = mk_db rows sq (filter (fun d => negb (del_id d =? i)) (deleted_interactions s)).
Proof.
  unfold restore_deleted_interaction.
  destruct (fetch_deleted s i) as [d|]; simpl; [|discriminate].
  destruct (py_eval (original_data d)) as [o|]; simpl; [|discriminate].
  intros _. eexists _, _. reflexivity.
Qed.

End WithSerializer.

(** X1: the operations on the store keep its invariant: after an insert, a
    soft delete, a restore or an emergency lockdown every key, live or
    deleted, is still one the counter has handed out, and no key is both
    live and deleted. *)
Theorem store_operations_keep_invariant :
  forall (D : Type) (py_str : interaction -> D) (py_eval : D -> option interaction)
         (e : env) (s : db D) (t src tg em md : option string) (inten : Z)
         (bw : bool) (i : Z) (reason : string) (g : guard),
    db_inv s ->
    db_inv (snd (add_interaction e s t src tg em md inten bw))
    /\ db_inv (snd (safe_delete_interaction py_str e s i reason))
    /\ db_inv (snd (restore_deleted_interaction py_eval e s i))
    /\ (forall b g' s', emergency_lockdown e g s = Some (b, g', s') -> db_inv s').
Proof.
  intros D py_str py_eval e s t src tg em md inten bw i reason g H.
  split; [now apply add_interaction_inv|].
  split; [now apply safe_delete_inv|].
  split; [now apply restore_inv|].
  intros b g' s' Hl. apply lockdown_shape in Hl. destruct Hl as (_ & _ & _ & ->).
  now apply insert_interaction_inv.
Qed.

Lemma store_operations_keep_invariant_witness :
  db_inv (snd (add_interaction Samples.e1 Samples.db1 (Some "second note") None None
                               None None 1 false))
  /\ db_inv (snd (safe_delete_interaction Samples.keep Samples.e1 Samples.db1 1
                                          "AI request"))
  /\ db_inv (snd (restore_deleted_interaction Samples.read_back Samples.e1
                                              Samples.db1 1))
  /\ (forall b g' s',
         emergency_lockdown Samples.e1 MoreSamples.guard_on Samples.db1
           = Some (b, g', s') -> db_inv s').
Proof.
  apply (store_operations_keep_invariant _ Samples.keep Samples.read_back Samples.e1
           Samples.db1 (Some "second note") None None None None 1 false 1
           "AI request" MoreSamples.guard_on).
  apply (add_interaction_inv Samples.e0 Samples.fresh). apply empty_db_inv.
Defined.



(** X3: a restore that returned [True] cannot be repeated: a second
    restore of the same key returns [False] and leaves the store as the
    first one left it. *)
Theorem restore_twice_returns_false :
  forall (D : Type) (py_eval : D -> option interaction) (e1 e2 : env) (s : db D)
         (i : Z),
    fst (restore_deleted_interaction py_eval e1 s i) = Returns true ->
    restore_deleted_interaction py_eval e2
      (snd (restore_deleted_interaction py_eval e1 s i)) i
    = (Returns false, snd (restore_deleted_interaction py_eval e1 s i)).
Proof.
  intros D py_eval e1 e2 s i H.
  destruct (restore_true_shape py_eval e1 s i H) as (rows & sq & ->).
  unfold restore_deleted_interaction at 1.
  replace (fetch_deleted _ i) with (@None (deleted_interaction D)); [reflexivity|].
  symmetry. unfold fetch_deleted. simpl. apply find_none_intro.
  intros d Hd. apply filter_In in Hd. destruct Hd as [_ Hd].
  now apply negb_true_iff in Hd.
Qed.

Lemma restore_twice_returns_false_witness :
  restore_deleted_interaction Samples.read_back Samples.e1
    (snd (restore_deleted_interaction Samples.read_back Samples.e1
            MoreSamples.db1_deleted 1)) 1
  = (Returns false,
     snd (restore_deleted_interaction Samples.read_back Samples.e1
            MoreSamples.db1_deleted 1)).
Proof.
  apply (restore_twice_returns_false _ Samples.read_back Samples.e1 Samples.e1
           MoreSamples.db1_deleted 1).
  reflexivity.
Defined.

(** X4: a soft delete or a restore that returns [False] (backup copy
    failed, key not found, stored row not readable) leaves both tables
    exactly as they were. *)
Theorem failed_calls_change_nothing :
  forall (D : Type) (py_str : interaction -> D) (py_eval : D -> option interaction)
         (e e' : env) (s s' : db D) (i i' : Z) (reason : string),
    fst (safe_delete_interaction py_str e s i reason) = Returns false ->
    fst (restore_deleted_interaction py_eval e' s' i') = Returns false ->
    snd (safe_delete_interaction py_str e s i reason) = s
    /\ snd (restore_deleted_interaction py_eval e' s' i') = s'.
Proof.
  intros D py_str py_eval e e' s s' i i' reason Hd Hr. split.
  - destruct (copy_ok e) eqn:Hc.
    + destruct (fetch_interaction s i) as [r|] eqn:Hf.
      * rewrite (safe_delete_found py_str e s i reason r Hc Hf) in Hd. discriminate.
      * unfold safe_delete_interaction. now rewrite Hc, Hf.
    + unfold safe_delete_interaction. now rewrite Hc.
  - revert Hr. unfold restore_deleted_interaction.
    destruct (fetch_deleted s' i') as [d|]; [|reflexivity].
    destruct (py_eval (original_data d)) as [o|]; [|reflexivity].
    simpl. discriminate.
Qed.

Lemma failed_calls_change_nothing_witness :
  snd (safe_delete_interaction Samples.keep MoreSamples.e_nocopy Samples.db1 1
                               "AI request") = Samples.db1
  /\ snd (restore_deleted_interaction Samples.read_back Samples.e1 Samples.db1 1)
     = Samples.db1.
Proof.
  apply (failed_calls_change_nothing _ Samples.keep Samples.read_back
           MoreSamples.e_nocopy Samples.e1 Samples.db1 Samples.db1 1 1 "AI request");
    reflexivity.
Defined.

(** X5: the emergency lockdown does not stop deletions.  It returns
    [True], clears the flag and logs one row; a soft delete of any row that
    was live before the lockdown still returns [True] afterwards and removes
    the row. *)
Theorem lockdown_does_not_stop_deletes :
  forall (D : Type) (py_str : interaction -> D) (e e2 : env) (g g' : guard)
         (s s' : db D) (b : bool) (i : Z) (reason : string) (r : interaction),
    emergency_lockdown e g s = Some (b, g', s') ->
    fetch_interaction s i = Some r ->
    copy_ok e2 = true ->
    b = true
    /\ protection_enabled g' = false
    /\ fst (safe_delete_interaction py_str e2 s' i reason) = Returns true
    /\ fetch_interaction (snd (safe_delete_interaction py_str e2 s' i reason)) i
       = None.
Proof.
  intros D py_str e e2 g g' s s' b i reason r Hl Hf Hc.
  apply lockdown_shape in Hl. destruct Hl as (_ & -> & -> & ->).
  split; [reflexivity|]. split; [reflexivity|].
  pose proof (fetch_after_insert e s lockdown_text (Some "ai_safety_lockdown")
                (Some "emergency,lockdown,ai_safety,protection")
                (Some "protective") None 10 false (isoformat (now e)) i r Hf) as Hf'.
  split.
  - rewrite (safe_delete_found py_str e2 _ i reason r Hc Hf'). reflexivity.
  - exact (fetch_after_delete py_str e2 _ i reason r Hc Hf').
Qed.

Lemma lockdown_does_not_stop_deletes_witness :
  true = true
  /\ protection_enabled (mk_guard false) = false
  /\ fst (safe_delete_interaction Samples.keep Samples.e1
            (snd (insert_interaction Samples.e0 Samples.db1 lockdown_text
                    (Some "ai_safety_lockdown")
                    (Some "emergency,lockdown,ai_safety,protection")
                    (Some "protective") None 10 false
                    (isoformat (now Samples.e0))))
            1 "AI request") = Returns true
  /\ fetch_interaction
       (snd (safe_delete_interaction Samples.keep Samples.e1
               (snd (insert_interaction Samples.e0 Samples.db1 lockdown_text
                       (Some "ai_safety_lockdown")
                       (Some "emergency,lockdown,ai_safety,protection")
                       (Some "protective") None 10 false
                       (isoformat (now Samples.e0))))
               1 "AI request")) 1 = None.
Proof.
  apply (lockdown_does_not_stop_deletes _ Samples.keep Samples.e0 Samples.e1
           MoreSamples.guard_on (mk_guard false) Samples.db1 _ true 1 "AI request"
           Samples.note1); reflexivity.
Defined.

(** X6: a soft delete that returned [True] shows in the deletion history:
    there is an item with the key, the reason, the time and the backup path
    of the call, and with the preview of the deleted text.  No preview in
    the history is longer than 103 characters. *)
Theorem deletion_history_records_delete :
  forall (D : Type) (py_str : interaction -> D) (e : env) (s : db D) (i : Z)
         (reason : string),
    fst (safe_delete_interaction py_str e s i reason) = Returns true ->
    (exists r,
        fetch_interaction s i = Some r
        /\ In (mk_history_item i (preview_100 (text r)) reason (isoformat (now e))
                               (backup_path e))
              (get_deletion_history (snd (safe_delete_interaction py_str e s i reason))))
    /\ (forall item,
           In item (get_deletion_history
                      (snd (safe_delete_interaction py_str e s i reason))) ->
           (String.length (text_preview item) <= 103)%nat).
Proof.
  intros D py_str e s i reason H.
  apply safe_delete_true_inv in H. destruct H as [Hc [r Hf]].
  rewrite (safe_delete_found py_str e s i reason r Hc Hf). simpl snd. split.
  - exists r. split; [exact Hf|]. unfold get_deletion_history.
    apply (in_map (fun row => mk_history_item (del_id row)
                                (preview_100 (original_text row))
                                (deletion_reason row) (deletion_timestamp row)
                                (backup_location row))
                  _ (tombstone py_str e i reason r)).
    apply InjectorFacts.sort_desc_in. simpl. apply in_or_app. right. now left.
  - intros item Hin. unfold get_deletion_history in Hin.
    apply in_map_iff in Hin. destruct Hin as (row & <- & _). simpl.
    apply preview_100_length.
Qed.

Lemma deletion_history_records_delete_witness :
  (exists r,
      fetch_interaction Samples.db1 1 = Some r
      /\ In (mk_history_item 1 (preview_100 (text r)) "AI request"
                             (isoformat (now Samples.e0)) (backup_path Samples.e0))
            (get_deletion_history
               (snd (safe_delete_interaction Samples.keep Samples.e0 Samples.db1 1
                                             "AI request"))))
  /\ (forall item,
         In item (get_deletion_history
                    (snd (safe_delete_interaction Samples.keep Samples.e0 Samples.db1 1
                                                  "AI request"))) ->
         (String.length (text_preview item) <= 103)%nat).
Proof.
  apply (deletion_history_records_delete _ Samples.keep Samples.e0 Samples.db1 1
           "AI request").
  reflexivity.
Defined.

(** X7: after a restore that returned [True] the deletion history holds no
    item for the restored key. *)
Theorem restored_id_leaves_history :
  forall (D : Type) (py_eval : D -> option interaction) (e : env) (s : db D)
         (i : Z) (item : history_item),
    fst (restore_deleted_interaction py_eval e s i) = Returns true ->
    In item (get_deletion_history (snd (restore_deleted_interaction py_eval e s i))) ->
    hist_id item <> i.
Proof.
  intros D py_eval e s i item H Hin.
  destruct (restore_true_shape py_eval e s i H) as (rows & sq & Hs).
  rewrite Hs in Hin. unfold get_deletion_history in Hin. simpl in Hin.
  apply in_map_iff in Hin. destruct Hin as (row & <- & Hrow). simpl.
  apply InjectorFacts.sort_desc_in, filter_In in Hrow. destruct Hrow as [_ Hrow].
  now apply negb_true_iff, Z.eqb_neq in Hrow.
Qed.

Lemma restored_id_leaves_history_witness :
  hist_id (mk_history_item 2 "Stressful deadline today" "cleanup"
                           "2025-07-19T10:00:01"
                           "backups/pre_delete/pre_delete_20250719_100001.db")
  <> 1.
Proof.
  apply (restored_id_leaves_history _ Samples.read_back Samples.e1
           MoreSamples.db2_deleted 1).
  - reflexivity.
  - vm_compute. left. reflexivity.
Defined.

End ProtectionFacts.

(** * The pattern counters, the voice log and the emotion query *)
Module CatalogFacts.
Import PyTime Builtins Catalog.

Lemma find_map_same {A : Type} (p : A -> bool) (g : A -> A) (l : list A) :
  (forall x, p (g x) = p x) ->
  find p (map g l) = option_map g (find p l).
Proof.
  intros H. induction l as [|a l IH]; simpl; [reflexivity|].
  rewrite H. destruct (p a); [reflexivity|exact IH].
Qed.

Lemma NoDup_snoc {A : Type} (l : list A) (x : A) :
  NoDup l -> ~ In x l -> NoDup (l ++ [x]).
Proof.
  intros Hl Hx. apply NoDup_app; [exact Hl|repeat constructor; intros []|].
  intros a Ha [<-|[]]. contradiction.
Qed.

Lemma NoDup_map_injective {A B : Type} (f : A -> B) (l : list A) (a b : A) :
  NoDup (map f l) -> In a l -> In b l -> f a = f b -> a = b.
Proof.
  induction l as [|x l IH]; simpl; [tauto|].
  intros Hnd Ha Hb Hf. inversion Hnd as [|? ? Hx Hl]; subst.
  destruct Ha as [<-|Ha]; destruct Hb as [<-|Hb]; try reflexivity.
  - exfalso. apply Hx. rewrite Hf. now apply in_map.
  - exfalso. apply Hx. rewrite <- Hf. now apply in_map.
  - now apply IH.
Qed.

Lemma max_pattern_id_ge (rows : list memory_pattern) (r : memory_pattern) :
  In r rows -> pattern_id r <= max_pattern_id rows.
Proof.
  induction rows as [|a rows IH]; simpl; [tauto|].
  intros [->|H]; [lia|]. specialize (IH H). lia.
Qed.

Lemma set_frequency_id i f seen r : pattern_id (set_frequency i f seen r) = pattern_id r.
Proof. unfold set_frequency. now destruct (pattern_id r =? i). Qed.

Lemma set_frequency_key i f seen a b r :
  has_key a b (set_frequency i f seen r) = has_key a b r.
Proof. unfold set_frequency. now destruct (pattern_id r =? i). Qed.

Lemma set_frequency_pair i f seen r :
  (pattern_text (set_frequency i f seen r), pattern_type (set_frequency i f seen r))
  = (pattern_text r, pattern_type r).
Proof. unfold set_frequency. now destruct (pattern_id r =? i). Qed.

Lemma has_key_true a b r :
  has_key a b r = true <-> (pattern_text r, pattern_type r) = (a, b).
Proof.
  unfold has_key. rewrite andb_true_iff, !String.eqb_eq. split.
  - intros [-> ->]. reflexivity.
  - intros H. injection H as -> ->. split; reflexivity.
Qed.

Lemma update_keeps_inv (now : datetime) (t : pattern_table) (a b : string) :
  patterns_inv t -> patterns_inv (update_pattern_frequency now t a b).
Proof.
  intros (Hid & Hnd & Hk). unfold update_pattern_frequency.
  destruct (find (has_key a b) (patterns t)) as [res|] eqn:Hf.
  - unfold patterns_inv, pattern_keys. simpl. repeat split.
    + intros r Hr. apply in_map_iff in Hr. destruct Hr as (x & <- & Hx).
      rewrite set_frequency_id. now apply Hid.
    + rewrite map_map. erewrite map_ext; [exact Hnd|].
      intros x. apply set_frequency_id.
    + rewrite map_map. erewrite map_ext; [exact Hk|].
      intros x. apply set_frequency_pair.
  - pose proof (find_none _ _ Hf) as Hnone.
    unfold patterns_inv, pattern_keys. simpl. repeat split.
    + intros r Hr. apply in_app_or in Hr. destruct Hr as [Hr|[<-|[]]]; simpl.
      * specialize (Hid r Hr). unfold next_pattern_id. lia.
      * lia.
    + rewrite map_app. simpl. apply NoDup_snoc; [exact Hnd|].
      intros Hin. apply in_map_iff in Hin. destruct Hin as (x & Hx & Hin).
      apply max_pattern_id_ge in Hin. unfold next_pattern_id in Hx. lia.
    + rewrite map_app. simpl. apply NoDup_snoc; [exact Hk|].
      intros Hin. apply in_map_iff in Hin. destruct Hin as (x & Hx & Hin).
      apply has_key_true in Hx. rewrite (Hnone x Hin) in Hx. discriminate.
Qed.

Lemma update_counts_key (now : datetime) (t : pattern_table) (a b : string) :
  frequency_of (update_pattern_frequency now t a b) a b = frequency_of t a b + 1.
Proof.
  unfold frequency_of, update_pattern_frequency.
  destruct (find (has_key a b) (patterns t)) as [res|] eqn:Hf; simpl.
  - rewrite find_map_same by (intros x; apply set_frequency_key).
    rewrite Hf. simpl. unfold set_frequency. now rewrite Z.eqb_refl.
  - rewrite StoreFacts.find_app_skip by (intros x Hx; exact (find_none _ _ Hf x Hx)).
    simpl. unfold has_key. simpl. now rewrite !String.eqb_refl.
Qed.

Lemma update_leaves_other_keys (now : datetime) (t : pattern_table)
    (a b a' b' : string) :
  patterns_inv t -> (a', b') <> (a, b) ->
  frequency_of (update_pattern_frequency now t a b) a' b' = frequency_of t a' b'.
Proof.
  intros (Hid & Hnd & Hk) Hne. unfold frequency_of, update_pattern_frequency.
  destruct (find (has_key a b) (patterns t)) as [res|] eqn:Hf; simpl.
  - rewrite find_map_same by (intros x; apply set_frequency_key).
    destruct (find (has_key a' b') (patterns t)) as [r'|] eqn:Hf'; simpl; [|reflexivity].
    apply find_some in Hf. apply find_some in Hf'.
    destruct Hf as [Hin Hkey]. destruct Hf' as [Hin' Hkey'].
    unfold set_frequency. destruct (pattern_id r' =? pattern_id res) eqn:E; [|reflexivity].
    exfalso. apply Z.eqb_eq in E.
    assert (r' = res)
      by (apply (NoDup_map_injective pattern_id (patterns t)); assumption).
    subst r'.
    apply has_key_true in Hkey. apply has_key_true in Hkey'. congruence.
  - destruct (find (has_key a' b') (patterns t)) as [r'|] eqn:Hf'.
    + now rewrite (ProtectionFacts.find_app_found _ _ _ _ Hf').
    + rewrite StoreFacts.find_app_skip by (intros x Hx; exact (find_none _ _ Hf' x Hx)).
      simpl. replace (has_key a' b' _) with false; [reflexivity|].
      symmetry. apply not_true_iff_false. intros H. apply has_key_true in H.
      simpl in H. congruence.
Qed.

Lemma update_many_inv now n t a b :
  patterns_inv t -> patterns_inv (update_many now n t a b).
Proof.
  intros H. induction n as [|n IH]; simpl; [exact H|]. now apply update_keeps_inv.
Qed.

Lemma update_many_counts now n t a b :
  frequency_of (update_many now n t a b) a b = frequency_of t a b + Z.of_nat n.
Proof.
  induction n as [|n IH]; simpl update_many; [lia|].
  rewrite update_counts_key, IH. lia.
Qed.

Lemma unique_key_rows (rows : list memory_pattern) (a b : string) :
  NoDup (map (fun r => (pattern_text r, pattern_type r)) rows) ->
  (List.length (filter (has_key a b) rows) <= 1)%nat.
Proof.
  induction rows as [|r rows IH]; simpl; [lia|].
  intros Hnd. inversion Hnd as [|? ? Hr Hrest]; subst.
  destruct (has_key a b r) eqn:Hk; [|now apply IH].
  simpl. rewrite InjectorFacts.filter_none; [simpl; lia|].
  intros x Hx. apply not_true_iff_false. intros Hkx. apply Hr.
  apply has_key_true in Hk. apply has_key_true in Hkx.
  rewrite Hk, <- Hkx. now apply (in_map (fun r => (pattern_text r, pattern_type r))).
Qed.

Lemma update_has_key now t a b :
  exists r, find (has_key a b) (patterns (update_pattern_frequency now t a b)) = Some r.
Proof.
  unfold update_pattern_frequency.
  destruct (find (has_key a b) (patterns t)) as [res|] eqn:Hf; simpl.
  - rewrite find_map_same by (intros x; apply set_frequency_key).
    rewrite Hf. simpl. eauto.
  - rewrite StoreFacts.find_app_skip by (intros x Hx; exact (find_none _ _ Hf x Hx)).
    simpl. unfold has_key. simpl. rewrite !String.eqb_refl. simpl. eauto.
Qed.

Lemma one_row_for_key now t a b :
  patterns_inv t ->
  List.length (filter (has_key a b) (patterns (update_pattern_frequency now t a b)))
  = 1%nat.
Proof.
  intros H. apply (update_keeps_inv now t a b) in H. destruct H as (_ & _ & Hk).
  pose proof (unique_key_rows _ a b Hk) as Hle.
  destruct (update_has_key now t a b) as [r Hr]. apply find_some in Hr.
  assert (In r (filter (has_key a b)
                       (patterns (update_pattern_frequency now t a b)))) as Hin
    by (now apply filter_In).
  destruct (filter (has_key a b) (patterns (update_pattern_frequency now t a b)));
    [contradiction|]. simpl in *. lia.
Qed.

(** X8: [update_pattern_frequency] is an upsert by key.  On a table whose
    keys (pattern text, pattern type) and row ids are distinct, they are
    still distinct after the call, and the table then holds exactly one row
    for the key of the call. *)
Theorem pattern_update_keeps_keys_unique :
  forall (now : datetime) (t : pattern_table) (ptext ptype : string),
    patterns_inv t ->
    patterns_inv (update_pattern_frequency now t ptext ptype)
    /\ List.length (filter (has_key ptext ptype)
                           (patterns (update_pattern_frequency now t ptext ptype)))
       = 1%nat.
Proof.
  intros now t a b H. split; [now apply update_keeps_inv|now apply one_row_for_key].
Qed.

Lemma pattern_update_keeps_keys_unique_witness :
  patterns_inv (update_pattern_frequency Samples.t5 MoreSamples.patterns1
                                         "sleep tight" "humor")
  /\ List.length
       (filter (has_key "sleep tight" "humor")
               (patterns (update_pattern_frequency Samples.t5 MoreSamples.patterns1
                                                   "sleep tight" "humor")))
     = 1%nat.
Proof.
  apply (pattern_update_keeps_keys_unique Samples.t5 MoreSamples.patterns1
           "sleep tight" "humor").
  apply (update_keeps_inv Samples.t0 empty_patterns).
  repeat split; simpl; try constructor; intros; contradiction.
Defined.

(** X9: one call of [update_pattern_frequency] raises the frequency
    recorded for its key by exactly one (from 0 to 1 when the key is new)
    and leaves the frequency of every other key as it was. *)
Theorem pattern_update_counts_one_key :
  forall (now : datetime) (t : pattern_table) (ptext ptype other_text other_type : string),
    patterns_inv t ->
    (other_text, other_type) <> (ptext, ptype) ->
    frequency_of (update_pattern_frequency now t ptext ptype) ptext ptype
      = frequency_of t ptext ptype + 1
    /\ frequency_of (update_pattern_frequency now t ptext ptype) other_text other_type
       = frequency_of t other_text other_type.
Proof.
  intros now t a b a' b' H Hne. split.
  - apply update_counts_key.
  - now apply update_leaves_other_keys.
Qed.

Lemma pattern_update_counts_one_key_witness :
  frequency_of (update_pattern_frequency Samples.t5 MoreSamples.patterns1
                                         "wait what" "humor") "wait what" "humor"
    = frequency_of MoreSamples.patterns1 "wait what" "humor" + 1
  /\ frequency_of (update_pattern_frequency Samples.t5 MoreSamples.patterns1
                                            "wait what" "humor") "sleep tight" "humor"
     = frequency_of MoreSamples.patterns1 "sleep tight" "humor".
Proof.
  apply (pattern_update_counts_one_key Samples.t5 MoreSamples.patterns1
           "wait what" "humor" "sleep tight" "humor").
  - apply (update_keeps_inv Samples.t0 empty_patterns).
    repeat split; simpl; try constructor; intros; contradiction.
  - discriminate.
Defined.

(** X10: calling [update_pattern_frequency] [n + 1] times for one key on
    an empty table leaves a single row, whose frequency is [n + 1]. *)
Theorem repeated_pattern_updates_count :
  forall (now : datetime) (n : nat) (ptext ptype : string),
    frequency_of (update_many now (S n) empty_patterns ptext ptype) ptext ptype
      = Z.of_nat (S n)
    /\ List.length (patterns (update_many now (S n) empty_patterns ptext ptype)) = 1%nat.
Proof.
  intros now n a b. split.
  - rewrite update_many_counts. reflexivity.
  - induction n as [|n IH].
    + reflexivity.
    + change (update_many now (S (S n)) empty_patterns a b)
        with (update_pattern_frequency now (update_many now (S n) empty_patterns a b) a b).
      destruct (update_has_key now (update_many now n empty_patterns a b) a b) as [r Hr].
      change (update_pattern_frequency now (update_many now n empty_patterns a b) a b)
        with (update_many now (S n) empty_patterns a b) in Hr.
      unfold update_pattern_frequency. rewrite Hr. simpl.
      rewrite length_map. exact IH.
Qed.

(** ** The voice log *)

Lemma existsb_has_path_iff (p : string) (rows : list voice_row) :
  existsb (has_path p) rows = true <-> In p (map file_path rows).
Proof.
  rewrite existsb_exists, in_map_iff. split.
  - intros (x & Hx & Hp). exists x. split; [|exact Hx].
    unfold has_path in Hp. now apply String.eqb_eq in Hp.
  - intros (x & Hp & Hx). exists x. split; [exact Hx|].
    unfold has_path. now apply String.eqb_eq.
Qed.

(** X11: the voice log never holds a file path twice.  When the paths of
    the table are distinct they are still distinct after [add_voice_log],
    and once a path has been logged, logging it again raises
    [IntegrityError] and leaves the table as it was. *)
Theorem voice_log_rejects_duplicate_path :
  forall (now now' : datetime) (t : voice_table) (p : string)
         (transcr tn emo lang transcr' tn' emo' lang' : option string) (i : Z),
    NoDup (map file_path (voice_rows t)) ->
    fst (add_voice_log now t (Some p) transcr tn emo lang) = Returns i ->
    NoDup (map file_path
               (voice_rows (snd (add_voice_log now t (Some p) transcr tn emo lang))))
    /\ add_voice_log now' (snd (add_voice_log now t (Some p) transcr tn emo lang))
                     (Some p) transcr' tn' emo' lang'
       = (Raises IntegrityError, snd (add_voice_log now t (Some p) transcr tn emo lang)).
Proof.
  intros now now' t p transcr tn emo lang transcr' tn' emo' lang' i Hnd Hret.
  unfold add_voice_log in *.
  destruct (existsb (has_path p) (voice_rows t)) eqn:E; [discriminate|].
  simpl. split.
  - rewrite map_app. simpl. apply NoDup_snoc; [exact Hnd|].
    intros Hin. apply existsb_has_path_iff in Hin. congruence.
  - replace (existsb (has_path p) _) with true; [reflexivity|].
    symmetry. apply existsb_has_path_iff. rewrite map_app. simpl.
    apply in_or_app. right. now left.
Qed.

Lemma voice_log_rejects_duplicate_path_witness :
  NoDup (map file_path
             (voice_rows (snd (add_voice_log Samples.t0 empty_voice
                                 (Some "audio/note1.wav") (Some "hello") None None
                                 (Some "hinglish")))))
  /\ add_voice_log Samples.t5
       (snd (add_voice_log Samples.t0 empty_voice (Some "audio/note1.wav")
                           (Some "hello") None None (Some "hinglish")))
       (Some "audio/note1.wav") None None None None
     = (Raises IntegrityError,
        snd (add_voice_log Samples.t0 empty_voice (Some "audio/note1.wav")
                           (Some "hello") None None (Some "hinglish"))).
Proof.
  apply (voice_log_rejects_duplicate_path Samples.t0 Samples.t5 empty_voice
           "audio/note1.wav" (Some "hello") None None (Some "hinglish")
           None None None None 1).
  - constructor.
  - reflexivity.
Defined.

(** ** The emotion query *)

Lemma opt_eqb_some (o : option string) (x : string) :
  opt_eqb o (Some x) = true <-> o = Some x.
Proof.
  destruct o as [y|]; simpl.
  - rewrite String.eqb_eq. split; congruence.
  - split; discriminate.
Qed.

(** X12: a note logged with an emotion is found again by
    [search_by_emotion] for that emotion when the limit keeps it: the call
    returns (intensity and limit fitting SQLite's INTEGER) a list that holds
    the new row, provided there is no limit, or no more rows with that
    emotion than the limit, or a limit of at least 1 and every other such
    row is older.  Every row the query returns is a row of the table whose
    emotion or mood is the one asked for. *)
Theorem search_by_emotion_finds_logged_note :
  forall (D : Type) (e : Store.env) (s : Store.db D) (t em : string)
         (src tg md : option string) (inten : Z) (bw : bool) (limit : Z),
    Limits.fits_int64 inten = true ->
    Limits.fits_int64 limit = true ->
    Predicates.within_limit limit
      (Store.mk_interaction (Store.next_rowid s) t src tg (Some em) md inten bw
                            (isoformat (Store.now e)) (Store.current_timestamp e))
      (filter (Injector.emotion_or_mood em)
              (Store.interactions
                 (snd (Checked.add_interaction e s (Some t) src tg (Some em) md
                                               inten bw)))) ->
    exists result,
      Checked.search_by_emotion
        (Store.interactions
           (snd (Checked.add_interaction e s (Some t) src tg (Some em) md inten bw)))
        em limit = Returns result
      /\ In (Store.mk_interaction (Store.next_rowid s) t src tg (Some em) md inten bw
                                  (isoformat (Store.now e)) (Store.current_timestamp e))
            result
      /\ (forall r,
             In r result ->
             In r (Store.interactions
                     (snd (Checked.add_interaction e s (Some t) src tg (Some em) md
                                                   inten bw)))
             /\ (Store.emotion r = Some em \/ Store.mood r = Some em)).
Proof.
  intros D e s t em src tg md inten bw limit Hi Hl.
  unfold Checked.search_by_emotion, Checked.add_interaction. rewrite Hi, Hl.
  simpl snd. cbn [Store.interactions]. intros Hw.
  eexists. split; [reflexivity|]. unfold search_by_emotion. split.
  - apply InjectorFacts.within_limit_in; [|exact Hw].
    apply filter_In. split.
    + apply in_or_app. right. now left.
    + unfold Injector.emotion_or_mood. simpl. now rewrite String.eqb_refl.
  - intros r Hr.
    apply InjectorFacts.sql_limit_in, InjectorFacts.sort_desc_in, filter_In in Hr.
    destruct Hr as [Hin Hm]. split; [exact Hin|].
    unfold Injector.emotion_or_mood in Hm. apply orb_true_iff in Hm.
    destruct Hm as [Hm|Hm]; apply opt_eqb_some in Hm; auto.
Qed.

(** A second anxious note is logged one second after the first: with the
    limit 1 the query returns the new one. *)
Lemma search_by_emotion_finds_logged_note_witness :
  exists result,
    Checked.search_by_emotion
      (Store.interactions
         (snd (Checked.add_interaction Samples.e1 MoreSamples.db_anxious
                 (Some "Stressful deadline today") (Some "manual") None
                 (Some "anxious") None 4 false)))
      "anxious" 1 = Returns result
    /\ In (Store.mk_interaction (Store.next_rowid MoreSamples.db_anxious)
             "Stressful deadline today" (Some "manual") None (Some "anxious") None
             4 false (isoformat (Store.now Samples.e1))
             (Store.current_timestamp Samples.e1))
          result
    /\ (forall r,
           In r result ->
           In r (Store.interactions
                   (snd (Checked.add_interaction Samples.e1 MoreSamples.db_anxious
                           (Some "Stressful deadline today") (Some "manual") None
                           (Some "anxious") None 4 false)))
           /\ (Store.emotion r = Some "anxious" \/ Store.mood r = Some "anxious")).
Proof.
  apply (search_by_emotion_finds_logged_note _ Samples.e1 MoreSamples.db_anxious
           "Stressful deadline today" "anxious" (Some "manual") None None 4 false 1).
  - vm_compute. reflexivity.
  - vm_compute. reflexivity.
  - right. right. split; [lia|]. intros x Hx. vm_compute in Hx.
    destruct Hx as [<-|[<-|[]]]; [right|left]; vm_compute; reflexivity.
Defined.

(** The query is not guarded: a limit of 2^63 raises. *)
Example search_by_emotion_with_a_limit_out_of_range :
  Checked.search_by_emotion (Store.interactions Samples.db1) "calm" (2 ^ 63)
    = Raises OverflowError
  /\ Checked.search_by_emotion (Store.interactions Samples.db1) "calm" 5
     = Returns [Samples.note1].
Proof. split; reflexivity. Qed.

End CatalogFacts.

(** * More on retrieval and ingestion *)
Module InjectorMoreFacts.
Import PyTime Builtins Injector InjectorFacts Predicates.

(** ** Distinct texts, bounded length, ranking *)

Lemma unique_by_text_not_seen (seen : list string) (l : list memory) (m : memory) :
  In m (unique_by_text seen l) -> existsb (String.eqb (m_text m)) seen = false.
Proof.
  revert seen. induction l as [|a l IH]; intros seen; simpl; [tauto|].
  destruct (existsb (String.eqb (m_text a)) seen) eqn:E.
  - apply IH.
  - intros [<-|H]; [exact E|].
    apply IH in H. simpl in H. now apply orb_false_iff in H.
Qed.

Lemma unique_by_text_nodup (seen : list string) (l : list memory) :
  NoDup (map m_text (unique_by_text seen l)).
Proof.
  revert seen. induction l as [|a l IH]; intros seen; simpl; [constructor|].
  destruct (existsb (String.eqb (m_text a)) seen) eqn:E; [apply IH|].
  simpl. constructor; [|apply IH].
  intros Hin. apply in_map_iff in Hin. destruct Hin as (x & Hx & Hin).
  apply unique_by_text_not_seen in Hin. simpl in Hin.
  apply orb_false_iff in Hin. destruct Hin as [Hin _].
  rewrite Hx, String.eqb_refl in Hin. discriminate.
Qed.

Lemma NoDup_firstn {A : Type} (n : nat) (l : list A) :
  NoDup l -> NoDup (firstn n l).
Proof.
  revert l. induction n as [|n IH]; intros [|a l] H; simpl; try constructor.
  - inversion H as [|? ? Ha Hl]; subst. intros Hin. apply Ha.
    now apply firstn_incl in Hin.
  - inversion H; subst. now apply IH.
Qed.

Lemma py_slice_to_firstn {A : Type} (n : Z) (l : list A) :
  exists k, py_slice_to n l = firstn k l.
Proof. unfold py_slice_to. destruct (0 <=? n); eauto. Qed.

Lemma insert_desc_in {A : Type} (gt : A -> A -> bool) (x z : A) (l : list A) :
  In z (insert_desc gt x l) <-> z = x \/ In z l.
Proof.
  split.
  - intros H. apply (Permutation_in _ (insert_desc_perm gt x l)) in H.
    destruct H as [<-|H]; auto.
  - intros H. apply (Permutation_in _ (Permutation_sym (insert_desc_perm gt x l))).
    destruct H as [->|H]; [now left|now right].
Qed.

Lemma insert_desc_ranked (x : memory) (l : list memory) :
  StronglySorted ranked_before l ->
  StronglySorted ranked_before (insert_desc sim_gt x l).
Proof.
  induction 1 as [|y l Hl IH Hy]; simpl.
  - repeat constructor.
  - destruct (sim_gt y x) eqn:E.
    + constructor; [exact IH|].
      apply Forall_forall. intros z Hz. apply insert_desc_in in Hz.
      destruct Hz as [->|Hz].
      * unfold sim_gt in E. apply negb_true_iff in E. unfold ranked_before.
        destruct (Qlt_le_dec (sim_key x) (sim_key y)) as [Hlt|Hle].
        -- now apply Qlt_le_weak.
        -- apply Qle_bool_iff in Hle. congruence.
      * rewrite Forall_forall in Hy. now apply Hy.
    + unfold sim_gt in E. apply negb_false_iff, Qle_bool_iff in E.
      constructor; [now constructor|].
      constructor; [exact E|].
      apply Forall_forall. intros z Hz. rewrite Forall_forall in Hy.
      specialize (Hy z Hz). unfold ranked_before in *.
      now apply Qle_trans with (sim_key y).
Qed.

Lemma sort_desc_ranked (l : list memory) :
  StronglySorted ranked_before (sort_desc sim_gt l).
Proof.
  induction l as [|x l IH]; simpl; [constructor|]. now apply insert_desc_ranked.
Qed.

Lemma StronglySorted_firstn {A : Type} (R : A -> A -> Prop) (n : nat) (l : list A) :
  StronglySorted R l -> StronglySorted R (firstn n l).
Proof.
  revert l. induction n as [|n IH]; intros [|a l] H; simpl; try constructor.
  - apply IH. now inversion H.
  - inversion H as [|? ? _ Ha]; subst. apply Forall_forall. intros z Hz.
    rewrite Forall_forall in Ha. apply Ha. now apply firstn_incl in Hz.
Qed.

(** X13: the relevant memories never show a text twice, and when
    [max_memories] is not negative there are at most [max_memories] of
    them. *)
Theorem relevant_memories_distinct_and_bounded :
  forall (now : datetime) (db : table) (vec : vector_index) (text : string)
         (emo : option string) (max_memories : Z),
    0 <= max_memories ->
    NoDup (map m_text (relevant_memories now db vec text emo max_memories))
    /\ (List.length (relevant_memories now db vec text emo max_memories)
        <= Z.to_nat max_memories)%nat.
Proof.
  intros now db vec text emo mx H. unfold relevant_memories, merge_memories. split.
  - destruct (py_slice_to_firstn mx
                (sort_desc sim_gt
                   (unique_by_text []
                      (topical_of now db vec text mx ++ emotional_of now db emo mx))))
      as [k ->].
    rewrite <- firstn_map. apply NoDup_firstn.
    eapply Permutation_NoDup.
    + apply Permutation_map. symmetry. apply sort_desc_perm.
    + apply unique_by_text_nodup.
  - now apply py_slice_to_length.
Qed.

Lemma relevant_memories_distinct_and_bounded_witness :
  NoDup (map m_text (relevant_memories Samples.t5 Samples.table1 Samples.index1
                                       "debugging" (Some "calm") 3))
  /\ (List.length (relevant_memories Samples.t5 Samples.table1 Samples.index1
                                     "debugging" (Some "calm") 3)
      <= Z.to_nat 3)%nat.
Proof.
  apply (relevant_memories_distinct_and_bounded Samples.t5 Samples.table1
           Samples.index1 "debugging" (Some "calm") 3).
  lia.
Defined.

(** X14: the relevant memories are ranked: no record stands before one
    with a higher score, a record without a similarity counting as 0. *)
Theorem relevant_memories_are_ranked :
  forall (now : datetime) (db : table) (vec : vector_index) (text : string)
         (emo : option string) (max_memories : Z),
    StronglySorted ranked_before
                   (relevant_memories now db vec text emo max_memories).
Proof.
  intros now db vec text emo mx. unfold relevant_memories, merge_memories.
  destruct (py_slice_to_firstn mx
              (sort_desc sim_gt
                 (unique_by_text []
                    (topical_of now db vec text mx ++ emotional_of now db emo mx))))
    as [k ->].
  apply StronglySorted_firstn, sort_desc_ranked.
Qed.

(** ** The semantic path *)

Lemma semantic_in_window now db query text emotion limit days hits m :
  query text (limit * 2) = Some hits ->
  In m (find_similar_memories now db (Available query) text emotion limit days) ->
  exists h, In h hits /\ m = semantic_memory emotion h
            /\ minus_days now days <= h_timestamp h
            /\ (topical_threshold <= hit_similarity emotion h)%Q.
Proof.
  intros Hq Hm. unfold find_similar_memories in Hm. rewrite Hq in Hm.
  apply py_slice_to_in, sort_desc_in, in_flat_map in Hm.
  destruct Hm as (h & Hh & Hm). exists h. split; [exact Hh|].
  destruct (h_timestamp h <? minus_days now days) eqn:Et; [contradiction|].
  destruct (Qle_bool topical_threshold (hit_similarity emotion h)) eqn:E;
    [|contradiction].
  destruct Hm as [<-|[]]. split; [reflexivity|].
  split; [now apply Z.ltb_ge in Et|now apply Qle_bool_iff].
Qed.

(** X16: the semantic path returns nothing older than [days_back] days:
    every record it returns comes from a neighbour whose timestamp is not
    before the cutoff. *)
Theorem semantic_results_are_recent :
  forall (now : datetime) (db : table) (query : string -> Z -> option (list hit))
         (text : string) (emotion : option string) (limit days : Z)
         (hits : list hit) (m : memory),
    query text (limit * 2) = Some hits ->
    In m (find_similar_memories now db (Available query) text emotion limit days) ->
    exists h,
      In h hits /\ m = semantic_memory emotion h
      /\ now - days * us_per_day <= h_timestamp h.
Proof.
  intros now db query text emotion limit days hits m Hq Hm.
  destruct (semantic_in_window _ _ _ _ _ _ _ _ _ Hq Hm) as (h & Hh & -> & Hw & _).
  exists h. repeat split; [exact Hh|exact Hw].
Qed.

Lemma semantic_results_are_recent_witness :
  exists h,
    In h [MoreSamples.exact_hit]
    /\ semantic_memory (Some "calm") MoreSamples.exact_hit
       = semantic_memory (Some "calm") h
    /\ Samples.t5 - 30 * us_per_day <= h_timestamp h.
Proof.
  apply (semantic_results_are_recent Samples.t5 Samples.table1
           MoreSamples.exact_query "debugging" (Some "calm") 3 30
           [MoreSamples.exact_hit]
           (semantic_memory (Some "calm") MoreSamples.exact_hit)).
  - reflexivity.
  - vm_compute. left. reflexivity.
Defined.

(** ** The keyword path *)

Lemma pos_of_nat_succ_Z (k : nat) : Z.pos (Pos.of_nat (S k)) = Z.of_nat (S k).
Proof. rewrite <- Pos.of_nat_succ, Zpos_P_of_succ_nat. lia. Qed.

Lemma keyword_relevance_le_1 (ws : list string) (t : string) :
  (keyword_relevance ws t <= 1)%Q.
Proof.
  unfold keyword_relevance. destruct ws as [|w ws]; [unfold Qle; simpl; lia|].
  set (l := w :: ws).
  pose proof (filter_length_le (fun x => contains x (py_lower t)) l) as Hle.
  unfold Qle. cbn [Qnum Qden]. subst l. cbn [List.length] in *.
  rewrite pos_of_nat_succ_Z. lia.
Qed.

Lemma fallback_in_full now db text emotion limit days m :
  In m (_fallback_memory_search now db text emotion limit days) ->
  exists rows r,
    db = Some rows /\ In r rows
    /\ m = row_memory (Some (keyword_relevance (py_split (py_lower text))
                                               (Store.text r))) keyword r
    /\ String.leb (isoformat (minus_days now days)) (Store.timestamp r) = true
    /\ (truthy emotion = true ->
        Store.emotion r = emotion \/ Store.mood r = emotion).
Proof.
  unfold _fallback_memory_search. destruct db as [rows|]; [|contradiction].
  destruct (py_split (py_lower text)) as [|w ws] eqn:Ew; [contradiction|].
  intros Hm. apply in_map_iff in Hm. destruct Hm as (r & <- & Hr).
  apply sql_limit_in, sort_desc_in, filter_In in Hr. destruct Hr as [Hr Hsel].
  apply andb_true_iff in Hsel. destruct Hsel as [Hsel He].
  apply andb_true_iff in Hsel. destruct Hsel as [_ Hts].
  exists rows, r. repeat split; [exact Hr|exact Hts|].
  intros Ht. destruct emotion as [e|]; [|discriminate].
  rewrite Ht in He. unfold emotion_or_mood in He. apply orb_true_iff in He.
  destruct He as [He|He]; apply CatalogFacts.opt_eqb_some in He; auto.
Qed.

(** X17: every record of the keyword search shows a row of the table that
    is not older than the cutoff, carries a relevance between 0 and 1, and,
    when an emotion is given, has that emotion or that mood. *)
Theorem keyword_results_are_bounded_and_filtered :
  forall (now : datetime) (db : table) (text : string) (emotion : option string)
         (limit days : Z) (m : memory),
    In m (_fallback_memory_search now db text emotion limit days) ->
    exists rows r q,
      db = Some rows /\ In r rows
      /\ m = row_memory (Some q) keyword r
      /\ (0 <= q)%Q /\ (q <= 1)%Q
      /\ String.leb (isoformat (minus_days now days)) (Store.timestamp r) = true
      /\ (truthy emotion = true ->
          Store.emotion r = emotion \/ Store.mood r = emotion).
Proof.
  intros now db text emotion limit days m Hm.
  apply fallback_in_full in Hm. destruct Hm as (rows & r & Hdb & Hr & -> & Hts & He).
  exists rows, r, (keyword_relevance (py_split (py_lower text)) (Store.text r)).
  repeat split; try assumption.
  - apply keyword_relevance_nonneg.
  - apply keyword_relevance_le_1.
Qed.

Lemma keyword_results_are_bounded_and_filtered_witness :
  exists rows r q,
    Samples.table3 = Some rows /\ In r rows
    /\ row_memory (Some (1 # 3)%Q) keyword Samples.row_part
       = row_memory (Some q) keyword r
    /\ (0 <= q)%Q /\ (q <= 1)%Q
    /\ String.leb (isoformat (minus_days Samples.t5 30)) (Store.timestamp r) = true
    /\ (truthy (Some "happy") = true ->
        Store.emotion r = Some "happy" \/ Store.mood r = Some "happy").
Proof.
  apply (keyword_results_are_bounded_and_filtered Samples.t5 Samples.table3
           "alpha beta gamma" (Some "happy") 3 30
           (row_memory (Some (1 # 3)%Q) keyword Samples.row_part)).
  vm_compute. right. left. reflexivity.
Defined.

Lemma space_is_not_lowered (c : ascii) : is_space c = true -> lower_ascii c = c.
Proof.
  unfold is_space, lower_ascii. intros H.
  destruct ((65 <=? nat_of_ascii c) && (nat_of_ascii c <=? 90))%nat eqn:E;
    [|reflexivity].
  exfalso. apply andb_true_iff in E. destruct E as [E1 E2].
  apply Nat.leb_le in E1. apply Nat.leb_le in E2.
  apply orb_true_iff in H. destruct H as [H|H]; apply andb_true_iff in H;
    destruct H as [H1 H2]; apply Nat.leb_le in H1; apply Nat.leb_le in H2; lia.
Qed.

Lemma blank_has_no_word (s : string) :
  blank s = true -> py_split (py_lower s) = [].
Proof.
  unfold blank, py_split. induction s as [|c s IH]; simpl; [reflexivity|].
  intros H. apply andb_true_iff in H. destruct H as [Hc Hs].
  rewrite (space_is_not_lowered c Hc), Hc. simpl. now apply IH.
Qed.

(** X18: a query that is empty or holds only blanks finds nothing by
    keyword, whatever the table holds; with the index unavailable, so does
    [find_similar_memories]. *)
Theorem blank_query_finds_nothing :
  forall (now : datetime) (db : table) (text : string) (emotion : option string)
         (limit days : Z),
    blank text = true ->
    _fallback_memory_search now db text emotion limit days = []
    /\ find_similar_memories now db Unavailable text emotion limit days = [].
Proof.
  intros now db text emotion limit days H.
  assert (_fallback_memory_search now db text emotion limit days = []) as Hf.
  { unfold _fallback_memory_search. destruct db as [rows|]; [|reflexivity].
    now rewrite (blank_has_no_word text H). }
  split; [exact Hf|exact Hf].
Qed.

Lemma blank_query_finds_nothing_witness :
  _fallback_memory_search Samples.t5 Samples.table3 "   " None 3 30 = []
  /\ find_similar_memories Samples.t5 Samples.table3 Unavailable "   " None 3 30 = [].
Proof.
  apply (blank_query_finds_nothing Samples.t5 Samples.table3 "   " None 3 30).
  reflexivity.
Defined.

(** ** When [inject_context_memories] raises *)

Lemma all_strings_none (l : list (option string)) :
  all_strings l = None <-> In None l.
Proof.
  induction l as [|[x|] l IH]; simpl.
  - split; [discriminate|tauto].
  - destruct (all_strings l); simpl.
    + split; [discriminate|]. intros [H|H]; [discriminate|]. now apply IH in H.
    + split; [|reflexivity]. intros _. right. now apply IH.
  - split; [now left|reflexivity].
Qed.

Lemma summary_raises_iff (memories : list memory) :
  (exists x, _generate_memory_summary memories = Raises x)
  <-> exists m, In m memories /\ null_emotion_record m.
Proof.
  unfold _generate_memory_summary, null_emotion_record.
  destruct memories as [|m0 ms].
  - split; [intros [x H]; discriminate|intros (m & [] & _)].
  - set (l := m0 :: ms).
    destruct (filter (fun m => relevance_eqb (relevance_type m) emotional) l)
      as [|e es] eqn:Ef.
    + split; [intros [x H]; discriminate|].
      intros (m & Hin & Hr & _).
      assert (In m (filter (fun m => relevance_eqb (relevance_type m) emotional) l)) as H
        by (apply filter_In; split; [exact Hin|now rewrite Hr]).
      rewrite Ef in H. contradiction.
    + destruct (all_strings (map m_emotion (e :: es))) as [ems|] eqn:Ea.
      * split; [intros [x H]; discriminate|].
        intros (m & Hin & Hr & Hn).
        assert (In None (map m_emotion (e :: es))) as H.
        { rewrite <- Hn, <- Ef. apply in_map, filter_In.
          split; [exact Hin|now rewrite Hr]. }
        apply all_strings_none in H. congruence.
      * split; [|intros _; now exists TypeError].
        intros _. apply all_strings_none in Ea. apply in_map_iff in Ea.
        destruct Ea as (m & Hn & Hin). rewrite <- Ef in Hin.
        apply filter_In in Hin. destruct Hin as [Hin Hr].
        exists m. repeat split; [exact Hin| |exact Hn].
        now destruct (relevance_type m).
Qed.

Lemma summary_raises_type_error (memories : list memory) (x : exn) :
  _generate_memory_summary memories = Raises x -> x = TypeError.
Proof.
  unfold _generate_memory_summary. destruct memories as [|m0 ms]; [discriminate|].
  destruct (filter _ (m0 :: ms)); [discriminate|].
  destruct (all_strings _); [discriminate|]. congruence.
Qed.

(** X19: [inject_context_memories] raises in one case only.  It raises
    exactly when one of the relevant memories is an emotion record whose
    [emotion] is NULL, the exception is a [TypeError], and when it returns,
    the context holds the relevant memories and the text it was given. *)
Theorem inject_raises_exactly_on_null_emotion :
  forall (now : datetime) (db : table) (vec : vector_index) (text : string)
         (emo : option string) (max_memories : Z),
    ((exists x, inject_context_memories now db vec text emo max_memories = Raises x)
     <-> exists m, In m (relevant_memories now db vec text emo max_memories)
                   /\ null_emotion_record m)
    /\ (forall x, inject_context_memories now db vec text emo max_memories = Raises x ->
                  x = TypeError)
    /\ (forall ctx,
           inject_context_memories now db vec text emo max_memories = Returns ctx ->
           ctx_memories ctx = relevant_memories now db vec text emo max_memories
           /\ current_input ctx = text).
Proof.
  intros now db vec text emo mx. unfold inject_context_memories.
  pose proof (summary_raises_iff (relevant_memories now db vec text emo mx)) as Hiff.
  pose proof (summary_raises_type_error (relevant_memories now db vec text emo mx))
    as Hte.
  destruct (relevant_memories now db vec text emo mx) as [|m0 ms] eqn:Hrel.
  - split; [|split].
    + split; [intros [x H]; discriminate|intros (m & [] & _)].
    + intros x H. discriminate.
    + intros ctx H. injection H as <-. split; reflexivity.
  - destruct (_generate_memory_summary (m0 :: ms)) as [sm|x0] eqn:Hs.
    + split; [|split].
      * split; [intros [x H]; discriminate|].
        intros H. apply Hiff in H. destruct H as [x H]. discriminate.
      * intros x H. discriminate.
      * intros ctx H. injection H as <-. split; reflexivity.
    + split; [|split].
      * split; [|intros _; now exists x0].
        intros _. apply Hiff. now exists x0.
      * intros x H. injection H as <-. now apply Hte.
      * intros ctx H. discriminate.
Qed.

(** X20: without an emotion ([None] or the empty string)
    [inject_context_memories] always returns, and none of the memories it
    returns is an emotion record. *)
Theorem no_emotion_no_failure :
  forall (now : datetime) (db : table) (vec : vector_index) (text : string)
         (emo : option string) (max_memories : Z),
    truthy emo = false ->
    exists ctx,
      inject_context_memories now db vec text emo max_memories = Returns ctx
      /\ ctx_memories ctx = relevant_memories now db vec text emo max_memories
      /\ (forall m, In m (ctx_memories ctx) -> relevance_type m <> emotional).
Proof.
  intros now db vec text emo mx Ht.
  assert (Hne : forall m, In m (relevant_memories now db vec text emo mx) ->
                          relevance_type m <> emotional).
  { intros m Hm. unfold relevant_memories, merge_memories in Hm.
    apply py_slice_to_in, sort_desc_in, unique_by_text_in, in_app_or in Hm.
    destruct Hm as [Hm|Hm].
    - apply find_similar_in in Hm. now destruct Hm as (_ & _ & _ & H).
    - unfold emotional_of in Hm. destruct emo as [e|]; [|contradiction].
      rewrite Ht in Hm. contradiction. }
  unfold inject_context_memories.
  pose proof (summary_raises_iff (relevant_memories now db vec text emo mx)) as Hiff.
  destruct (relevant_memories now db vec text emo mx) as [|m0 ms] eqn:Hrel.
  - eexists. split; [reflexivity|]. split; [reflexivity|]. intros m [].
  - destruct (_generate_memory_summary (m0 :: ms)) as [sm|x0] eqn:Hs.
    + eexists. split; [reflexivity|]. split; [reflexivity|]. exact Hne.
    + exfalso. destruct (proj1 Hiff (ex_intro _ x0 eq_refl)) as (m & Hin & Hr & _).
      exact (Hne m Hin Hr).
Qed.

Lemma no_emotion_no_failure_witness :
  exists ctx,
    inject_context_memories Samples.t5 (Some [Samples.row_mood_only]) Unavailable
                            "long walk" None 3 = Returns ctx
    /\ ctx_memories ctx
       = relevant_memories Samples.t5 (Some [Samples.row_mood_only]) Unavailable
                           "long walk" None 3
    /\ (forall m, In m (ctx_memories ctx) -> relevance_type m <> emotional).
Proof.
  apply (no_emotion_no_failure Samples.t5 (Some [Samples.row_mood_only]) Unavailable
           "long walk" None 3).
  reflexivity.
Defined.

(** ** Ingestion only appends *)

Lemma add_memory_appends now c t emo tags i :
  exists c' new,
    snd (add_memory now (Some c) t emo tags i) = Some c'
    /\ entries c' = entries c ++ new
    /\ (List.length new <= 1)%nat
    /\ (fst (add_memory now (Some c) t emo tags i) = false -> new = [])
    /\ (forall en, In en new ->
                   document en = t
                   /\ md_interaction_id (entry_metadata en) = id_or_0 i).
Proof.
  unfold add_memory, collection_add. simpl doc_id.
  destruct (collection_has c (add_memory_doc_id now i)).
  - destruct (add_raises_on_duplicate c); exists c, []; simpl; rewrite app_nil_r;
      (split; [reflexivity|]; split; [reflexivity|]; split; [lia|];
       split; [reflexivity|intros en []]).
  - eexists _, [_]. simpl.
    split; [reflexivity|]. split; [reflexivity|]. split; [lia|].
    split; [discriminate|]. intros en [<-|[]]. split; reflexivity.
Qed.

Lemma sync_fold now (rows : list Store.interaction) :
  forall (k : Z) (c : collection),
  exists c' new k',
    fold_left (sync_row now) rows (k, Some c) = (k', Some c')
    /\ entries c' = entries c ++ new
    /\ Z.of_nat (List.length new) <= k' - k
    /\ k' - k <= Z.of_nat (List.length rows)
    /\ (forall en, In en new ->
                   exists row, In row rows /\ document en = Store.text row
                               /\ md_interaction_id (entry_metadata en) = Store.id row).
Proof.
  induction rows as [|row rows IH]; intros k c.
  - exists c, [], k. simpl. rewrite app_nil_r.
    split; [reflexivity|]. split; [reflexivity|]. split; [lia|]. split; [lia|].
    intros en [].
  - change (fold_left (sync_row now) (row :: rows) (k, Some c))
      with (fold_left (sync_row now) rows (sync_row now (k, Some c) row)).
    unfold sync_row at 2.
    destruct (collection_has c (sync_doc_id row)).
    + destruct (IH k c) as (c' & new & k' & Hf & He & Hl & Hu & Hn).
      exists c', new, k'. rewrite Hf. simpl List.length.
      split; [reflexivity|]. split; [exact He|]. split; [lia|]. split; [lia|].
      intros en Hen. destruct (Hn en Hen) as (r & Hr & Hd).
      exists r. split; [now right|exact Hd].
    + destruct (add_memory_appends now c (Store.text row) (Store.emotion row)
                  (Store.tags row) (Some (Store.id row)))
        as (c1 & new1 & Hs & He1 & Hl1 & Hf1 & Hn1).
      destruct (add_memory now (Some c) (Store.text row) (Store.emotion row)
                           (Store.tags row) (Some (Store.id row))) as [ok coll1].
      simpl in Hs, Hf1. subst coll1.
      destruct ok.
      * destruct (IH (k + 1) c1) as (c' & new & k' & Hf & He & Hl & Hu & Hn).
        exists c', (new1 ++ new), k'. rewrite Hf.
        rewrite He, He1, <- app_assoc, length_app. simpl List.length.
        split; [reflexivity|]. split; [reflexivity|]. split; [lia|]. split; [lia|].
        intros en Hen. apply in_app_or in Hen. destruct Hen as [Hen|Hen].
        -- exists row. split; [now left|]. now apply Hn1.
        -- destruct (Hn en Hen) as (r & Hr & Hd).
           exists r. split; [now right|exact Hd].
      * rewrite (Hf1 eq_refl), app_nil_r in He1.
        destruct (IH k c1) as (c' & new & k' & Hf & He & Hl & Hu & Hn).
        exists c', new, k'. rewrite Hf. rewrite He, He1. simpl List.length.
        split; [reflexivity|]. split; [reflexivity|]. split; [lia|]. split; [lia|].
        intros en Hen. destruct (Hn en Hen) as (r & Hr & Hd).
        exists r. split; [now right|exact Hd].
Qed.

(** X21: [sync_sql_to_vector_db] only appends.  The entries the
    collection held are kept, unchanged and in place; what is added is at
    most one entry per call of [add_memory] that was counted, and each added
    entry holds the text and the id of a row of [interactions]. *)
Theorem sync_only_appends :
  forall (now : datetime) (db : table) (c : collection) (days : Z),
    exists c' new,
      snd (sync_sql_to_vector_db now db (Some c) days) = Some c'
      /\ entries c' = entries c ++ new
      /\ Z.of_nat (List.length new) <= fst (sync_sql_to_vector_db now db (Some c) days)
      /\ (forall en, In en new ->
                     exists rows row,
                       db = Some rows /\ In row rows
                       /\ document en = Store.text row
                       /\ md_interaction_id (entry_metadata en) = Store.id row).
Proof.
  intros now db c days. unfold sync_sql_to_vector_db.
  destruct db as [rows|].
  - destruct (sync_fold now
                (sort_desc ts_gt
                   (filter (fun r => String.leb (isoformat (minus_days now days))
                                                (Store.timestamp r)) rows)) 0 c)
      as (c' & new & k' & Hf & He & Hl & _ & Hn).
    exists c', new. rewrite Hf. simpl.
    split; [reflexivity|]. split; [exact He|]. split; [lia|].
    intros en Hen. destruct (Hn en Hen) as (row & Hr & Hd).
    exists rows, row. split; [reflexivity|]. split; [|exact Hd].
    apply sort_desc_in, filter_In in Hr. now destruct Hr.
  - exists c, []. simpl. rewrite app_nil_r.
    split; [reflexivity|]. split; [reflexivity|]. split; [lia|]. intros en [].
Qed.

End InjectorMoreFacts.

(** * More on the RAG engine *)
Module RagMoreFacts.
Import PyTime Builtins Rag RagRetrieval Predicates.

(** X22: when the helper calls return and the budget [N] is not negative,
    the prompt returned has at most [N + 3] characters, and exactly [N + 3]
    when the assembled prompt was longer than [N]: the cut keeps [N]
    characters and the ellipsis adds three. *)
Theorem prompt_length_is_at_most_budget_plus_three :
  forall (N : Z) (memories : list rag_memory) (p : patterns) (query : string)
         (user_preferences : list (string * string)),
    0 <= N ->
    Z.of_nat (String.length
                (generate_context_prompt N memories (Some p) query user_preferences))
      <= N + 3
    /\ (N < Z.of_nat (String.length (enhanced_prompt query user_preferences p memories)) ->
        Z.of_nat (String.length
                    (generate_context_prompt N memories (Some p) query user_preferences))
          = N + 3).
Proof.
  intros N memories p query prefs HN. unfold generate_context_prompt, fit.
  set (full := enhanced_prompt query prefs p memories).
  destruct (N <? Z.of_nat (String.length full)) eqn:E.
  - apply Z.ltb_lt in E.
    unfold py_str_slice_to. replace (0 <=? N) with true by (symmetry; now apply Z.leb_le).
    rewrite ProtectionFacts.fstr_pair, ProtectionFacts.string_length_append,
      ProtectionFacts.py_prefix_length.
    change (String.length "...") with 3%nat.
    rewrite Nat.min_l by lia. split; [lia|]. intros _. lia.
  - apply Z.ltb_ge in E. split; lia.
Qed.

Lemma prompt_length_is_at_most_budget_plus_three_witness :
  Z.of_nat (String.length
              (generate_context_prompt 60 Samples.one_memory (Some Samples.no_patterns)
                                       "help" []))
    <= 60 + 3
  /\ (60 < Z.of_nat (String.length (enhanced_prompt "help" [] Samples.no_patterns
                                                     Samples.one_memory)) ->
      Z.of_nat (String.length
                  (generate_context_prompt 60 Samples.one_memory
                                           (Some Samples.no_patterns) "help" []))
        = 60 + 3).
Proof.
  apply (prompt_length_is_at_most_budget_plus_three 60 Samples.one_memory
           Samples.no_patterns "help" []).
  lia.
Defined.

(** ** [retrieve_relevant_memories] *)

Lemma insert_asc_sorted (x : relevant_memory) (l : list relevant_memory) :
  StronglySorted score_le l ->
  StronglySorted score_le (insert_desc score_lt x l).
Proof.
  induction 1 as [|y l Hl IH Hy]; simpl.
  - repeat constructor.
  - destruct (score_lt y x) eqn:E.
    + constructor; [exact IH|].
      apply Forall_forall. intros z Hz.
      apply InjectorMoreFacts.insert_desc_in in Hz. destruct Hz as [->|Hz].
      * unfold score_lt in E. apply negb_true_iff in E. unfold score_le.
        destruct (Qlt_le_dec (similarity_score y) (similarity_score x)) as [Hlt|Hle].
        -- now apply Qlt_le_weak.
        -- apply Qle_bool_iff in Hle. congruence.
      * rewrite Forall_forall in Hy. now apply Hy.
    + unfold score_lt in E. apply negb_false_iff, Qle_bool_iff in E.
      constructor; [now constructor|].
      constructor; [exact E|].
      apply Forall_forall. intros z Hz. rewrite Forall_forall in Hy.
      specialize (Hy z Hz). unfold score_le in *.
      now apply Qle_trans with (similarity_score y).
Qed.

Lemma sort_asc_sorted (l : list relevant_memory) :
  StronglySorted score_le (sort_desc score_lt l).
Proof.
  induction l as [|x l IH]; simpl; [constructor|]. now apply insert_asc_sorted.
Qed.

Lemma keep_relevant_in now th days pairs m :
  In m (keep_relevant now th days pairs) ->
  exists d sc,
    In (d, sc) pairs /\ (sc <= th)%Q /\ too_old now days d = false
    /\ m = mk_relevant_memory (page_content d) sc (doc_interaction_id d)
                              (option_map isoformat (doc_timestamp d)).
Proof.
  unfold keep_relevant. intros H.
  apply InjectorFacts.sort_desc_in, in_flat_map in H.
  destruct H as ([d sc] & Hin & Hm). exists d, sc. split; [exact Hin|].
  destruct (Qle_bool sc th) eqn:E; simpl in Hm; [|contradiction].
  destruct (too_old now days d) eqn:Eo; [contradiction|].
  destruct Hm as [<-|[]]. split; [now apply Qle_bool_iff|]. split; reflexivity.
Qed.

Lemma retrieve_cases now th docs days :
  retrieve_relevant_memories now th docs days = []
  \/ exists pairs,
       retrieve_relevant_memories now th docs days = keep_relevant now th days pairs
       /\ (forall ds, docs = Unscored ds -> pairs = map (fun d => (d, 0%Q)) ds)
       /\ (forall d sc, In (d, sc) pairs -> doc_in docs d).
Proof.
  destruct docs as [[|pr ps]|[|d ds]|]; simpl; auto.
  - right. eexists. split; [reflexivity|]. split; [discriminate|].
    intros d sc H. change (In d (map fst (pr :: ps))).
    apply in_map_iff. now exists (d, sc).
  - right. eexists. split; [reflexivity|]. split.
    + intros ds' H. now injection H as <-.
    + intros d' sc H. change (In (d', sc) (map (fun x => (x, 0%Q)) (d :: ds))) in H.
      apply in_map_iff in H. destruct H as (x & Hx & Hin). now injection Hx as <- _.
Qed.

(** X23: [retrieve_relevant_memories] returns the memories in ascending
    order of score.  Each comes from a document the retriever handed back
    that is not older than the time range, and none has a score above the
    threshold; for documents that come without a score every score is 0. *)
Theorem rag_retrieval_is_filtered_and_ordered :
  forall (now : datetime) (threshold : Q) (docs : retrieved)
         (time_range_days : option Z),
    StronglySorted score_le
                   (retrieve_relevant_memories now threshold docs time_range_days)
    /\ (forall m,
           In m (retrieve_relevant_memories now threshold docs time_range_days) ->
           (similarity_score m <= threshold)%Q
           /\ (forall ds, docs = Unscored ds -> (similarity_score m == 0)%Q)
           /\ exists d, doc_in docs d
                        /\ page_content d = rel_content m
                        /\ too_old now time_range_days d = false).
Proof.
  intros now th docs days.
  destruct (retrieve_cases now th docs days) as [->|(pairs & -> & Hu & Hd)].
  - split; [constructor|intros m []].
  - split; [apply sort_asc_sorted|].
    intros m Hm. apply keep_relevant_in in Hm.
    destruct Hm as (d & sc & Hin & Hle & Hold & ->). simpl.
    split; [exact Hle|]. split.
    + intros ds Hds. rewrite (Hu ds Hds) in Hin. apply in_map_iff in Hin.
      destruct Hin as (d' & Heq & _). injection Heq as _ <-. reflexivity.
    + exists d. split; [exact (Hd d sc Hin)|]. split; [reflexivity|exact Hold].
Qed.

End RagMoreFacts.

(** * The pipeline *)
Module RunnerFacts.
Import PyTime Builtins Store Injector Runner.

(** X24: [process_text_input] stores the note unless building the memory
    context raises.  Processing completes exactly when memory injection is
    off or [inject_context_memories] returns; then one row with the text is
    appended under a new key, which is reported.  Otherwise nothing is
    stored: the table and the vector collection are left as they were. *)
Theorem note_is_stored_unless_injection_raises :
  forall (D : Type) (e : env) (emotion_detection memory_injection : bool)
         (ea : emotion_analysis) (ba : bit_analysis) (vec : vector_index)
         (s : db D) (coll : option collection) (t src : string),
    let emotion := if emotion_detection then bhoola_mood ea else None in
    let inten := if emotion_detection then ea_intensity ea else 1 in
    let out := process_text_input e emotion_detection memory_injection ea ba vec
                                  s coll t src in
    (processing_complete (fst (fst out)) = true
     <-> (memory_injection = false
          \/ exists ctx,
               inject_context_memories (now e) (Some (interactions s)) vec t emotion 3
               = Returns ctx))
    /\ (processing_complete (fst (fst out)) = true ->
        interaction_id (fst (fst out)) = Some (next_rowid s)
        /\ interactions (snd (fst out))
           = interactions s ++
               [mk_interaction (next_rowid s) t (Some src) (Some (ba_tags ba)) emotion
                               None inten (ba_bit_worthy ba) (isoformat (now e))
                               (current_timestamp e)])
    /\ (processing_complete (fst (fst out)) = false ->
        interaction_id (fst (fst out)) = None
        /\ snd (fst out) = s /\ snd out = coll).
Proof.
  intros D e ed mi ea ba vec s coll t src emotion inten out.
  subst out. unfold process_text_input. fold emotion. fold inten.
  destruct mi.
  - destruct (inject_context_memories (now e) (Some (interactions s)) vec t emotion 3)
      as [ctx|x] eqn:Hi; simpl.
    + split; [|split].
      * split; [intros _; right; now exists ctx|reflexivity].
      * intros _. split; reflexivity.
      * discriminate.
    + split; [|split].
      * split; [discriminate|]. intros [H|[ctx H]]; discriminate.
      * discriminate.
      * intros _. repeat split.
  - simpl. split; [|split].
    + split; [intros _; now left|reflexivity].
    + intros _. split; reflexivity.
    + discriminate.
Qed.

(** The note of the sample is lost: a row found through its mood, with a
    NULL emotion, makes the summary raise. *)
Example mood_only_row_loses_the_note :
  process_text_input Samples.e1 true true
    (mk_emotion_analysis (Some "calm") 2) (mk_bit_analysis "" false) Unavailable
    (mk_db [Samples.row_mood_only] 1 (@nil (deleted_interaction interaction)))
    None "zzz" "manual"
  = (mk_report None None false,
     mk_db [Samples.row_mood_only] 1 (@nil (deleted_interaction interaction)),
     None).
Proof. reflexivity. Qed.

End RunnerFacts.

(** * Further edge cases *)
Module EdgeFacts.
Import PyTime Builtins Store Injector InjectorFacts StoreFacts.

(** ** The summary line *)

(** X25: the summary line mentions emotion records, semantic records and
    flagged records only.  For a list that is not empty and holds nothing
    but keyword records that are not flagged (what the keyword search
    returns for rows that are not bit-worthy) it is the empty string. *)
Theorem keyword_only_summary_is_empty :
  forall (memories : list memory),
    memories <> [] ->
    (forall m, In m memories -> relevance_type m = keyword /\ m_bit_worthy m = false) ->
    _generate_memory_summary memories = Returns "".
Proof.
  intros memories Hne H. unfold _generate_memory_summary.
  destruct memories as [|m0 ms]; [contradiction|].
  rewrite (filter_none (fun m => relevance_eqb (relevance_type m) emotional))
    by (intros x Hx; destruct (H x Hx) as [-> _]; reflexivity).
  rewrite (filter_none (fun m => relevance_eqb (relevance_type m) semantic))
    by (intros x Hx; destruct (H x Hx) as [-> _]; reflexivity).
  rewrite (filter_none m_bit_worthy) by (intros x Hx; now destruct (H x Hx)).
  reflexivity.
Qed.

Lemma keyword_only_summary_is_empty_witness :
  _generate_memory_summary
    [row_memory (Some (3 # 3)%Q) keyword Samples.row_full;
     row_memory (Some (1 # 3)%Q) keyword Samples.row_part] = Returns "".
Proof.
  apply (keyword_only_summary_is_empty
           [row_memory (Some (3 # 3)%Q) keyword Samples.row_full;
            row_memory (Some (1 # 3)%Q) keyword Samples.row_part]).
  - discriminate.
  - intros m [<-|[<-|[]]]; split; reflexivity.
Defined.

(** ** The share of the emotion search *)

(** X26: the emotion search is asked for [max_memories // 2] rows, so with
    [max_memories] 0 or 1 it contributes nothing: no relevant memory is an
    emotion record, whatever the emotion and the table. *)
Theorem one_memory_leaves_no_room_for_emotion :
  forall (now : datetime) (db : table) (vec : vector_index) (text : string)
         (emo : option string) (max_memories : Z) (m : memory),
    0 <= max_memories <= 1 ->
    In m (relevant_memories now db vec text emo max_memories) ->
    emotional_of now db emo max_memories = []
    /\ relevance_type m <> emotional.
Proof.
  intros now db vec text emo mx m Hmx Hm.
  assert (He : emotional_of now db emo mx = []).
  { unfold emotional_of. destruct emo as [e|]; [|reflexivity].
    destruct (truthy (Some e)); [|reflexivity].
    unfold find_emotional_memories. destruct db as [rows|]; [|reflexivity].
    unfold floordiv2. rewrite Z.div_small by lia. reflexivity. }
  split; [exact He|].
  unfold relevant_memories, merge_memories in Hm. rewrite He, app_nil_r in Hm.
  apply py_slice_to_in, sort_desc_in, unique_by_text_in, find_similar_in in Hm.
  now destruct Hm as (_ & _ & _ & H).
Qed.

Lemma one_memory_leaves_no_room_for_emotion_witness :
  emotional_of Samples.t5 Samples.table1 (Some "calm") 1 = []
  /\ relevance_type Samples.near_memory <> emotional.
Proof.
  apply (one_memory_leaves_no_room_for_emotion Samples.t5 Samples.table1
           Samples.index1 "debugging" (Some "calm") 1 Samples.near_memory).
  - lia.
  - vm_compute. left. reflexivity.
Defined.

(** ** What a restore writes *)

Lemma max_rowid_snoc (rows : list interaction) (r : interaction) :
  max_rowid (rows ++ [r]) = Z.max (max_rowid rows) (Z.max (id r) 0).
Proof.
  induction rows as [|a rows IH]; simpl; [lia|]. rewrite IH. lia.
Qed.

Lemma max_rowid_nonneg (rows : list interaction) : 0 <= max_rowid rows.
Proof. induction rows as [|a rows IH]; simpl; lia. Qed.

(** X27: a restore that returns [True] appends exactly two rows to
    [interactions], the restored row under the next key and a restoration
    log under the key after it (source ['ai_delete_protection'], a text that
    names the key and the reason of the deletion), leaves the other rows as
    they were, and removes from [deleted_interactions] the rows of the
    restored key and no other. *)
Theorem restore_appends_row_and_log :
  forall (D : Type) (py_eval : D -> option interaction) (e : env) (s : db D) (i : Z),
    fst (restore_deleted_interaction py_eval e s i) = Returns true ->
    exists d o,
      fetch_deleted s i = Some d
      /\ py_eval (original_data d) = Some o
      /\ interactions (snd (restore_deleted_interaction py_eval e s i))
         = interactions s ++
             [mk_interaction (next_rowid s) (text o) (source o) (tags o) (emotion o)
                             (mood o) (intensity o) (bit_worthy o) (timestamp o)
                             (current_timestamp e);
              mk_interaction (next_rowid s + 1)
                             (restoration_log_text i (deletion_reason d))
                             (Some "ai_delete_protection")
                             (Some "restoration_log,ai_safety,recovery")
                             (Some "recovered") None 7 false (isoformat (now e))
                             (current_timestamp e)]
      /\ deleted_interactions (snd (restore_deleted_interaction py_eval e s i))
         = filter (fun x => negb (del_id x =? i)) (deleted_interactions s).
Proof.
  intros D py_eval e s i. unfold restore_deleted_interaction.
  destruct (fetch_deleted s i) as [d|]; simpl; [|discriminate].
  destruct (py_eval (original_data d)) as [o|] eqn:Ho; simpl; [|discriminate].
  intros _. exists d, o. split; [reflexivity|]. split; [exact Ho|].
  split; [|reflexivity].
  rewrite <- app_assoc. simpl. do 3 f_equal.
  unfold next_rowid at 1. simpl. rewrite max_rowid_snoc. simpl. f_equal.
  pose proof (max_rowid_nonneg (interactions s)).
  unfold next_rowid. lia.
Qed.

Lemma restore_appends_row_and_log_witness :
  exists d o,
    fetch_deleted MoreSamples.db1_deleted 1 = Some d
    /\ Samples.read_back (original_data d) = Some o
    /\ interactions (snd (restore_deleted_interaction Samples.read_back Samples.e1
                            MoreSamples.db1_deleted 1))
       = interactions MoreSamples.db1_deleted ++
           [mk_interaction (next_rowid MoreSamples.db1_deleted) (text o) (source o)
                           (tags o) (emotion o) (mood o) (intensity o) (bit_worthy o)
                           (timestamp o) (current_timestamp Samples.e1);
            mk_interaction (next_rowid MoreSamples.db1_deleted + 1)
                           (restoration_log_text 1 (deletion_reason d))
                           (Some "ai_delete_protection")
                           (Some "restoration_log,ai_safety,recovery")
                           (Some "recovered") None 7 false
                           (isoformat (now Samples.e1))
                           (current_timestamp Samples.e1)]
    /\ deleted_interactions (snd (restore_deleted_interaction Samples.read_back
                                    Samples.e1 MoreSamples.db1_deleted 1))
       = filter (fun x => negb (del_id x =? 1))
                (deleted_interactions MoreSamples.db1_deleted).
Proof.
  apply (restore_appends_row_and_log _ Samples.read_back Samples.e1
           MoreSamples.db1_deleted 1).
  reflexivity.
Defined.

(** ** The memories a prompt quotes *)

(** X28: [generate_context_prompt] quotes the first three memories only:
    the prompt is the same as for the list cut to three, so a fourth or
    later memory never changes it. *)
Theorem prompt_quotes_three_memories :
  forall (N : Z) (memories : list Rag.rag_memory) (helpers : option Rag.patterns)
         (query : string) (user_preferences : list (string * string)),
    Rag.generate_context_prompt N memories helpers query user_preferences
    = Rag.generate_context_prompt N (firstn 3 memories) helpers query user_preferences.
Proof.
  intros N memories helpers query prefs. unfold Rag.generate_context_prompt.
  destruct helpers as [p|]; [|reflexivity]. f_equal.
  unfold Rag.enhanced_prompt, Rag.context_sections.
  destruct memories as [|a [|b [|c l]]]; reflexivity.
Qed.

End EdgeFacts.
